(** * reaper: suspect classification, research resolution and the audit journal

    A shallow embedding of [src/analyzers/suspect_filter.py],
    [src/analyzers/ai_researcher.py], [src/utils/logger.py] and the analysis
    run of [scripts/analyze_suspects.py].

    Inventory records are Python dicts with string keys; they are modelled as
    [gmap string pyval].  Dicts whose iteration order is observable (the
    knowledge base, the research results grouped by kind) are association
    lists in insertion order.  A Python exception is [None] in the option
    monad.  Strings are 8-bit strings; [lower] folds ASCII letters only. *)

From Stdlib Require Import QArith Ascii String.
From stdpp Require Import gmap strings list fin_maps pretty.

Set Warnings "-register-all".
Set Default Proof Using "Type".

Local Open Scope string_scope.
Local Open Scope list_scope.

(** ** Python values *)

Inductive pyval : Type :=
| PNone
| PBool (b : bool)
| PInt (z : Z)
| PFloat (q : Q)
| PStr (s : string)
| PList (l : list pyval)
| PDict (d : gmap string pyval).

(** What the embedding takes from the Python runtime rather than from the
    repository: [repr] of floats and containers, and [re.compile].  A compiled
    pattern is represented by its [search] function; [None] is [re.error]. *)
Class PyBuiltins := {
  py_repr : pyval → string;
  re_compile : string → option (string → bool);
}.

Module Py.

Definition ascii_lower (c : ascii) : ascii :=
  let n := nat_of_ascii c in
  if (65 <=? n)%nat && (n <=? 90)%nat then ascii_of_nat (n + 32) else c.

(** [s.lower()] *)
Fixpoint lower (s : string) : string :=
  match s with
  | EmptyString => EmptyString
  | String c s' => String (ascii_lower c) (lower s')
  end.

(** [x in s] for two strings *)
Fixpoint contains (x s : string) : bool :=
  String.prefix x s ||
  match s with
  | EmptyString => false
  | String _ s' => contains x s'
  end.

(** [s * n] *)
Fixpoint repeat_string (s : string) (n : nat) : string :=
  match n with
  | O => ""
  | S n' => s +:+ repeat_string s n'
  end.

(** ["sep".join(l)] *)
Fixpoint join (sep : string) (l : list string) : string :=
  match l with
  | [] => ""
  | [x] => x
  | x :: l' => x +:+ sep +:+ join sep l'
  end.

(** Truth value of an object in a condition. *)
Definition truthy (v : pyval) : bool :=
  match v with
  | PNone => false
  | PBool b => b
  | PInt z => negb (z =? 0)%Z
  | PFloat q => negb (Qeq_bool q 0)
  | PStr s => negb (String.eqb s "")
  | PList l => match l with [] => false | _ => true end
  | PDict d => match map_to_list d with [] => false | _ => true end
  end.

(** [d.get(k, dflt)] and [d.get(k)] *)
Definition get (d : gmap string pyval) (k : string) (dflt : pyval) : pyval :=
  default dflt (d !! k).

Definition get_ (d : gmap string pyval) (k : string) : pyval := get d k PNone.

(** [d.update({k1: v1, ...})], the pairs in the order of the literal *)
Definition update (d : gmap string pyval) (kvs : list (string * pyval))
  : gmap string pyval :=
  foldl (λ d kv, <[kv.1 := kv.2]> d) d kvs.

(** [a or b] on objects *)
Definition or_ (a b : pyval) : pyval := if truthy a then a else b.

(** [str(v)], also what an f-string field produces. *)
Definition str `{PyBuiltins} (v : pyval) : string :=
  match v with
  | PNone => "None"
  | PBool true => "True"
  | PBool false => "False"
  | PInt z => pretty z
  | PStr s => s
  | PFloat _ | PList _ | PDict _ => py_repr v
  end.

(** [v.lower()]: only strings have the method. *)
Definition lower_of (v : pyval) : option string :=
  match v with
  | PStr s => Some (lower s)
  | _ => None
  end.

(** Numeric value of an operand of [>]; [bool] is a subclass of [int]. *)
Definition number (v : pyval) : option Q :=
  match v with
  | PInt z => Some (inject_Z z)
  | PFloat q => Some q
  | PBool b => Some (if b then 1%Q else 0%Q)
  | _ => None
  end.

(** [v > t] against a numeric threshold; [TypeError] for other operands. *)
Definition gt (v : pyval) (t : Q) : option bool :=
  q ← number v; Some (negb (Qle_bool q t)).

(** [v == s] for a string literal [s] *)
Definition eq_str (v : pyval) (s : string) : bool :=
  match v with
  | PStr s' => String.eqb s' s
  | _ => false
  end.

(** [s in v] for a string literal [s]: substring of a string, element of a
    list, key of a dict; [TypeError] when [v] is not iterable. *)
Definition str_in (s : string) (v : pyval) : option bool :=
  match v with
  | PStr s' => Some (contains s s')
  | PList l => Some (existsb (λ x, eq_str x s) l)
  | PDict d => Some (bool_decide (is_Some (d !! s)))
  | _ => None
  end.

(** The objects [for x in v] visits.  A dict yields its keys (in the map's
    own order: insertion order is not tracked for record dicts). *)
Definition iter (v : pyval) : option (list pyval) :=
  match v with
  | PList l => Some l
  | PStr s => Some ((λ c, PStr (String c "")) <$> list_ascii_of_string s)
  | PDict d => Some ((λ kv, PStr kv.1) <$> map_to_list d)
  | _ => None
  end.

End Py.

(** A record dict, and the store of record objects: the filter operations
    receive a list of references and update the objects they point to. *)
Abbreviation record := (gmap string pyval).
Abbreviation loc := positive.
Abbreviation heap := (gmap positive (gmap string pyval)).

(** The knowledge base (known_processes.yaml): a dict from item name to an
    entry dict, in iteration order. *)
Abbreviation knowledge_base := (list (string * gmap string pyval)).

(** [for x in items: body(x)] over objects of the store. *)
Fixpoint for_each (body : record → option record) (items : list loc) (h : heap)
  : option heap :=
  match items with
  | [] => Some h
  | l :: items' =>
      r ← h !! l;
      r' ← body r;
      for_each body items' (<[l := r']> h)
  end.

(** [for known_name, info in kb.items(): if test(known_name): return info] *)
Fixpoint first_info (test : string → bool) (kb : knowledge_base)
  : option (gmap string pyval) :=
  match kb with
  | [] => None
  | (known_name, info) :: kb' =>
      if test known_name then Some info else first_info test kb'
  end.

(** [self.known_processes[name]] when [name in self.known_processes] *)
Definition kb_get (kb : knowledge_base) (name : string)
  : option (gmap string pyval) :=
  first_info (String.eqb name) kb.

(** The record objects a list of references points to. *)
Definition deref (h : heap) (items : list loc) : option (list record) :=
  mapM (λ l, h !! l) items.

(** ** src/analyzers/suspect_filter.py *)

Module suspect_filter.

(** A compiled [re.Pattern]: its source and its [search]. *)
Record re_Pattern := { pattern : string; search : string → bool }.

Definition compile `{PyBuiltins} (src : string) : option re_Pattern :=
  m ← re_compile src; Some {| pattern := src; search := m |}.

Definition DEFAULT_PATTERNS : list string :=
  [ "(?i)chroma";
    "(?i)synapse";
    "(?i)icue";
    "(?i)corsair";
    "(?i)logitech.*gaming";
    "(?i)razer";
    "(?i)copilot";
    "(?i)recall";
    "(?i)cortana";
    "(?i)gamebar";
    "(?i)xbox(?!.*identity)";
    "(?i)yourphone";
    "(?i)teams";
    "(?i)onedrive";
    "(?i)edge.*update";
    "(?i)adobe.*update";
    "(?i)google.*update";
    "(?i)spotify";
    "(?i)discord";
    "(?i)steam";
    "(?i)epic.*games";
    "(?i)riot";
    "(?i)nvidia.*telemetry";
    "(?i)geforce.*experience" ].

(** The [suspect_filter] section of settings.yaml; an absent key is [None]
    (for the pattern list: the empty list). *)
Record Settings := {
  bloatware_patterns : list string;
  high_memory_threshold_percent : option Q;
  high_cpu_threshold_percent : option Q;
  flag_non_microsoft_setting : option bool;
}.

(** The [critical_keep_list] of manifest.yaml. *)
Record Manifest := {
  processes : list string;
  services : list string;
}.

Record SuspectFilter := {
  known_processes : knowledge_base;
  patterns : list re_Pattern;
  critical_keep : gset string;
  high_memory_threshold : Q;
  high_cpu_threshold : Q;
  flag_non_microsoft : bool;
}.

(** The compile loop: a pattern that raises [re.error] is skipped. *)
Fixpoint compile_all `{PyBuiltins} (srcs : list string) (compiled : list re_Pattern)
  : list re_Pattern :=
  match srcs with
  | [] => compiled
  | src :: srcs' =>
      match compile src with
      | Some p => compile_all srcs' (compiled ++ [p])
      | None => compile_all srcs' compiled
      end
  end.

Definition _compile_patterns `{PyBuiltins} (settings : Settings) : list re_Pattern :=
  let patterns := DEFAULT_PATTERNS in
  let settings_patterns := bloatware_patterns settings in
  let patterns := patterns ++ settings_patterns in
  compile_all patterns [].

Definition _build_critical_keep_set (manifest : Manifest) (kb : knowledge_base)
  : gset string :=
  let keep_set : gset string := ∅ in
  let keep_set := keep_set ∪ list_to_set (Py.lower <$> processes manifest) in
  let keep_set := keep_set ∪ list_to_set (Py.lower <$> services manifest) in
  foldl (λ (keep_set : gset string) (e : string * gmap string pyval),
           if Py.eq_str (Py.get_ e.2 "safety_rating") "CRITICAL"
           then keep_set ∪ {[ Py.lower e.1 ]}
           else keep_set)
        keep_set kb.

(** [__init__], from the three loaded configuration files. *)
Definition __init__ `{PyBuiltins} (settings : Settings) (kb : knowledge_base)
    (manifest : Manifest) : SuspectFilter :=
  {| known_processes := kb;
     patterns := _compile_patterns settings;
     critical_keep := _build_critical_keep_set manifest kb;
     high_memory_threshold := default 2.0%Q (high_memory_threshold_percent settings);
     high_cpu_threshold := default 5.0%Q (high_cpu_threshold_percent settings);
     flag_non_microsoft := default true (flag_non_microsoft_setting settings) |}.

(** The pattern loop shared by the four reason functions:
    [for pattern in self.patterns: if pattern.search(full_text):
       reasons.append(...); break] *)
Fixpoint scan_patterns (ps : list re_Pattern) (full_text : string)
    (reasons : list string) : list string :=
  match ps with
  | [] => reasons
  | p :: ps' =>
      if search p full_text
      then reasons ++ ["Matches bloatware pattern: " +:+ pattern p]
      else scan_patterns ps' full_text reasons
  end.

Definition is_None (v : pyval) : bool :=
  match v with PNone => true | _ => false end.

Definition _get_suspect_reasons_process `{PyBuiltins} (self : SuspectFilter)
    (proc : record) : option (list string) :=
  let reasons : list string := [] in
  name ← Py.lower_of (Py.get proc "name" (PStr ""));
  if bool_decide (name ∈ critical_keep self) then Some [] else
  let full_text :=
    Py.str (Py.get proc "name" (PStr "")) +:+ " " +:+
    Py.str (Py.get proc "exe_path" (PStr "")) +:+ " " +:+
    Py.str (Py.get proc "cmdline" (PStr "")) in
  let reasons := scan_patterns (patterns self) full_text reasons in
  let mem_percent := Py.get proc "memory_percent" (PInt 0) in
  high_mem ← Py.gt mem_percent (high_memory_threshold self);
  let reasons :=
    if (high_mem : bool)
    then reasons ++ ["High memory usage: " +:+ Py.str mem_percent +:+ "%"]
    else reasons in
  let cpu_percent := Py.get proc "cpu_percent" (PInt 0) in
  high_cpu ← Py.gt cpu_percent (high_cpu_threshold self);
  let reasons :=
    if (high_cpu : bool)
    then reasons ++ ["High CPU usage: " +:+ Py.str cpu_percent +:+ "%"]
    else reasons in
  if flag_non_microsoft self then
    let signature := Py.get_ proc "signature" in
    if Py.truthy signature then
      is_ms ← Py.str_in "Microsoft" signature;
      if negb (is_ms : bool)
      then Some (reasons ++ ["Non-Microsoft signed: " +:+ Py.str signature])
      else Some reasons
    else if is_None signature && Py.truthy (Py.get_ proc "exe_path")
    then Some (reasons ++ ["Unsigned or signature not found"])
    else Some reasons
  else Some reasons.

Definition _get_suspect_reasons_service `{PyBuiltins} (self : SuspectFilter)
    (svc : record) : option (list string) :=
  let reasons : list string := [] in
  name ← Py.lower_of (Py.get svc "name" (PStr ""));
  if bool_decide (name ∈ critical_keep self) then Some [] else
  let full_text :=
    Py.str (Py.get svc "name" (PStr "")) +:+ " " +:+
    Py.str (Py.get svc "display_name" (PStr "")) +:+ " " +:+
    Py.str (Py.get svc "path" (PStr "")) in
  let reasons := scan_patterns (patterns self) full_text reasons in
  let reasons :=
    if negb (Py.truthy (Py.get_ svc "is_microsoft"))
       && Py.eq_str (Py.get_ svc "start_mode") "Auto"
    then reasons ++ ["Third-party service set to Auto start"]
    else reasons in
  let reasons :=
    if negb (Py.truthy (Py.get_ svc "is_microsoft"))
       && Py.eq_str (Py.get_ svc "state") "Running"
    then reasons ++ ["Third-party service currently running"]
    else reasons in
  Some reasons.

Definition _get_suspect_reasons_startup `{PyBuiltins} (self : SuspectFilter)
    (item : record) : option (list string) :=
  let reasons : list string := [] in
  name ← Py.lower_of (Py.get item "name" (PStr ""));
  if bool_decide (name ∈ critical_keep self) then Some [] else
  let full_text :=
    Py.str (Py.get item "name" (PStr "")) +:+ " " +:+
    Py.str (Py.get item "command" (PStr "")) in
  let reasons := scan_patterns (patterns self) full_text reasons in
  let reasons :=
    if Py.truthy (Py.get item "enabled" (PBool true))
    then reasons ++ ["Enabled startup item"]
    else reasons in
  Some reasons.

Definition _get_suspect_reasons_task `{PyBuiltins} (self : SuspectFilter)
    (task : record) : option (list string) :=
  let reasons : list string := [] in
  name ← Py.lower_of (Py.get task "name" (PStr ""));
  if bool_decide (name ∈ critical_keep self) then Some [] else
  let full_text :=
    Py.str (Py.get task "name" (PStr "")) +:+ " " +:+
    Py.str (Py.get task "path" (PStr "")) +:+ " " +:+
    Py.str (Py.get task "actions" (PStr "")) in
  let reasons := scan_patterns (patterns self) full_text reasons in
  let reasons :=
    if negb (Py.truthy (Py.get_ task "is_microsoft"))
       && Py.truthy (Py.get_ task "runs_at_logon")
    then reasons ++ ["Third-party task runs at logon/boot"]
    else reasons in
  let reasons :=
    if negb (Py.truthy (Py.get_ task "is_microsoft"))
       && Py.eq_str (Py.get_ task "state") "Ready"
    then reasons ++ ["Third-party task is enabled"]
    else reasons in
  Some reasons.

(** Exact match, then case-insensitive match, then [None]; the name must be
    a string ([.lower()]). *)
Definition _get_known_info (self : SuspectFilter) (name : pyval) : option pyval :=
  match name with
  | PStr name =>
      match kb_get (known_processes self) name with
      | Some info => Some (PDict info)
      | None =>
          let name_lower := Py.lower name in
          match first_info (λ known_name, String.eqb (Py.lower known_name) name_lower)
                           (known_processes self) with
          | Some info => Some (PDict info)
          | None => Some PNone
          end
      end
  | _ => None
  end.

(** The body of the loop of each [filter_*] operation, on one record. *)
Definition mark (self : SuspectFilter)
    (reasons_of : record → option (list string)) (proc : record) : option record :=
  reasons ← reasons_of proc;
  let proc := <["is_suspect" := PBool (0 <? length reasons)%nat]> proc in
  let proc := <["suspect_reasons" := PList (PStr <$> reasons)]> proc in
  known_info ← _get_known_info self (Py.get proc "name" (PStr ""));
  Some (<["known_info" := known_info]> proc).

Definition filter_processes `{PyBuiltins} (self : SuspectFilter)
    (processes : list loc) (h : heap) : option (list loc * heap) :=
  h' ← for_each (mark self (_get_suspect_reasons_process self)) processes h;
  Some (processes, h').

Definition filter_services `{PyBuiltins} (self : SuspectFilter)
    (services : list loc) (h : heap) : option (list loc * heap) :=
  h' ← for_each (mark self (_get_suspect_reasons_service self)) services h;
  Some (services, h').

Definition filter_startup_items `{PyBuiltins} (self : SuspectFilter)
    (items : list loc) (h : heap) : option (list loc * heap) :=
  h' ← for_each (mark self (_get_suspect_reasons_startup self)) items h;
  Some (items, h').

Definition filter_tasks `{PyBuiltins} (self : SuspectFilter)
    (tasks : list loc) (h : heap) : option (list loc * heap) :=
  h' ← for_each (mark self (_get_suspect_reasons_task self)) tasks h;
  Some (tasks, h').

(** [get_suspects_only], on record values. *)
Definition get_suspects_only (items : list record) : list record :=
  filter (λ item, Py.truthy (Py.get_ item "is_suspect") = true) items.

(** One block of the dict [get_summary] returns: the two counts and, for
    each suspect, its [name] and [reasons]. *)
Record KindSummary := {
  total : nat;
  suspect : nat;
  items : list (pyval * pyval);
}.

Record FilterSummary := {
  summary_processes : KindSummary;
  summary_services : KindSummary;
  summary_startup_items : KindSummary;
  summary_tasks : KindSummary;
  total_suspects : nat;
}.

(** [[{"name": p["name"], "reasons": p["suspect_reasons"]} for p in suspects]];
    a subscript of a missing key raises [KeyError]. *)
Definition summary_items (suspects : list record) : option (list (pyval * pyval)) :=
  mapM (λ p : record,
          name ← p !! "name";
          reasons ← p !! "suspect_reasons";
          Some (name, reasons))
       suspects.

Definition get_summary (processes services startup_items tasks : list record)
  : option FilterSummary :=
  let suspect_processes := get_suspects_only processes in
  let suspect_services := get_suspects_only services in
  let suspect_startup := get_suspects_only startup_items in
  let suspect_tasks := get_suspects_only tasks in
  process_items ← summary_items suspect_processes;
  service_items ← summary_items suspect_services;
  startup_items' ← summary_items suspect_startup;
  task_items ← summary_items suspect_tasks;
  Some {| summary_processes :=
            {| total := length processes;
               suspect := length suspect_processes;
               items := process_items |};
          summary_services :=
            {| total := length services;
               suspect := length suspect_services;
               items := service_items |};
          summary_startup_items :=
            {| total := length startup_items;
               suspect := length suspect_startup;
               items := startup_items' |};
          summary_tasks :=
            {| total := length tasks;
               suspect := length suspect_tasks;
               items := task_items |};
          total_suspects :=
            length suspect_processes + length suspect_services
            + length suspect_startup + length suspect_tasks |}.

End suspect_filter.

(** ** src/analyzers/ai_researcher.py *)

Module ai_researcher.

Record AIResearcher := {
  output_dir : string;
  known_processes : knowledge_base;
}.

Definition nl : string := String "010" "".
Definition dquote : string := String "034" "".

(** Exact match, then case-insensitive match, then partial match in either
    direction; the name must be a string ([.lower()]). *)
Definition _lookup_known (self : AIResearcher) (name : pyval) : option pyval :=
  match name with
  | PStr name =>
      match kb_get (known_processes self) name with
      | Some info => Some (PDict info)
      | None =>
          let name_lower := Py.lower name in
          match first_info (λ known_name, String.eqb (Py.lower known_name) name_lower)
                           (known_processes self) with
          | Some info => Some (PDict info)
          | None =>
              match first_info
                      (λ known_name,
                         Py.contains (Py.lower known_name) name_lower
                         || Py.contains name_lower (Py.lower known_name))
                      (known_processes self) with
              | Some info => Some (PDict info)
              | None => Some PNone
              end
          end
      end
  | _ => None
  end.

Definition _guess_category `{PyBuiltins} (item : record) : option string :=
  name ← Py.lower_of (Py.get item "name" (PStr ""));
  let path :=
    Py.lower (Py.str (Py.get item "exe_path"
                        (Py.get item "path" (Py.get item "command" (PStr ""))))) in
  let hit := λ x, Py.contains x name || Py.contains x path in
  if existsb hit ["update"; "updater"] then Some "updater"
  else if existsb hit ["rgb"; "chroma"; "lighting"; "icue"] then Some "rgb_software"
  else if existsb hit ["copilot"; "recall"; "cortana"; "ai"] then Some "ai_feature"
  else if existsb hit ["telemetry"; "diag"; "feedback"] then Some "telemetry"
  else if existsb hit ["game"; "steam"; "epic"; "xbox"] then Some "gaming"
  else if existsb hit ["driver"; "drv"] then Some "driver"
  else if existsb hit ["security"; "antivirus"; "defender"] then Some "security"
  else Some "unknown".

Definition publishers : list (string * string) :=
  [ ("microsoft", "Microsoft");
    ("google", "Google");
    ("adobe", "Adobe");
    ("nvidia", "NVIDIA");
    ("amd", "AMD");
    ("intel", "Intel");
    ("razer", "Razer Inc.");
    ("corsair", "Corsair");
    ("logitech", "Logitech");
    ("steam", "Valve");
    ("discord", "Discord Inc.") ].

Fixpoint first_publisher (path : string) (table : list (string * string)) : pyval :=
  match table with
  | [] => PNone
  | (key, publisher) :: table' =>
      if Py.contains key path then PStr publisher else first_publisher path table'
  end.

Definition _extract_publisher `{PyBuiltins} (item : record) : pyval :=
  if Py.truthy (Py.get_ item "signature") then Py.get_ item "signature"
  else if Py.truthy (Py.get_ item "author") then Py.get_ item "author"
  else
    let path := Py.lower (Py.str (Py.get item "exe_path" (Py.get item "path" (PStr "")))) in
    first_publisher path publishers.

Definition _generate_research_notes `{PyBuiltins} (item : record)
    (item_type : string) : option string :=
  let notes : list string := [] in
  let name := Py.get item "name" (PStr "Unknown") in
  let notes := notes ++ ["Item '" +:+ Py.str name +:+ "' requires manual research."] in
  let notes := notes ++ [nl +:+ "Suggested searches:"] in
  let notes := notes ++ ["  - " +:+ dquote +:+ Py.str name +:+ " what is" +:+ dquote] in
  let notes := notes ++ ["  - " +:+ dquote +:+ Py.str name +:+ " safe to disable" +:+ dquote] in
  let notes := notes ++ ["  - " +:+ dquote +:+ Py.str name +:+ " Windows 11" +:+ dquote] in
  let path :=
    Py.or_ (Py.or_ (Py.get_ item "exe_path") (Py.get_ item "path"))
           (Py.get_ item "command") in
  let notes :=
    if Py.truthy path then notes ++ [nl +:+ "File location: " +:+ Py.str path]
    else notes in
  let reasons := Py.get item "suspect_reasons" (PList []) in
  notes ← (if Py.truthy reasons then
             rs ← Py.iter reasons;
             Some ((notes ++ [nl +:+ "Flagged because:"])
                     ++ ((λ reason, "  - " +:+ Py.str reason) <$> rs))
           else Some notes);
  Some (Py.join nl notes).

Definition _extract_item_details (item : record) (item_type : string) : record :=
  let details : record := {[ "type" := PStr item_type ]} in
  if String.eqb item_type "process" then
    Py.update details
      [ ("pid", Py.get_ item "pid");
        ("exe_path", Py.get_ item "exe_path");
        ("memory_mb", Py.get_ item "memory_mb");
        ("cpu_percent", Py.get_ item "cpu_percent");
        ("parent", Py.get_ item "parent_name") ]
  else if String.eqb item_type "service" then
    Py.update details
      [ ("display_name", Py.get_ item "display_name");
        ("state", Py.get_ item "state");
        ("start_mode", Py.get_ item "start_mode");
        ("path", Py.get_ item "path");
        ("account", Py.get_ item "account") ]
  else if String.eqb item_type "startup" then
    Py.update details
      [ ("command", Py.get_ item "command");
        ("source", Py.get_ item "source");
        ("location", Py.get_ item "location");
        ("enabled", Py.get_ item "enabled") ]
  else if String.eqb item_type "task" then
    Py.update details
      [ ("path", Py.get_ item "path");
        ("state", Py.get_ item "state");
        ("triggers", Py.get_ item "triggers");
        ("actions", Py.get_ item "actions");
        ("runs_at_logon", Py.get_ item "runs_at_logon") ]
  else details.

(** [known_info.get(...)]: only a dict has the method. *)
Definition as_dict (v : pyval) : option record :=
  match v with
  | PDict d => Some d
  | _ => None
  end.

(** [item.get("known_info") or self._lookup_known(name)] *)
Definition resolve_known (self : AIResearcher) (item : record) (name : pyval)
  : option pyval :=
  if Py.truthy (Py.get_ item "known_info") then Some (Py.get_ item "known_info")
  else _lookup_known self name.

(** [now] is the reading of the clock for [researched_at]. *)
Definition research_item `{PyBuiltins} (self : AIResearcher) (now : string)
    (item : record) (item_type : string) : option record :=
  let name := Py.get item "name" (PStr "Unknown") in
  known_info ← resolve_known self item name;
  let research : record :=
    Py.update ∅
      [ ("name", name);
        ("type", PStr item_type);
        ("researched_at", PStr now);
        ("suspect_reasons", Py.get item "suspect_reasons" (PList [])) ] in
  research ←
    (if Py.truthy known_info then
       info ← as_dict known_info;
       Some (Py.update research
               [ ("source", PStr "known_processes_database");
                 ("category", Py.get_ info "category");
                 ("publisher", Py.get_ info "publisher");
                 ("purpose", Py.get_ info "purpose");
                 ("recommendation", Py.get_ info "recommendation");
                 ("safety_rating", Py.get_ info "safety_rating");
                 ("notes", Py.get_ info "notes");
                 ("requires_further_research", PBool false) ])
     else
       category ← _guess_category item;
       notes ← _generate_research_notes item item_type;
       Some (Py.update research
               [ ("source", PStr "needs_research");
                 ("category", PStr category);
                 ("publisher", _extract_publisher item);
                 ("purpose", PStr "Unknown - requires research");
                 ("recommendation", PStr "REVIEW");
                 ("safety_rating", PStr "UNKNOWN");
                 ("notes", PStr notes);
                 ("requires_further_research", PBool true) ]));
  Some (<["item_details" := PDict (_extract_item_details item item_type)]> research).

(** The research results grouped by kind: a dict in insertion order. *)
Abbreviation results := (list (string * list (gmap string pyval))).

(** One loop of [research_all_suspects]:
    [for x in items: if x.get("is_suspect"): out.append(self.research_item(x, item_type))].
    Each call of [research_item] reads the clock once; [tick] counts the
    readings made so far and [clock] gives the reading of each tick. *)
Fixpoint research_kind `{PyBuiltins} (self : AIResearcher) (clock : nat → string)
    (item_type : string) (items : list record) (tick : nat) (out : list record)
  : option (nat * list record) :=
  match items with
  | [] => Some (tick, out)
  | item :: items' =>
      if Py.truthy (Py.get_ item "is_suspect") then
        research ← research_item self (clock tick) item item_type;
        research_kind self clock item_type items' (S tick) (out ++ [research])
      else research_kind self clock item_type items' tick out
  end.

Definition research_all_suspects `{PyBuiltins} (self : AIResearcher)
    (clock : nat → string) (processes services startup_items tasks : list record)
  : option results :=
  r1 ← research_kind self clock "process" processes 0 [];
  r2 ← research_kind self clock "service" services r1.1 [];
  r3 ← research_kind self clock "startup" startup_items r2.1 [];
  r4 ← research_kind self clock "task" tasks r3.1 [];
  Some [ ("processes", r1.2); ("services", r2.2);
         ("startup_items", r3.2); ("tasks", r4.2) ].

(** The four buckets. *)
Abbreviation recommendations := (gmap string (list (gmap string pyval))).

(** The body of the inner loop of [generate_recommendations]. *)
Definition add_recommendation (item_type : string) (recs : recommendations)
    (item : record) : option recommendations :=
  match Py.get item "recommendation" (PStr "REVIEW") with
  | PStr rec =>
      bucket ← recs !! rec;
      name ← item !! "name";
      Some (<[rec := bucket ++
                [ Py.update ∅
                    [ ("name", name);
                      ("type", PStr item_type);
                      ("category", Py.get_ item "category");
                      ("purpose", Py.get_ item "purpose");
                      ("safety_rating", Py.get_ item "safety_rating") ] ]]> recs)
  | _ => None
  end.

Fixpoint add_items (item_type : string) (items : list record)
    (recs : recommendations) : option recommendations :=
  match items with
  | [] => Some recs
  | item :: items' =>
      recs' ← add_recommendation item_type recs item;
      add_items item_type items' recs'
  end.

Fixpoint add_kinds (res : results) (recs : recommendations)
  : option recommendations :=
  match res with
  | [] => Some recs
  | (item_type, items) :: res' =>
      recs' ← add_items item_type items recs;
      add_kinds res' recs'
  end.

Definition generate_recommendations (res : results) : option recommendations :=
  let recs : recommendations :=
    {[ "REMOVE" := []; "DISABLE" := []; "KEEP" := []; "REVIEW" := [] ]} in
  add_kinds res recs.

End ai_researcher.

(** ** src/utils/logger.py *)

Module logger.

Definition nl : string := String "010" "".
Definition dquote : string := String "034" "".

(** One entry of [self.changes]. *)
Record Change := {
  timestamp : string;
  action : string;
  target : string;
  target_type : string;
  before_state : pyval;
  after_state : pyval;
  rollback_command : string;
  success : bool;
  error : option string;
}.

(** The dict [get_summary] returns. *)
Record Summary := {
  summary_session_id : string;
  total_changes : nat;
  successful : nat;
  failed : nat;
  by_type : gmap string nat;
  summary_log_file : string;
  summary_rollback_file : string;
}.

(** The logger object together with the content of the three files it
    writes: the execution log (opened for writing once, then appended to),
    the rollback script and the structured log (both rewritten whole;
    [None] before they exist). *)
Record AuditLogger := {
  output_dir : string;
  session_id : string;
  log_file : string;
  rollback_file : string;
  changes : list Change;
  rollback_commands : list string;
  log_text : string;
  rollback_text : option string;
  yaml_log : option (Summary * list Change);
}.

(** [open(self.log_file, 'a').write(text)] *)
Definition append_log (self : AuditLogger) (text : string) : AuditLogger :=
  {| output_dir := output_dir self;
     session_id := session_id self;
     log_file := log_file self;
     rollback_file := rollback_file self;
     changes := changes self;
     rollback_commands := rollback_commands self;
     log_text := log_text self +:+ text;
     rollback_text := rollback_text self;
     yaml_log := yaml_log self |}.

(** [Path / name], with the POSIX separator. *)
Definition path_join (dir name : string) : string := dir +:+ "/" +:+ name.

(** The text [_write_header] writes. *)
Definition header (session_id now : string) : string :=
  "# Windows Optimization Toolkit - Audit Log" +:+ nl +:+
  "# Session: " +:+ session_id +:+ nl +:+
  "# Started: " +:+ now +:+ nl +:+
  "# " +:+ Py.repeat_string "=" 70 +:+ nl +:+ nl.

(** [__init__]; [stamp] is the clock formatted for the session id and
    [now] its ISO reading for the header. *)
Definition __init__ (output_dir : option string) (stamp now : string) : AuditLogger :=
  let output_dir := default "data/audit_logs" output_dir in
  let session_id := stamp in
  {| output_dir := output_dir;
     session_id := session_id;
     log_file := path_join output_dir (session_id +:+ "_execution.log");
     rollback_file := path_join output_dir (session_id +:+ "_rollback.ps1");
     changes := [];
     rollback_commands := [];
     log_text := header session_id now;
     rollback_text := None;
     yaml_log := None |}.

Definition log_change `{PyBuiltins} (self : AuditLogger) (now : string)
    (action target target_type : string) (before_state after_state : pyval)
    (rollback_command : string) (success : bool) (error : option string)
  : AuditLogger :=
  let timestamp := now in
  let change :=
    {| timestamp := timestamp; action := action; target := target;
       target_type := target_type; before_state := before_state;
       after_state := after_state; rollback_command := rollback_command;
       success := success; error := error |} in
  let status := if success then "SUCCESS" else "FAILED" in
  let text :=
    "[" +:+ timestamp +:+ "] " +:+ status +:+ ": " +:+ action +:+ " - " +:+ target +:+ nl +:+
    "  Type: " +:+ target_type +:+ nl +:+
    "  Before: " +:+ Py.str before_state +:+ nl +:+
    "  After: " +:+ Py.str after_state +:+ nl +:+
    match error with
    | Some e => if String.eqb e "" then "" else "  Error: " +:+ e +:+ nl
    | None => ""
    end +:+
    "  Rollback: " +:+ rollback_command +:+ nl +:+
    nl in
  let rollback_commands :=
    if success && negb (String.eqb rollback_command "")
    then ((rollback_commands self
             ++ ["# Rollback: " +:+ action +:+ " - " +:+ target])
             ++ [rollback_command])
             ++ [""]
    else rollback_commands self in
  {| output_dir := output_dir self;
     session_id := session_id self;
     log_file := log_file self;
     rollback_file := rollback_file self;
     changes := changes self ++ [change];
     rollback_commands := rollback_commands;
     log_text := log_text self +:+ text;
     rollback_text := rollback_text self;
     yaml_log := yaml_log self |}.

Definition log_dry_run `{PyBuiltins} (self : AuditLogger) (now : string)
    (action target target_type : string) (current_state planned_state : pyval)
  : AuditLogger :=
  append_log self
    ("[" +:+ now +:+ "] DRY-RUN: " +:+ action +:+ " - " +:+ target +:+ nl +:+
     "  Type: " +:+ target_type +:+ nl +:+
     "  Current: " +:+ Py.str current_state +:+ nl +:+
     "  Planned: " +:+ Py.str planned_state +:+ nl +:+
     nl).

Definition log_message (self : AuditLogger) (now message level : string)
  : AuditLogger :=
  append_log self ("[" +:+ now +:+ "] " +:+ level +:+ ": " +:+ message +:+ nl).

(** The lines the script lists between its prologue and its epilogue:
    [reversed(self.rollback_commands)]. *)
Definition rollback_lines (self : AuditLogger) : list string :=
  rev (rollback_commands self).



(** [by_type[t] = by_type.get(t, 0) + 1] over the successful changes. *)
Fixpoint count_by_type (successful : list Change) (by_type : gmap string nat)
  : gmap string nat :=
  match successful with
  | [] => by_type
  | change :: rest =>
      let t := target_type change in
      count_by_type rest (<[t := default 0 (by_type !! t) + 1]> by_type)
  end.

Definition get_summary (self : AuditLogger) : Summary :=
  let successful := filter (λ c, success c = true) (changes self) in
  let failed := filter (λ c, success c = false) (changes self) in
  let by_type := count_by_type successful ∅ in
  {| summary_session_id := session_id self;
     total_changes := length (changes self);
     successful := length successful;
     failed := length failed;
     by_type := by_type;
     summary_log_file := log_file self;
     summary_rollback_file := rollback_file self |}.



(** A call on the journal, with the clock reading it makes. *)
Inductive call :=
| LogChange (now action target target_type : string)
    (before_state after_state : pyval) (rollback_command : string)
    (success : bool) (error : option string)
| LogDryRun (now action target target_type : string)
    (current_state planned_state : pyval)
| LogMessage (now message level : string).

Definition do_call `{PyBuiltins} (self : AuditLogger) (c : call) : AuditLogger :=
  match c with
  | LogChange now a t ty b af cmd ok err => log_change self now a t ty b af cmd ok err
  | LogDryRun now a t ty cur pl => log_dry_run self now a t ty cur pl
  | LogMessage now m lvl => log_message self now m lvl
  end.

Definition run `{PyBuiltins} (self : AuditLogger) (calls : list call) : AuditLogger :=
  foldl do_call self calls.

End logger.

(** ** scripts/analyze_suspects.py *)

Module analyze_suspects.

(** The computation of [main] between loading the inventories and writing the
    results: the four filter operations on the loaded record objects, the
    summary, the research of the suspects and the aggregation. *)
Definition analyze `{PyBuiltins} (suspect_filter : suspect_filter.SuspectFilter)
    (researcher : ai_researcher.AIResearcher) (clock : nat → string)
    (processes services startup_items tasks : list loc) (h : heap)
  : option (heap * suspect_filter.FilterSummary
            * ai_researcher.results * ai_researcher.recommendations) :=
  f1 ← suspect_filter.filter_processes suspect_filter processes h;
  f2 ← suspect_filter.filter_services suspect_filter services f1.2;
  f3 ← suspect_filter.filter_startup_items suspect_filter startup_items f2.2;
  f4 ← suspect_filter.filter_tasks suspect_filter tasks f3.2;
  filtered_processes ← deref f4.2 f1.1;
  filtered_services ← deref f4.2 f2.1;
  filtered_startup ← deref f4.2 f3.1;
  filtered_tasks ← deref f4.2 f4.1;
  summary ← suspect_filter.get_summary
               filtered_processes filtered_services filtered_startup filtered_tasks;
  research_results ← ai_researcher.research_all_suspects researcher clock
               filtered_processes filtered_services filtered_startup filtered_tasks;
  recommendations ← ai_researcher.generate_recommendations research_results;
  Some (f4.2, summary, research_results, recommendations).

End analyze_suspects.

(** ** A runtime instance for running the model

    A matcher for the dialect the built-in catalogue is written in:
    [(?i)] followed by a literal, by [a.*b], or by [a(?!.*b)].  Sources
    outside the dialect are rejected like malformed ones. *)

Module catalogue_re.

Inductive shape :=
| Lit (a : string)
| Then (a b : string)
| NotFollowed (a b : string).

Definition alnum (c : ascii) : bool :=
  let n := nat_of_ascii c in
  ((48 <=? n) && (n <=? 57) || (65 <=? n) && (n <=? 90) || (97 <=? n) && (n <=? 122))%nat.

Definition plain (s : string) : bool := forallb alnum (list_ascii_of_string s).

Fixpoint skip (n : nat) (s : string) : string :=
  match n, s with
  | S n', String _ s' => skip n' s'
  | _, _ => s
  end.

(** Split at the first occurrence of [sep]. *)
Fixpoint split_on (sep s : string) : option (string * string) :=
  if String.prefix sep s then Some ("", skip (String.length sep) s)
  else match s with
       | EmptyString => None
       | String c s' =>
           match split_on sep s' with
           | Some (a, b) => Some (String c a, b)
           | None => None
           end
       end.

Definition parse (src : string) : option shape :=
  if String.prefix "(?i)" src then
    let body := skip 4 src in
    match split_on "(?!.*" body with
    | Some (a, rest) =>
        match split_on ")" rest with
        | Some (b, "") => if plain a && plain b then Some (NotFollowed a b) else None
        | _ => None
        end
    | None =>
        match split_on ".*" body with
        | Some (a, b) => if plain a && plain b then Some (Then a b) else None
        | None => if plain body then Some (Lit body) else None
        end
    end
  else None.

(** [.] does not match a newline: what follows on the same line. *)
Fixpoint first_line (s : string) : string :=
  match s with
  | EmptyString => EmptyString
  | String c s' => if Ascii.eqb c "010" then EmptyString else String c (first_line s')
  end.

(** The remainders of [t] after each occurrence of [a]. *)
Fixpoint after_each (a t : string) : list string :=
  (if String.prefix a t then [skip (String.length a) t] else []) ++
  match t with
  | EmptyString => []
  | String _ t' => after_each a t'
  end.

Definition search (sh : shape) (text : string) : bool :=
  let t := Py.lower text in
  match sh with
  | Lit a => Py.contains (Py.lower a) t
  | Then a b =>
      existsb (λ rest, Py.contains (Py.lower b) (first_line rest))
              (after_each (Py.lower a) t)
  | NotFollowed a b =>
      existsb (λ rest, negb (Py.contains (Py.lower b) (first_line rest)))
              (after_each (Py.lower a) t)
  end.

Definition builtins : PyBuiltins :=
  {| py_repr := λ _, "<object>";
     re_compile := λ src, search <$> parse src |}.

End catalogue_re.



(** ** Vocabulary of the statements *)

Import suspect_filter.

(** The four variants of an inventory record. *)
Inductive kind := Process | Service | StartupItem | ScheduledTask.

Definition is_str (v : pyval) : bool :=
  match v with PStr _ => true | _ => false end.

Definition is_number (v : pyval) : bool :=
  match v with PInt _ | PFloat _ | PBool _ => true | _ => false end.

(** Records as the collectors produce them: a string name, and for a process
    numeric usage figures and a signature that is a string or [None]. *)
Definition well_formed (k : kind) (r : record) : bool :=
  is_str (Py.get r "name" (PStr "")) &&
  match k with
  | Process =>
      is_number (Py.get r "memory_percent" (PInt 0)) &&
      is_number (Py.get r "cpu_percent" (PInt 0)) &&
      (is_None (Py.get_ r "signature") || is_str (Py.get_ r "signature"))
  | _ => true
  end.

(** The three fields the filter operations write. *)
Definition added_fields : gset string :=
  {[ "is_suspect"; "suspect_reasons"; "known_info" ]}.

Definition pattern_reason (p : re_Pattern) : string :=
  "Matches bloatware pattern: " +:+ pattern p.

Definition is_pattern_reason (s : string) : bool :=
  String.prefix "Matches bloatware pattern: " s.

(** The reason contributed by the first rule, in list order, that matches. *)
Definition first_match_reason (ps : list re_Pattern) (text : string) : list string :=
  match list_find (λ p, search p text = true) ps with
  | Some (_, p) => [pattern_reason p]
  | None => []
  end.

(** The same filter with an empty rule list. *)
Definition without_patterns (self : SuspectFilter) : SuspectFilter :=
  {| known_processes := known_processes self;
     patterns := [];
     critical_keep := critical_keep self;
     high_memory_threshold := high_memory_threshold self;
     high_cpu_threshold := high_cpu_threshold self;
     flag_non_microsoft := flag_non_microsoft self |}.

Section classification.
Context `{PyBuiltins}.

Definition reasons_of (self : SuspectFilter) (k : kind)
  : record → option (list string) :=
  match k with
  | Process => _get_suspect_reasons_process self
  | Service => _get_suspect_reasons_service self
  | StartupItem => _get_suspect_reasons_startup self
  | ScheduledTask => _get_suspect_reasons_task self
  end.

Definition filter_op (self : SuspectFilter) (k : kind)
  : list loc → heap → option (list loc * heap) :=
  match k with
  | Process => filter_processes self
  | Service => filter_services self
  | StartupItem => filter_startup_items self
  | ScheduledTask => filter_tasks self
  end.

(** The search string of each kind. *)
Definition full_text (k : kind) (r : record) : string :=
  let field := λ key, Py.str (Py.get r key (PStr "")) in
  match k with
  | Process => field "name" +:+ " " +:+ field "exe_path" +:+ " " +:+ field "cmdline"
  | Service => field "name" +:+ " " +:+ field "display_name" +:+ " " +:+ field "path"
  | StartupItem => field "name" +:+ " " +:+ field "command"
  | ScheduledTask => field "name" +:+ " " +:+ field "path" +:+ " " +:+ field "actions"
  end.

End classification.

(** *** Knowledge-base lookups *)

(** The entry of the first name, in iteration order, that passes [test]. *)
Definition kb_first (test : string → bool) (kb : knowledge_base)
  : option (gmap string pyval) :=
  (λ hit, hit.2.2) <$> list_find (λ e, test e.1 = true) kb.

(** The three ways a known name can match a record name. *)
Definition kb_exact (name known_name : string) : bool :=
  String.eqb name known_name.

Definition kb_folded (name known_name : string) : bool :=
  String.eqb (Py.lower known_name) (Py.lower name).

Definition kb_partial (name known_name : string) : bool :=
  Py.contains (Py.lower known_name) (Py.lower name)
  || Py.contains (Py.lower name) (Py.lower known_name).

(** A lookup result as the object the code returns. *)
Definition found (o : option (gmap string pyval)) : pyval :=
  from_option PDict PNone o.

(** *** Category guess *)

(** The keyword buckets, in the order of the specification. *)
Definition category_buckets : list (string * list string) :=
  [ ("updater", ["update"; "updater"]);
    ("rgb_software", ["rgb"; "chroma"; "lighting"; "icue"]);
    ("ai_feature", ["copilot"; "recall"; "cortana"; "ai"]);
    ("telemetry", ["telemetry"; "diag"; "feedback"]);
    ("gaming", ["game"; "steam"; "epic"; "xbox"]);
    ("driver", ["driver"; "drv"]);
    ("security", ["security"; "antivirus"; "defender"]) ].

(** The first bucket one of whose keywords occurs in [name] or [path], else
    ["unknown"]. *)
Definition first_bucket (name path : string) : string :=
  match list_find
          (λ b : string * list string,
             existsb (λ x, Py.contains x name || Py.contains x path) b.2 = true)
          category_buckets with
  | Some (_, b) => b.1
  | None => "unknown"
  end.

(** The path the guess looks at: the first present of [exe_path], [path] and
    [command], as a lower-cased string. *)
Definition category_path `{PyBuiltins} (item : record) : string :=
  Py.lower (Py.str (Py.get item "exe_path"
                      (Py.get item "path" (Py.get item "command" (PStr ""))))).

(** *** Aggregation *)

Definition BUCKETS : list string := ["REMOVE"; "DISABLE"; "KEEP"; "REVIEW"].

(** The research results in traversal order: kind by kind, and within a kind
    in list order, each with the key of its kind. *)
Definition traversal (res : ai_researcher.results) : list (string * record) :=
  e ← res; (λ item, (e.1, item)) <$> e.2.

Definition recommendation_of (item : record) : pyval :=
  Py.get item "recommendation" (PStr "REVIEW").

(** The entry a bucket receives for a result. *)
Definition bucket_entry (e : string * record) : record :=
  Py.update ∅
    [ ("name", Py.get_ e.2 "name");
      ("type", PStr e.1);
      ("category", Py.get_ e.2 "category");
      ("purpose", Py.get_ e.2 "purpose");
      ("safety_rating", Py.get_ e.2 "safety_rating") ].

(** The results recommended [b], in traversal order. *)
Definition bucket (b : string) (res : ai_researcher.results) : list record :=
  bucket_entry <$> filter (λ e, Py.eq_str (recommendation_of e.2) b = true) (traversal res).

(** *** Journal *)

(** The lines a call appends to [rollback_commands]. *)
Definition rollback_block (c : logger.call) : list string :=
  match c with
  | logger.LogChange _ action target _ _ _ rollback_command success _ =>
      if success && negb (String.eqb rollback_command "")
      then ["# Rollback: " +:+ action +:+ " - " +:+ target; rollback_command; ""]
      else []
  | _ => []
  end.

(** Whether a reason list holds a reason starting with [prefix]. *)
Definition has_reason (prefix : string) (rs : list string) : bool :=
  existsb (String.prefix prefix) rs.

(** [out] holds the research of the suspects of [items], in order, the
    [i]-th made at clock reading [tick + i]. *)
Definition researched `{PyBuiltins} (self : ai_researcher.AIResearcher)
    (clock : nat → string) (item_type : string) (tick : nat)
    (items out : list record) : Prop :=
  length out = length (get_suspects_only items) ∧
  ∀ i item, get_suspects_only items !! i = Some item →
    ∃ res, out !! i = Some res ∧
           ai_researcher.research_item self (clock (tick + i)) item item_type = Some res.

(** The entry a call appends to [changes]: one per [log_change], none for a
    dry run or a message. *)
Definition change_of (c : logger.call) : option logger.Change :=
  match c with
  | logger.LogChange now action target target_type before_state after_state
      rollback_command success error =>
      Some {| logger.timestamp := now; logger.action := action;
              logger.target := target; logger.target_type := target_type;
              logger.before_state := before_state;
              logger.after_state := after_state;
              logger.rollback_command := rollback_command;
              logger.success := success; logger.error := error |}
  | _ => None
  end.

(** A recording that succeeded and has a rollback command. *)
Definition reversible (c : logger.call) : bool :=
  match c with
  | logger.LogChange _ _ _ _ _ _ rollback_command success _ =>
      success && negb (String.eqb rollback_command "")
  | _ => false
  end.

(** The successful changes whose target type is [t]. *)
Definition successes_of_type (t : string) (changes : list logger.Change)
  : list logger.Change :=
  filter (λ c, logger.success c = true ∧ logger.target_type c = t) changes.

(** *** The analysis run *)

(** The record has a [name] key that holds a string. *)
Definition named (r : record) : Prop := ∃ name, r !! "name" = Some (PStr name).

(** An inventory list as the collectors write it: every reference points to
    a well-formed record of the kind, with a name. *)
Definition inventory (k : kind) (items : list loc) (h : heap) : Prop :=
  ∀ l, l ∈ items → ∃ r, h !! l = Some r ∧ named r ∧ well_formed k r = true.

(** A record as a filter operation over [kb] leaves it: named, with a list
    of reasons, and with [known_info] [None] or an entry of [kb]. *)
Definition classified (kb : knowledge_base) (r : record) : Prop :=
  named r ∧
  (∃ rs, r !! "suspect_reasons" = Some (PList rs)) ∧
  (r !! "known_info" = Some PNone ∨
   ∃ known_name info, (known_name, info) ∈ kb ∧ r !! "known_info" = Some (PDict info)).

(** A knowledge base whose entries can all be aggregated: an entry that has
    a field recommends one of the four actions. *)
Definition actionable (kb : knowledge_base) : Prop :=
  Forall (λ e, e.2 ≠ ∅ →
               ∃ b, b ∈ BUCKETS ∧ Py.get_ e.2 "recommendation" = PStr b) kb.

(** A research result aggregation accepts. *)
Definition listed (res : record) : Prop :=
  is_Some (res !! "name") ∧ ∃ b, b ∈ BUCKETS ∧ recommendation_of res = PStr b.

(** The keys of a research result. *)
Definition RESULT_FIELDS : gset string :=
  {[ "name"; "type"; "researched_at"; "suspect_reasons"; "source"; "category";
     "publisher"; "purpose"; "recommendation"; "safety_rating"; "notes";
     "requires_further_research"; "item_details" ]}.

(** ** Concrete inputs *)

Module demo.

Definition runtime : PyBuiltins := catalogue_re.builtins.

Definition explorer_entry : gmap string pyval :=
  {[ "category" := PStr "system";
     "publisher" := PStr "Microsoft";
     "purpose" := PStr "Windows shell";
     "recommendation" := PStr "KEEP";
     "safety_rating" := PStr "CRITICAL" ]}.

Definition razer_entry : gmap string pyval :=
  {[ "category" := PStr "rgb_software";
     "publisher" := PStr "Razer Inc.";
     "purpose" := PStr "RGB lighting control";
     "recommendation" := PStr "REMOVE";
     "safety_rating" := PStr "SAFE" ]}.

(** An entry without a [recommendation]. *)
Definition acme_entry : gmap string pyval :=
  {[ "category" := PStr "sync";
     "publisher" := PStr "Acme";
     "purpose" := PStr "File synchronisation";
     "safety_rating" := PStr "SAFE" ]}.

Definition kb : knowledge_base :=
  [ ("explorer.exe", explorer_entry); ("Razer", razer_entry);
    ("AcmeSync", acme_entry) ].

(** One operator-supplied rule and one that does not compile. *)
Definition settings : Settings :=
  {| bloatware_patterns := ["(?i)toolbar"; "(?i)("];
     high_memory_threshold_percent := None;
     high_cpu_threshold_percent := None;
     flag_non_microsoft_setting := None |}.

Definition manifest : Manifest :=
  {| processes := ["System"; "csrss.exe"]; services := ["WinDefend"] |}.

Definition self : SuspectFilter := @__init__ runtime settings kb manifest.

(** A critical process whose other fields trip every check. *)
Definition explorer : record :=
  {[ "name" := PStr "Explorer.EXE";
     "exe_path" := PStr "C:\Razer\Chroma\steam.exe";
     "cmdline" := PStr "copilot --xbox";
     "memory_percent" := PFloat 99.5;
     "cpu_percent" := PFloat 87.25;
     "signature" := PStr "Razer Inc." ]}.

(** The process of the specification's scenario. *)
Definition razer_service : record :=
  {[ "name" := PStr "RazerChromaService";
     "memory_percent" := PFloat 0.1;
     "cpu_percent" := PFloat 0.1;
     "signature" := PStr "Razer Inc." ]}.

(** A startup item without an [enabled] field. *)
Definition updater : record :=
  {[ "name" := PStr "Updater"; "command" := PStr "C:\tools\u.exe" ]}.

(** A disabled startup item that already carries an [is_suspect] field. *)
Definition stale : record :=
  {[ "name" := PStr "notes"; "enabled" := PBool false; "is_suspect" := PBool true ]}.

Definition researcher : ai_researcher.AIResearcher :=
  {| ai_researcher.output_dir := "data/analysis";
     ai_researcher.known_processes := kb |}.

(** Suspect records as the filter leaves them. *)
Definition acme : record :=
  {[ "name" := PStr "AcmeSync";
     "command" := PStr "C:\Acme\sync.exe";
     "is_suspect" := PBool true;
     "suspect_reasons" := PList [PStr "Enabled startup item"];
     "known_info" := PDict acme_entry ]}.

Definition xclient : record :=
  {[ "name" := PStr "XClientService";
     "path" := PStr "C:\Program Files\XClient\svc.exe";
     "is_suspect" := PBool true;
     "suspect_reasons" := PList [PStr "Third-party service set to Auto start"];
     "known_info" := PNone ]}.

(** A journal, and the two recordings of the specification's scenario with
    a dry run and a failed recording between them. *)
Definition journal : logger.AuditLogger :=
  logger.__init__ None "2026-11-04_09-00-00" "2026-11-04T09:00:00".

Definition foo_then_bar : list logger.call :=
  [ logger.LogChange "2026-11-04T09:00:01" "disable_service" "Foo" "service"
      (PStr "Automatic") (PStr "Disabled")
      "Set-Service Foo -StartupType Automatic" true None;
    logger.LogDryRun "2026-11-04T09:00:02" "disable_service" "Qux" "service"
      (PStr "Automatic") (PStr "Disabled");
    logger.LogChange "2026-11-04T09:00:03" "disable_service" "Baz" "service"
      (PStr "Automatic") (PStr "Automatic")
      "Set-Service Baz -StartupType Automatic" false (Some "Access denied");
    logger.LogChange "2026-11-04T09:00:04" "disable_service" "Bar" "service"
      (PStr "Automatic") (PStr "Disabled")
      "Set-Service Bar -StartupType Automatic" true None ].

Definition store : heap :=
  {[ 1%positive := explorer; 2%positive := razer_service ]}.

Definition startup_store : heap :=
  {[ 1%positive := updater; 2%positive := stale ]}.

(** A startup item as the collector produces it, known to the knowledge
    base under an entry without a [recommendation]. *)
Definition acme_item : record :=
  {[ "name" := PStr "AcmeSync";
     "command" := PStr "C:\Acme\sync.exe";
     "enabled" := PBool true ]}.

Definition acme_store : heap :=
  {[ 1%positive := updater; 3%positive := acme_item ]}.

End demo.

(** ** Further concrete inputs *)

Module samples.

(** A process above both usage thresholds. *)
Definition hog : record :=
  {[ "name" := PStr "hog.exe"; "memory_percent" := PFloat 12.5;
     "cpu_percent" := PInt 10 ]}.

(** A service of Microsoft that a built-in rule matches. *)
Definition xbl : record :=
  {[ "name" := PStr "XblAuthManager";
     "display_name" := PStr "Xbox Live Auth Manager";
     "start_mode" := PStr "Auto";
     "is_microsoft" := PBool true ]}.

(** A service named in the manifest's list, in another case. *)
Definition windefend : record :=
  {[ "name" := PStr "WINDEFEND"; "start_mode" := PStr "Auto";
     "is_microsoft" := PBool false ]}.

(** Settings that switch the signature check off. *)
Definition quiet_settings : Settings :=
  {| bloatware_patterns := [];
     high_memory_threshold_percent := Some 50%Q;
     high_cpu_threshold_percent := None;
     flag_non_microsoft_setting := Some false |}.

Definition quiet : SuspectFilter :=
  @__init__ demo.runtime quiet_settings demo.kb demo.manifest.

(** A startup item without a name. *)
Definition nameless : record :=
  {[ "command" := PStr "C:\tools\run.exe" ]}.

(** A knowledge base with an entry that has no field. *)
Definition ghost_researcher : ai_researcher.AIResearcher :=
  {| ai_researcher.output_dir := "data/analysis";
     ai_researcher.known_processes := [ ("Ghost", ∅) ] |}.

Definition ghost : record :=
  {[ "name" := PStr "Ghost";
     "is_suspect" := PBool true;
     "suspect_reasons" := PList [PStr "Enabled startup item"];
     "known_info" := PDict ∅ ]}.

Definition clock (tick : nat) : string := "t" +:+ pretty tick.

(** Research results as the resolver leaves them, reduced to the fields
    aggregation reads. *)
Definition kept : record :=
  {[ "name" := PStr "explorer.exe"; "recommendation" := PStr "KEEP";
     "category" := PStr "system" ]}.

Definition unrated : record :=
  {[ "name" := PStr "XClientService"; "category" := PStr "unknown" ]}.

Definition research : ai_researcher.results :=
  [ ("processes", [kept]); ("services", [unrated; kept]);
    ("startup_items", []); ("tasks", []) ].

(** A knowledge base all of whose entries recommend an action, and the
    filter and the researcher that load it. *)
Definition rated_kb : knowledge_base :=
  [ ("explorer.exe", demo.explorer_entry); ("Razer", demo.razer_entry) ].

Definition rated_filter : SuspectFilter :=
  @__init__ demo.runtime demo.settings rated_kb demo.manifest.

Definition rated_researcher : ai_researcher.AIResearcher :=
  {| ai_researcher.output_dir := "data/analysis";
     ai_researcher.known_processes := rated_kb |}.

(** Loaded inventories; the object 2 is listed as a process and as a
    service. *)
Definition inventories : heap :=
  {[ 1%positive := demo.explorer; 2%positive := demo.razer_service;
     3%positive := demo.updater; 4%positive := xbl ]}.

(** A record with an empty [exe_path]. *)
Definition pathless : record :=
  {[ "name" := PStr "helper"; "exe_path" := PStr "" ]}.

End samples.

(** ** Python helpers *)

(** Reads a field back from a record built by a chain of assignments. *)
Ltac read_fields :=
  rewrite ?lookup_insert; repeat case_decide; try done; try congruence.

Lemma prefix_refl s : String.prefix s s = true.
Proof.
  induction s as [|c s IH]; [done|]. simpl.
  destruct (Ascii.ascii_dec c c); [done|congruence].
Qed.

Lemma contains_refl s : Py.contains s s = true.
Proof.
  destruct s as [|c s]; [done|].
  change (String.prefix (String c s) (String c s) || Py.contains (String c s) s = true).
  by rewrite prefix_refl.
Qed.

Lemma get_agree (r r' : record) key dflt :
  r' !! key = r !! key → Py.get r' key dflt = Py.get r key dflt.
Proof. unfold Py.get. by intros ->. Qed.

Lemma lower_of_Some v s : Py.lower_of v = Some s ↔ ∃ n, v = PStr n ∧ s = Py.lower n.
Proof.
  destruct v; simpl; split; try (intros [? [? ?]]); try done; naive_solver.
Qed.

Lemma not_elem_of_added_fields key :
  key ∉ added_fields ↔
  key ≠ "is_suspect" ∧ key ≠ "suspect_reasons" ∧ key ≠ "known_info".
Proof.
  unfold added_fields.
  rewrite !not_elem_of_union, !not_elem_of_singleton. tauto.
Qed.

(** ** The pattern loop *)

Lemma scan_patterns_acc ps text rs :
  scan_patterns ps text rs = rs ++ scan_patterns ps text [].
Proof.
  induction ps as [|p ps IH]; simpl.
  - by rewrite app_nil_r.
  - by destruct (search p text).
Qed.

Lemma scan_patterns_first_match ps text :
  scan_patterns ps text [] = first_match_reason ps text.
Proof.
  unfold first_match_reason.
  induction ps as [|p ps IH]; simpl; [done|].
  case_decide as Hp.
  - by rewrite Hp.
  - apply not_true_is_false in Hp. rewrite Hp, IH.
    by destruct (list_find _ ps) as [[? ?]|].
Qed.

Lemma first_match_reason_length ps text :
  (length (first_match_reason ps text) ≤ 1)%nat.
Proof.
  unfold first_match_reason.
  destruct (list_find _ ps) as [[? ?]|]; simpl; lia.
Qed.

Lemma first_match_reason_pattern ps text :
  Forall (λ s, is_pattern_reason s = true) (first_match_reason ps text).
Proof.
  unfold first_match_reason.
  destruct (list_find _ ps) as [[? p]|]; constructor; [|constructor].
  unfold is_pattern_reason, pattern_reason. simpl. by destruct (pattern p).
Qed.

(** ** The reason functions *)

Section reasons.
Context `{PyBuiltins}.

Lemma reasons_of_critical self k (r : record) name :
  Py.get r "name" (PStr "") = PStr name →
  Py.lower name ∈ critical_keep self →
  reasons_of self k r = Some [].
Proof.
  intros Hname Hin.
  destruct k; simpl;
    unfold _get_suspect_reasons_process, _get_suspect_reasons_service,
      _get_suspect_reasons_startup, _get_suspect_reasons_task;
    rewrite Hname; simpl; by rewrite bool_decide_eq_true_2.
Qed.

(** Outside the critical-keep set, the reasons are the reason of the first
    matching rule followed by the reasons the same filter gives without any
    rule, none of which is a pattern reason. *)
Lemma reasons_of_split self k (r : record) rs name :
  Py.get r "name" (PStr "") = PStr name →
  Py.lower name ∉ critical_keep self →
  reasons_of self k r = Some rs →
  ∃ rest, reasons_of (without_patterns self) k r = Some rest ∧
          Forall (λ s, is_pattern_reason s = false) rest ∧
          rs = first_match_reason (patterns self) (full_text k r) ++ rest.
Proof.
  intros Hname Hin.
  destruct k; simpl;
    unfold _get_suspect_reasons_process, _get_suspect_reasons_service,
      _get_suspect_reasons_startup, _get_suspect_reasons_task;
    rewrite !Hname; simpl; rewrite !bool_decide_eq_false_2 by done;
    rewrite scan_patterns_first_match; simpl.
  all: intros Hrs.
  all: repeat (case_match; simplify_option_eq).
  all: eexists; split_and!;
    [ reflexivity
    | repeat (apply Forall_cons_2; [reflexivity|]); apply Forall_nil_2
    | by rewrite <- ?(assoc_L (++)), ?app_nil_r ].
Qed.

(** The reason functions read no field the filter operations write. *)
Lemma reasons_of_agree self k (r r' : record) :
  (∀ key, key ∉ added_fields → r' !! key = r !! key) →
  reasons_of self k r' = reasons_of self k r.
Proof.
  intros Hagree.
  assert (∀ key dflt, key ∉ added_fields → Py.get r' key dflt = Py.get r key dflt)
    as Hg by (intros; by apply get_agree, Hagree).
  destruct k; simpl;
    unfold _get_suspect_reasons_process, _get_suspect_reasons_service,
      _get_suspect_reasons_startup, _get_suspect_reasons_task, Py.get_;
    by rewrite !Hg by (by apply not_elem_of_added_fields).
Qed.

(** A well-formed record raises no exception. *)
Lemma reasons_of_total self k (r : record) :
  well_formed k r = true → is_Some (reasons_of self k r).
Proof.
  unfold well_formed. intros Hwf.
  destruct (Py.get r "name" (PStr "")) as [| | | |name| |] eqn:Hname; try done.
  destruct (decide (Py.lower name ∈ critical_keep self)) as [Hin|Hin].
  { erewrite reasons_of_critical; eauto. }
  destruct k; simpl in *;
    unfold _get_suspect_reasons_process, _get_suspect_reasons_service,
      _get_suspect_reasons_startup, _get_suspect_reasons_task;
    rewrite !Hname; simpl; rewrite !bool_decide_eq_false_2 by done; try done.
  unfold Py.gt.
  destruct (Py.get r "memory_percent" (PInt 0)); try done;
    destruct (Py.get r "cpu_percent" (PInt 0)); try done;
    destruct (Py.get_ r "signature"); try done; simpl;
    repeat case_match; done.
Qed.

End reasons.

(** ** Marking one record, and the loop over the store *)

Section marking.
Context `{PyBuiltins}.

Lemma get_known_info_is_Some self name : is_Some (_get_known_info self (PStr name)).
Proof. simpl. repeat case_match; eauto. Qed.

(** What [mark] returns: the record with the three fields assigned. *)
Lemma mark_Some self f (r r' : record) :
  mark self f r = Some r' ↔
  ∃ rs info,
    f r = Some rs ∧
    _get_known_info self (Py.get r "name" (PStr "")) = Some info ∧
    r' = <["known_info" := info]>
           (<["suspect_reasons" := PList (PStr <$> rs)]>
              (<["is_suspect" := PBool (0 <? length rs)%nat]> r)).
Proof.
  unfold mark.
  assert (∀ v1 v2,
    Py.get (<["suspect_reasons" := v2]> (<["is_suspect" := v1]> r)) "name" (PStr "")
    = Py.get r "name" (PStr "")) as Hname.
  { intros. apply get_agree. by rewrite !lookup_insert_ne. }
  destruct (f r) as [rs|] eqn:Hf; simpl.
  - rewrite Hname.
    destruct (_get_known_info self _) as [info|] eqn:Hinfo; simpl.
    + split; [intros [= <-]; eauto|]. by intros (? & ? & [= <-] & [= <-] & ->).
    + split; [done|]. by intros (? & ? & _ & ? & _).
  - split; [done|]. by intros (? & ? & ? & _).
Qed.

Lemma mark_lookup_ne self f (r r' : record) key :
  mark self f r = Some r' → key ∉ added_fields → r' !! key = r !! key.
Proof.
  intros (rs & info & _ & _ & ->)%mark_Some (? & ? & ?)%not_elem_of_added_fields.
  by rewrite !lookup_insert_ne.
Qed.

Lemma mark_dom self f (r r' : record) :
  mark self f r = Some r' → dom r' = dom r ∪ added_fields.
Proof.
  intros (rs & info & _ & _ & ->)%mark_Some.
  rewrite !dom_insert_L. unfold added_fields.
  apply set_eq. intros key. rewrite !elem_of_union, !elem_of_singleton. tauto.
Qed.

(** Marking a record reached a second time through an aliased reference
    assigns the same three values again. *)
Lemma mark_idempotent self k (r r' : record) :
  mark self (reasons_of self k) r = Some r' →
  mark self (reasons_of self k) r' = Some r'.
Proof.
  intros Hm. pose proof Hm as (rs & info & Hrs & Hinfo & ->)%mark_Some.
  apply mark_Some. exists rs, info. split_and!.
  - rewrite <- Hrs. apply reasons_of_agree. intros key Hkey.
    by apply (mark_lookup_ne _ _ _ _ _ Hm).
  - rewrite <- Hinfo. f_equal. apply get_agree. by rewrite !lookup_insert_ne.
  - apply map_eq. intros key.
    rewrite !lookup_insert. repeat case_decide; done.
Qed.

Lemma mark_total self k (r : record) :
  well_formed k r = true → is_Some (mark self (reasons_of self k) r).
Proof.
  intros Hwf. destruct (reasons_of_total self k r Hwf) as [rs Hrs].
  unfold well_formed in Hwf. apply andb_prop in Hwf as [Hname _].
  destruct (Py.get r "name" (PStr "")) as [| | | |name| |] eqn:Hn; try done.
  destruct (get_known_info_is_Some self name) as [info Hinfo].
  eexists. apply mark_Some. exists rs, info. by rewrite Hn.
Qed.

Lemma mark_well_formed self f k (r r' : record) :
  mark self f r = Some r' → well_formed k r' = well_formed k r.
Proof.
  intros Hm.
  assert (∀ key dflt, key ∉ added_fields → Py.get r' key dflt = Py.get r key dflt)
    as Hg by (intros; eapply get_agree, mark_lookup_ne; eauto).
  unfold well_formed, Py.get_.
  by rewrite !Hg by (by apply not_elem_of_added_fields).
Qed.

(** The loop: every referenced object ends up as the body leaves it, and no
    other object of the store changes.  [Hidem] covers a reference that
    occurs more than once in the list. *)
Lemma for_each_lookup (body : record → option record) items (h h' : heap) :
  (∀ r r', body r = Some r' → body r' = Some r') →
  for_each body items h = Some h' →
  ∀ l, (l ∉ items → h' !! l = h !! l) ∧
       (l ∈ items → ∃ r r', h !! l = Some r ∧ body r = Some r' ∧ h' !! l = Some r').
Proof.
  intros Hidem. revert h.
  induction items as [|l0 items IH]; intros h Hrun l; simpl in Hrun.
  - injection Hrun as <-. split; [done|]. by intros ?%elem_of_nil.
  - destruct (h !! l0) as [r0|] eqn:Hl0; [|done]. simpl in Hrun.
    destruct (body r0) as [r0'|] eqn:Hb0; [|done]. simpl in Hrun.
    destruct (IH _ Hrun l) as [IHout IHin].
    assert (l = l0 → l ∉ items → h' !! l = Some r0') as Hhead.
    { intros -> Hnot. by rewrite (IHout Hnot), lookup_insert_eq. }
    split.
    + intros [Hne Hnot]%not_elem_of_cons.
      by rewrite (IHout Hnot), lookup_insert_ne.
    + intros Hin. destruct (decide (l ∈ items)) as [Hl|Hl].
      * destruct (IHin Hl) as (r & r' & Hr & Hb & Hr').
        destruct (decide (l = l0)) as [->|Hne].
        -- rewrite lookup_insert_eq in Hr. injection Hr as <-.
           rewrite (Hidem _ _ Hb0) in Hb. injection Hb as <-. eauto.
        -- rewrite lookup_insert_ne in Hr by done. eauto.
      * apply elem_of_cons in Hin as [->|Hin]; [|done].
        exists r0, r0'. eauto.
Qed.

Lemma for_each_total (body : record → option record) (ok : record → Prop)
    items (h : heap) :
  (∀ r, ok r → ∃ r', body r = Some r' ∧ ok r') →
  (∀ l, l ∈ items → ∃ r, h !! l = Some r ∧ ok r) →
  is_Some (for_each body items h).
Proof.
  intros Hbody. revert h.
  induction items as [|l0 items IH]; intros h Hall; simpl; [eauto|].
  destruct (Hall l0) as (r0 & -> & Hok0); [by left|]. simpl.
  destruct (Hbody _ Hok0) as (r0' & -> & Hok0'). simpl.
  apply IH. intros l Hl.
  destruct (decide (l = l0)) as [->|Hne].
  - rewrite lookup_insert_eq. eauto.
  - rewrite lookup_insert_ne by done. apply Hall. by right.
Qed.

Lemma filter_op_unfold self k items (h : heap) :
  filter_op self k items h =
  h' ← for_each (mark self (reasons_of self k)) items h; Some (items, h').
Proof. by destruct k. Qed.

End marking.

Section filter_operations.
Context `{PyBuiltins}.

Lemma filter_op_lookup self k items items' (h h' : heap) :
  filter_op self k items h = Some (items', h') →
  items' = items ∧
  ∀ l, (l ∉ items → h' !! l = h !! l) ∧
       (l ∈ items → ∃ r r', h !! l = Some r ∧
                            mark self (reasons_of self k) r = Some r' ∧
                            h' !! l = Some r').
Proof.
  rewrite filter_op_unfold.
  destruct (for_each _ items h) as [h1|] eqn:Hrun; [|done].
  intros [= <- <-]. split; [done|].
  apply for_each_lookup; [|done]. apply mark_idempotent.
Qed.

Lemma filter_op_total self k items (h : heap) :
  (∀ l, l ∈ items → ∃ r, h !! l = Some r ∧ well_formed k r = true) →
  is_Some (filter_op self k items h).
Proof.
  intros Hall. rewrite filter_op_unfold.
  destruct (for_each_total (mark self (reasons_of self k))
              (λ r, well_formed k r = true) items h) as [h' ->]; [|done|by eauto].
  intros r Hwf. destruct (mark_total self k r Hwf) as [r' Hr'].
  exists r'. split; [done|]. by rewrite (mark_well_formed _ _ _ _ _ Hr').
Qed.

Lemma reasons_of_Some_name self k (r : record) rs :
  reasons_of self k r = Some rs → ∃ name, Py.get r "name" (PStr "") = PStr name.
Proof.
  destruct k; simpl;
    unfold _get_suspect_reasons_process, _get_suspect_reasons_service,
      _get_suspect_reasons_startup, _get_suspect_reasons_task;
    destruct (Py.get r "name" (PStr "")); try done; eauto.
Qed.

Lemma length_suspect_bool (rs : list string) :
  (0 <? length rs)%nat = true ↔ rs ≠ [].
Proof. destruct rs; simpl; split; done. Qed.

End filter_operations.

Lemma filter_all_false {A} (P : A → bool) (l : list A) :
  Forall (λ x, P x = false) l → filter (λ x, P x = true) l = [].
Proof.
  induction 1 as [|x l Hx _ IH]; [done|].
  rewrite filter_cons_False; [done|]. by rewrite Hx.
Qed.

Lemma filter_all_true {A} (P : A → bool) (l : list A) :
  Forall (λ x, P x = true) l → filter (λ x, P x = true) l = l.
Proof.
  induction 1 as [|x l Hx _ IH]; [done|].
  rewrite filter_cons_True by done. by rewrite IH.
Qed.

Lemma first_match_reason_None ps text :
  Forall (λ p, search p text = false) ps → first_match_reason ps text = [].
Proof.
  intros Hall. unfold first_match_reason.
  destruct (list_find _ ps) as [[i p]|] eqn:Hfind; [|done].
  apply list_find_Some in Hfind as (Hi & Hp & _).
  apply list_elem_of_lookup_2 in Hi.
  rewrite Forall_forall in Hall. specialize (Hall _ Hi). congruence.
Qed.

Lemma first_match_reason_Some ps text i p :
  ps !! i = Some p →
  search p text = true →
  (∀ j q, ps !! j = Some q → (j < i)%nat → search q text = false) →
  first_match_reason ps text = [pattern_reason p].
Proof.
  intros Hi Hp Hbefore. unfold first_match_reason.
  assert (list_find (λ p, search p text = true) ps = Some (i, p)) as ->; [|done].
  apply list_find_Some. split_and!; [done..|].
  intros j q Hj Hlt. rewrite (Hbefore _ _ Hj Hlt). done.
Qed.

Lemma compile_all_omap `{PyBuiltins} srcs compiled :
  compile_all srcs compiled = compiled ++ omap compile srcs.
Proof.
  revert compiled. induction srcs as [|src srcs IH]; intros compiled; simpl.
  - by rewrite app_nil_r.
  - destruct (compile src) as [p|]; rewrite IH; [|done].
    by rewrite <- (assoc_L (++)).
Qed.

(** ** Statements about the suspect classification engine *)

(** C1.  A record of any kind whose lower-cased name is in the critical-keep
    set gets the empty reason list, and the filter operation stores
    [is_suspect = False] and [suspect_reasons = []] in it, whatever its other
    fields hold. *)
Theorem critical_keep_never_suspect `{PyBuiltins} (self : SuspectFilter)
    (k : kind) (r : record) (name : string) :
  Py.get r "name" (PStr "") = PStr name →
  Py.lower name ∈ critical_keep self →
  reasons_of self k r = Some [] ∧
  (∃ r', mark self (reasons_of self k) r = Some r' ∧
         r' !! "is_suspect" = Some (PBool false) ∧
         r' !! "suspect_reasons" = Some (PList [])) ∧
  (∀ items items' (h h' : heap) l,
     filter_op self k items h = Some (items', h') →
     l ∈ items → h !! l = Some r →
     ∃ r', h' !! l = Some r' ∧
           r' !! "is_suspect" = Some (PBool false) ∧
           r' !! "suspect_reasons" = Some (PList [])).
Proof.
  intros Hname Hin.
  pose proof (reasons_of_critical self k r name Hname Hin) as Hrs.
  destruct (get_known_info_is_Some self name) as [info Hinfo].
  assert (mark self (reasons_of self k) r =
          Some (<["known_info" := info]>
                  (<["suspect_reasons" := PList []]>
                     (<["is_suspect" := PBool false]> r)))) as Hmark.
  { apply mark_Some. exists [], info. by rewrite Hname. }
  split_and!; [done| |].
  - eexists. split; [exact Hmark|]. split; read_fields.
  - intros items items' h h' l Hop Hl Hr.
    apply filter_op_lookup in Hop as [_ Hop].
    destruct (Hop l) as [_ (r0 & r' & Hr0 & Hm & Hr')]; [done..|].
    assert (r0 = r) as -> by congruence.
    rewrite Hmark in Hm. injection Hm as <-.
    eexists. split; [done|]. split; read_fields.
Qed.

Lemma critical_keep_never_suspect_witness :
  reasons_of (H := demo.runtime) demo.self Process demo.explorer = Some [].
Proof.
  apply (critical_keep_never_suspect (H := demo.runtime)
           demo.self Process demo.explorer "Explorer.EXE").
  - vm_compute. reflexivity.
  - vm_compute. reflexivity.
Defined.

(** C3.  After any of the four filter operations, every record the operation
    went through has [is_suspect] true exactly when its [suspect_reasons] is
    non-empty; and the operation does return on well-formed records. *)
Theorem is_suspect_iff_reasons `{PyBuiltins} (self : SuspectFilter) (k : kind)
    (items : list loc) (h : heap) :
  ((∀ l, l ∈ items → ∃ r, h !! l = Some r ∧ well_formed k r = true) →
   is_Some (filter_op self k items h)) ∧
  (∀ items' h',
     filter_op self k items h = Some (items', h') →
     ∀ l, l ∈ items →
       ∃ (r' : record) (b : bool) (rs : list string),
         h' !! l = Some r' ∧
         r' !! "is_suspect" = Some (PBool b) ∧
         r' !! "suspect_reasons" = Some (PList (PStr <$> rs)) ∧
         (b = true ↔ rs ≠ [])).
Proof.
  split; [apply filter_op_total|].
  intros items' h' Hop l Hl.
  apply filter_op_lookup in Hop as [_ Hop].
  destruct (Hop l) as [_ (r & r' & _ & Hm & Hr')]; [done|].
  apply mark_Some in Hm as (rs & info & _ & _ & ->).
  eexists _, (0 <? length rs)%nat, rs.
  split_and!; [done| | |apply length_suspect_bool]; read_fields.
Qed.

Lemma is_suspect_iff_reasons_witness :
  ∃ (h' : heap) (r' : record) (b : bool) (rs : list string),
    filter_op (H := demo.runtime) demo.self Process [1; 2; 1]%positive demo.store
      = Some ([1; 2; 1]%positive, h') ∧
    h' !! 2%positive = Some r' ∧
    r' !! "is_suspect" = Some (PBool b) ∧
    r' !! "suspect_reasons" = Some (PList (PStr <$> rs)) ∧
    (b = true ↔ rs ≠ []).
Proof.
  destruct (is_suspect_iff_reasons (H := demo.runtime) demo.self Process
              [1; 2; 1]%positive demo.store) as [Htotal Hiff].
  destruct Htotal as [[items' h'] Hop].
  - intros l Hl.
    apply elem_of_cons in Hl as [->|Hl];
      [exists demo.explorer; split; vm_compute; reflexivity|].
    apply elem_of_cons in Hl as [->|Hl];
      [exists demo.razer_service; split; vm_compute; reflexivity|].
    apply elem_of_cons in Hl as [->|Hl];
      [exists demo.explorer; split; vm_compute; reflexivity|].
    by apply elem_of_nil in Hl.
  - pose proof Hop as [-> _]%filter_op_lookup.
    destruct (Hiff _ _ Hop 2%positive) as (r' & b & rs & Hr'); [|by eauto 10].
    apply elem_of_cons. right. apply elem_of_cons. by left.
Defined.

(** C9, as the code has it.  A filter operation returns the list it was
    given; it leaves every object it was not given untouched; in every record
    it was given it binds the three fields [is_suspect], [suspect_reasons] and
    [known_info] and changes no other field, so the record's fields afterwards
    are its fields before together with those three.  A field of one of those
    three names that the record already had is overwritten. *)
Theorem filter_writes_three_fields `{PyBuiltins} (self : SuspectFilter) (k : kind)
    (items : list loc) (h : heap) :
  ((∀ l, l ∈ items → ∃ r, h !! l = Some r ∧ well_formed k r = true) →
   is_Some (filter_op self k items h)) ∧
  (∀ items' h',
     filter_op self k items h = Some (items', h') →
     items' = items ∧
     (∀ l, l ∉ items → h' !! l = h !! l) ∧
     (∀ l, l ∈ items →
        ∃ r r' : record,
          h !! l = Some r ∧ h' !! l = Some r' ∧
          dom r' = dom r ∪ added_fields ∧
          (∀ key, key ∉ added_fields → r' !! key = r !! key))).
Proof.
  split; [apply filter_op_total|].
  intros items' h' Hop.
  apply filter_op_lookup in Hop as [-> Hop].
  split_and!; [done| |].
  - intros l Hl. by apply Hop.
  - intros l Hl. destruct (Hop l) as [_ (r & r' & Hr & Hm & Hr')]; [done|].
    exists r, r'. split_and!; [done..| |].
    + by eapply mark_dom.
    + intros key Hkey. by eapply mark_lookup_ne.
Qed.

Lemma filter_writes_three_fields_witness :
  ∃ (h' : heap) (r' : record),
    filter_op (H := demo.runtime) demo.self StartupItem [1]%positive demo.startup_store
      = Some ([1]%positive, h') ∧
    h' !! 2%positive = Some demo.stale ∧
    h' !! 1%positive = Some r' ∧
    dom r' = dom demo.updater ∪ added_fields ∧
    r' !! "command" = Some (PStr "C:\tools\u.exe").
Proof.
  destruct (filter_writes_three_fields (H := demo.runtime) demo.self StartupItem
              [1]%positive demo.startup_store) as [Htotal Hframe].
  destruct Htotal as [[items' h'] Hop].
  - intros l Hl.
    apply elem_of_cons in Hl as [->|Hl];
      [exists demo.updater; split; vm_compute; reflexivity|].
    by apply elem_of_nil in Hl.
  - destruct (Hframe _ _ Hop) as (-> & Hout & Hin).
    destruct (Hin 1%positive) as (r & r' & Hr & Hr' & Hdom & Hkeep); [by left|].
    assert (demo.startup_store !! 1%positive = Some demo.updater) as Hu
      by (vm_compute; reflexivity).
    assert (r = demo.updater) as -> by congruence.
    exists h', r'. split_and!; [done| |done..|].
    + rewrite (Hout 2%positive); [done|].
      intros Hl. apply elem_of_cons in Hl as [?|Hl]; [done|]. by apply elem_of_nil in Hl.
    + rewrite Hkeep; [done|]. by apply not_elem_of_added_fields.
Defined.

(** C9, as stated, fails: a startup item that comes in with
    [is_suspect = True] and gets no reason leaves with [is_suspect = False],
    so a pre-existing field has changed. *)
Lemma filter_overwrites_existing_field :
  demo.startup_store !! 2%positive = Some demo.stale ∧
  demo.stale !! "is_suspect" = Some (PBool true) ∧
  (filter_startup_items (H := demo.runtime) demo.self [2]%positive demo.startup_store
     ≫= λ res, res.2 !! 2%positive ≫= λ r' : record, r' !! "is_suspect")
  = Some (PBool false).
Proof. split_and!; vm_compute; reflexivity. Qed.

(** C10.  A startup item without an [enabled] field, whose name is not in the
    critical-keep set, gets the reasons of the same item with
    [enabled = True]: they end with "Enabled startup item", and the item is
    marked suspect. *)
Theorem absent_enabled_is_enabled `{PyBuiltins} (self : SuspectFilter)
    (item : record) (name : string) :
  item !! "enabled" = None →
  Py.get item "name" (PStr "") = PStr name →
  Py.lower name ∉ critical_keep self →
  ∃ rs : list string,
    _get_suspect_reasons_startup self item = Some (rs ++ ["Enabled startup item"]) ∧
    _get_suspect_reasons_startup self (<["enabled" := PBool true]> item)
      = Some (rs ++ ["Enabled startup item"]) ∧
    ∃ r' : record,
      mark self (_get_suspect_reasons_startup self) item = Some r' ∧
      r' !! "is_suspect" = Some (PBool true) ∧
      r' !! "suspect_reasons" = Some (PList (PStr <$> rs ++ ["Enabled startup item"])).
Proof.
  intros Henabled Hname Hin.
  set (text := Py.str (Py.get item "name" (PStr "")) +:+ " " +:+
               Py.str (Py.get item "command" (PStr ""))).
  exists (scan_patterns (patterns self) text []).
  assert (_get_suspect_reasons_startup self item
          = Some (scan_patterns (patterns self) text [] ++ ["Enabled startup item"]))
    as Hrs.
  { assert (Py.get item "enabled" (PBool true) = PBool true) as Hdflt
      by (unfold Py.get; by rewrite Henabled).
    unfold _get_suspect_reasons_startup. rewrite Hdflt, Hname. simpl.
    rewrite bool_decide_eq_false_2 by done.
    subst text. by rewrite Hname. }
  split_and!; [done| |].
  - unfold _get_suspect_reasons_startup.
    rewrite !(get_agree item (<["enabled" := PBool true]> item) "name")
      by (by rewrite lookup_insert_ne).
    rewrite !(get_agree item (<["enabled" := PBool true]> item) "command")
      by (by rewrite lookup_insert_ne).
    assert (Py.get (<["enabled" := PBool true]> item) "enabled" (PBool true)
            = PBool true) as Hset
      by (unfold Py.get; by rewrite lookup_insert_eq).
    rewrite Hset, Hname. simpl.
    rewrite bool_decide_eq_false_2 by done.
    subst text. by rewrite Hname.
  - destruct (get_known_info_is_Some self name) as [info Hinfo].
    eexists. split.
    + apply mark_Some. eexists _, info. split_and!; [exact Hrs|by rewrite Hname|done].
    + rewrite length_app, Nat.add_comm. simpl. split; read_fields.
Qed.

Lemma absent_enabled_is_enabled_witness :
  ∃ rs : list string,
    _get_suspect_reasons_startup (H := demo.runtime) demo.self demo.updater
      = Some (rs ++ ["Enabled startup item"]).
Proof.
  destruct (absent_enabled_is_enabled (H := demo.runtime) demo.self demo.updater
              "Updater") as (rs & Hrs & _).
  - vm_compute. reflexivity.
  - vm_compute. reflexivity.
  - vm_compute. intros [=].
  - by exists rs.
Defined.

(** C4.  The compiled rules are the built-in defaults followed by the
    operator's patterns, those that compile, in that order.  The reasons of a
    record hold at most one pattern reason.  For a record outside the
    critical-keep set they are: the reason of the first rule, in list order,
    that matches the kind's search string (none when no rule matches),
    followed by the reasons the checks after the pattern loop give, which are
    the reasons of the same filter without rules. *)
Theorem first_matching_pattern_wins `{PyBuiltins} (self : SuspectFilter)
    (k : kind) (r : record) (rs : list string) :
  reasons_of self k r = Some rs →
  (length (filter (λ s, is_pattern_reason s = true) rs) ≤ 1)%nat ∧
  (∀ name,
     Py.get r "name" (PStr "") = PStr name →
     Py.lower name ∉ critical_keep self →
     ∃ rest : list string,
       reasons_of (without_patterns self) k r = Some rest ∧
       Forall (λ s, is_pattern_reason s = false) rest ∧
       (Forall (λ p, search p (full_text k r) = false) (patterns self) → rs = rest) ∧
       (∀ i p,
          patterns self !! i = Some p →
          search p (full_text k r) = true →
          (∀ j q, patterns self !! j = Some q → (j < i)%nat →
                  search q (full_text k r) = false) →
          rs = ("Matches bloatware pattern: " +:+ pattern p) :: rest)) ∧
  (∀ settings kb manifest,
     patterns (__init__ settings kb manifest)
     = omap compile DEFAULT_PATTERNS ++ omap compile (bloatware_patterns settings)).
Proof.
  intros Hrs. split_and!.
  - destruct (reasons_of_Some_name _ _ _ _ Hrs) as [name Hname].
    destruct (decide (Py.lower name ∈ critical_keep self)) as [Hin|Hin].
    + rewrite (reasons_of_critical self k r name Hname Hin) in Hrs.
      injection Hrs as <-. simpl. lia.
    + destruct (reasons_of_split _ _ _ _ _ Hname Hin Hrs) as (rest & _ & Hrest & ->).
      rewrite filter_app, (filter_all_false _ _ Hrest), app_nil_r.
      rewrite (filter_all_true _ _ (first_match_reason_pattern _ _)).
      apply first_match_reason_length.
  - intros name Hname Hin.
    destruct (reasons_of_split _ _ _ _ _ Hname Hin Hrs) as (rest & Hwo & Hrest & ->).
    exists rest. split_and!; [done..| |].
    + intros Hnone. by rewrite first_match_reason_None.
    + intros i p Hi Hp Hbefore.
      by rewrite (first_match_reason_Some _ _ _ _ Hi Hp Hbefore).
  - intros settings kb manifest.
    change (patterns (__init__ settings kb manifest)) with (_compile_patterns settings).
    unfold _compile_patterns.
    rewrite compile_all_omap. apply omap_app.
Qed.

Lemma first_matching_pattern_wins_witness :
  (length (filter (λ s, is_pattern_reason s = true)
             ["Matches bloatware pattern: (?i)chroma";
              "Non-Microsoft signed: Razer Inc."]) ≤ 1)%nat.
Proof.
  apply (first_matching_pattern_wins (H := demo.runtime) demo.self Process
           demo.razer_service).
  vm_compute. reflexivity.
Defined.

(** The record of the specification's scenario matches both the [chroma] rule
    (first in the catalogue) and the [razer] rule (sixth): only the first is
    reported, and the signature check still runs. *)
Example razer_scenario :
  (compile (H := demo.runtime) "(?i)razer"
     ≫= λ p, Some (search p (full_text (H := demo.runtime) Process demo.razer_service)))
    = Some true ∧
  reasons_of (H := demo.runtime) demo.self Process demo.razer_service
    = Some ["Matches bloatware pattern: (?i)chroma";
            "Non-Microsoft signed: Razer Inc."] ∧
  pattern <$> patterns demo.self = DEFAULT_PATTERNS ++ ["(?i)toolbar"].
Proof. split_and!; vm_compute; reflexivity. Qed.

(** ** Knowledge-base lookups *)

Lemma first_info_kb_first test (kb : knowledge_base) :
  first_info test kb = kb_first test kb.
Proof.
  unfold kb_first.
  induction kb as [|[known_name info] kb IH]; simpl; [done|].
  case_decide as Ht; simpl in Ht.
  - by rewrite Ht.
  - apply not_true_is_false in Ht. rewrite Ht, IH.
    by destruct (list_find _ kb) as [[? ?]|].
Qed.

Lemma kb_first_None test (kb : knowledge_base) :
  kb_first test kb = None ↔ Forall (λ e, test e.1 = false) kb.
Proof.
  unfold kb_first. rewrite fmap_None, list_find_None.
  apply Forall_proper; [|done]. intros e. simpl. by destruct (test e.1).
Qed.

Lemma kb_exact_folded name known_name :
  kb_exact name known_name = true → kb_folded name known_name = true.
Proof.
  unfold kb_exact, kb_folded. intros ->%String.eqb_eq. apply String.eqb_refl.
Qed.

Lemma kb_folded_partial name known_name :
  kb_folded name known_name = true → kb_partial name known_name = true.
Proof.
  unfold kb_folded, kb_partial. intros ->%String.eqb_eq.
  by rewrite contains_refl.
Qed.

Lemma Forall_kb_weaken (test test' : string → bool) (kb : knowledge_base) :
  (∀ known_name, test known_name = true → test' known_name = true) →
  Forall (λ e, test' e.1 = false) kb → Forall (λ e, test e.1 = false) kb.
Proof.
  intros Himp Hall. eapply Forall_impl; [exact Hall|]. intros e He. simpl in *.
  destruct (test e.1) eqn:Ht; [|done]. by rewrite (Himp _ Ht) in He.
Qed.

Lemma get_known_info_found self name :
  _get_known_info self (PStr name) =
  Some (found (kb_first (kb_exact name) (known_processes self)
               ∪ kb_first (kb_folded name) (known_processes self))).
Proof.
  simpl. unfold kb_get. rewrite !first_info_kb_first.
  change (String.eqb name) with (kb_exact name).
  change (λ known_name, String.eqb (Py.lower known_name) (Py.lower name))
    with (kb_folded name).
  by destruct (kb_first (kb_exact name) _), (kb_first (kb_folded name) _).
Qed.

Lemma lookup_known_found self name :
  ai_researcher._lookup_known self (PStr name) =
  Some (found (kb_first (kb_exact name) (ai_researcher.known_processes self)
               ∪ kb_first (kb_folded name) (ai_researcher.known_processes self)
               ∪ kb_first (kb_partial name) (ai_researcher.known_processes self))).
Proof.
  simpl. unfold kb_get. rewrite !first_info_kb_first.
  change (String.eqb name) with (kb_exact name).
  change (λ known_name, String.eqb (Py.lower known_name) (Py.lower name))
    with (kb_folded name).
  change (λ known_name,
            Py.contains (Py.lower known_name) (Py.lower name)
            || Py.contains (Py.lower name) (Py.lower known_name))
    with (kb_partial name).
  by destruct (kb_first (kb_exact name) _), (kb_first (kb_folded name) _),
    (kb_first (kb_partial name) _).
Qed.

Lemma found_None o : found o = PNone ↔ o = None.
Proof. by destruct o. Qed.

Lemma option_union_None {A} (o1 o2 : option A) :
  o1 ∪ o2 = None ↔ o1 = None ∧ o2 = None.
Proof. destruct o1, o2; split; (done || by intros [??]). Qed.

Lemma get_known_info_None self name :
  _get_known_info self (PStr name) = Some PNone ↔
  Forall (λ e, kb_folded name e.1 = false) (known_processes self).
Proof.
  rewrite get_known_info_found. split.
  - intros [= [_ Hf]%found_None%option_union_None]. by apply kb_first_None.
  - intros Hall. f_equal. apply found_None, option_union_None.
    split; apply kb_first_None; [|done].
    eapply Forall_kb_weaken; [apply kb_exact_folded|done].
Qed.

Lemma lookup_known_None self name :
  ai_researcher._lookup_known self (PStr name) = Some PNone ↔
  Forall (λ e, kb_partial name e.1 = false) (ai_researcher.known_processes self).
Proof.
  rewrite lookup_known_found. split.
  - intros [= [_ Hp]%found_None%option_union_None]. by apply kb_first_None.
  - intros Hall. f_equal.
    assert (Forall (λ e, kb_folded name e.1 = false)
              (ai_researcher.known_processes self)) as Hfold
      by (eapply Forall_kb_weaken; [apply kb_folded_partial|done]).
    apply found_None, option_union_None. split; [|by apply kb_first_None].
    apply option_union_None. split; apply kb_first_None; [|done].
    eapply Forall_kb_weaken; [apply kb_exact_folded|done].
Qed.

(** ** Statements about the research resolver *)

(** C6, as the code has it.  The resolver takes the record's [known_info]
    when it is present and true (a non-empty entry); otherwise the entry of
    the first exact match, else of the first case-insensitive match, else of
    the first name, in iteration order, that contains the record name or is
    contained in it, else [None].  The lookup that attaches [known_info]
    during classification stops after the case-insensitive match: it has no
    partial match, returns [None] exactly when no known name equals the
    record name case-insensitively, and whenever it finds an entry the
    resolver's lookup finds the same one. *)
Theorem knowledge_base_lookup_order (kb : knowledge_base) (name : string) :
  (∀ self item,
     ai_researcher.known_processes self = kb →
     ai_researcher.resolve_known self item (PStr name) =
     Some (if Py.truthy (Py.get_ item "known_info")
           then Py.get_ item "known_info"
           else found (kb_first (kb_exact name) kb
                       ∪ kb_first (kb_folded name) kb
                       ∪ kb_first (kb_partial name) kb))) ∧
  (∀ self,
     known_processes self = kb →
     _get_known_info self (PStr name) =
       Some (found (kb_first (kb_exact name) kb ∪ kb_first (kb_folded name) kb)) ∧
     (_get_known_info self (PStr name) = Some PNone ↔
      Forall (λ e, kb_folded name e.1 = false) kb)) ∧
  (∀ self self' info,
     known_processes self = kb →
     ai_researcher.known_processes self' = kb →
     _get_known_info self (PStr name) = Some (PDict info) →
     ai_researcher._lookup_known self' (PStr name) = Some (PDict info)).
Proof.
  split_and!.
  - intros self item <-. unfold ai_researcher.resolve_known.
    destruct (Py.truthy _); [done|]. apply lookup_known_found.
  - intros self <-. split; [apply get_known_info_found|apply get_known_info_None].
  - intros self self' info <- Hkb.
    rewrite get_known_info_found, lookup_known_found, Hkb.
    destruct (kb_first (kb_exact name) _), (kb_first (kb_folded name) _),
      (kb_first (kb_partial name) _); simpl; congruence.
Qed.

Lemma knowledge_base_lookup_order_witness :
  ai_researcher.resolve_known demo.researcher demo.xclient (PStr "RazerChromaService")
  = Some (PDict demo.razer_entry).
Proof.
  rewrite (proj1 (knowledge_base_lookup_order demo.kb "RazerChromaService")
             demo.researcher demo.xclient eq_refl).
  vm_compute. reflexivity.
Defined.

(** C6, as stated, fails for the lookup made during classification: with
    ["Razer"] in the knowledge base, the resolver's lookup of
    ["RazerChromaService"] finds the entry through the partial match, and the
    filter attaches [known_info = None] to the same record. *)
Lemma classification_lookup_has_no_partial_match :
  ai_researcher._lookup_known demo.researcher (PStr "RazerChromaService")
    = Some (PDict demo.razer_entry) ∧
  _get_known_info demo.self (PStr "RazerChromaService") = Some PNone ∧
  (mark demo.self (_get_suspect_reasons_process (H := demo.runtime) demo.self)
     demo.razer_service ≫= λ r' : record, r' !! "known_info") = Some PNone.
Proof. split_and!; vm_compute; reflexivity. Qed.

Lemma list_find_bucket (hit : string → bool) (buckets : list (string * list string)) :
  match list_find (λ b : string * list string, existsb hit b.2 = true) buckets with
  | Some (_, b) => b.1
  | None => "unknown"
  end
  = foldr (λ b rest, if existsb hit b.2 then b.1 else rest) "unknown" buckets.
Proof.
  induction buckets as [|b buckets IH]; simpl; [done|].
  case_decide as Hb.
  - by rewrite Hb.
  - apply not_true_is_false in Hb. rewrite Hb, <- IH.
    by destruct (list_find _ buckets) as [[? ?]|].
Qed.

Section resolver.
Context `{PyBuiltins}.

(** The chain of tests of [_guess_category] picks the first bucket. *)
Lemma guess_category_first_bucket (item : record) name :
  Py.get item "name" (PStr "") = PStr name →
  ai_researcher._guess_category item
  = Some (first_bucket (Py.lower name) (category_path item)).
Proof.
  intros Hname. unfold ai_researcher._guess_category, first_bucket.
  rewrite list_find_bucket, Hname.
  change (Py.lower_of (PStr name)) with (Some (Py.lower name)).
  unfold category_buckets, category_path, foldr, mbind, option_bind, snd, fst.
  set (hit := λ x, _).
  by repeat destruct (existsb hit _).
Qed.

Lemma generate_research_notes_total (item : record) item_type rs :
  item !! "suspect_reasons" = Some (PList rs) →
  is_Some (ai_researcher._generate_research_notes item item_type).
Proof.
  intros Hrs. unfold ai_researcher._generate_research_notes.
  assert (Py.get item "suspect_reasons" (PList []) = PList rs) as ->
    by (unfold Py.get; by rewrite Hrs).
  destruct (Py.truthy (PList rs)); simpl; eauto.
Qed.

End resolver.

(** C7.  A suspect record with no attached [known_info] and no known name
    that matches its name exactly, case-insensitively or partially is
    researched as [needs_research] / [REVIEW] / [UNKNOWN], flagged for further
    research, and its category is the first keyword bucket with a keyword in
    the lower-cased name or path, else ["unknown"]. *)
Theorem unmatched_needs_research `{PyBuiltins} (self : ai_researcher.AIResearcher)
    (now : string) (item : record) (item_type name : string) (rs : list pyval) :
  item !! "name" = Some (PStr name) →
  item !! "suspect_reasons" = Some (PList rs) →
  Py.truthy (Py.get_ item "known_info") = false →
  Forall (λ e, kb_partial name e.1 = false) (ai_researcher.known_processes self) →
  ∃ res : record,
    ai_researcher.research_item self now item item_type = Some res ∧
    res !! "source" = Some (PStr "needs_research") ∧
    res !! "recommendation" = Some (PStr "REVIEW") ∧
    res !! "safety_rating" = Some (PStr "UNKNOWN") ∧
    res !! "requires_further_research" = Some (PBool true) ∧
    res !! "category"
      = Some (PStr (first_bucket (Py.lower name) (category_path item))).
Proof.
  intros Hname Hrs Hinfo Hkb.
  assert (∀ dflt, Py.get item "name" dflt = PStr name) as Hget
    by (intros; unfold Py.get; by rewrite Hname).
  destruct (generate_research_notes_total item item_type rs Hrs) as [notes Hnotes].
  unfold ai_researcher.research_item, ai_researcher.resolve_known.
  rewrite Hinfo, Hget, (proj2 (lookup_known_None self name) Hkb).
  cbn [mbind option_bind Py.truthy].
  rewrite (guess_category_first_bucket item name (Hget _)), Hnotes.
  cbn [mbind option_bind].
  eexists. split; [reflexivity|].
  unfold Py.update. cbn [foldl fst snd].
  split_and!; read_fields.
Qed.

Lemma unmatched_needs_research_witness :
  ∃ res : record,
    ai_researcher.research_item (H := demo.runtime) demo.researcher "2026-11-04T09:00:00"
      demo.xclient "service" = Some res ∧
    res !! "source" = Some (PStr "needs_research") ∧
    res !! "recommendation" = Some (PStr "REVIEW") ∧
    res !! "safety_rating" = Some (PStr "UNKNOWN") ∧
    res !! "requires_further_research" = Some (PBool true) ∧
    res !! "category" = Some (PStr "unknown").
Proof.
  apply (unmatched_needs_research (H := demo.runtime) demo.researcher
           "2026-11-04T09:00:00" demo.xclient "service" "XClientService"
           [PStr "Third-party service set to Auto start"]).
  - vm_compute. reflexivity.
  - vm_compute. reflexivity.
  - vm_compute. reflexivity.
  - repeat (apply Forall_cons_2; [vm_compute; reflexivity|]). apply Forall_nil_2.
Defined.

(** ** Aggregation *)

Lemma eq_str_PStr (b b' : string) : Py.eq_str (PStr b) b' = true ↔ b = b'.
Proof. simpl. apply String.eqb_eq. Qed.

Lemma add_recommendation_valid item_type (recs : ai_researcher.recommendations)
    (item : record) b old :
  recommendation_of item = PStr b →
  recs !! b = Some old →
  is_Some (item !! "name") →
  ai_researcher.add_recommendation item_type recs item
  = Some (<[b := old ++ [bucket_entry (item_type, item)]]> recs).
Proof.
  unfold recommendation_of. intros Hrec Hold [name Hname].
  unfold ai_researcher.add_recommendation. rewrite Hrec, Hold, Hname. simpl.
  unfold bucket_entry, Py.get_, Py.get. simpl. by rewrite Hname.
Qed.

(** The inner loop appends to each bucket, in list order, the entries of the
    items recommended for it. *)
Lemma add_items_valid item_type items (recs : ai_researcher.recommendations) :
  (∀ b, b ∈ BUCKETS → is_Some (recs !! b)) →
  Forall (λ item : record,
            is_Some (item !! "name") ∧
            ∃ b, b ∈ BUCKETS ∧ recommendation_of item = PStr b) items →
  ∃ recs',
    ai_researcher.add_items item_type items recs = Some recs' ∧
    ∀ b, recs' !! b =
         (λ old, old ++ (bucket_entry <$>
                           filter (λ e, Py.eq_str (recommendation_of e.2) b = true)
                                  ((λ item, (item_type, item)) <$> items)))
         <$> recs !! b.
Proof.
  intros Hkeys Hvalid. revert recs Hkeys.
  induction Hvalid as [|item items (Hname & b0 & Hb0 & Hrec) _ IH]; intros recs Hkeys.
  - exists recs. split; [done|]. intros b. simpl.
    destruct (recs !! b); simpl; [|done]. by rewrite app_nil_r.
  - destruct (Hkeys _ Hb0) as [old Hold]. simpl.
    rewrite (add_recommendation_valid _ _ _ _ _ Hrec Hold Hname). simpl.
    destruct (IH (<[b0 := old ++ [bucket_entry (item_type, item)]]> recs))
      as (recs' & -> & Hrecs').
    { intros b Hb. destruct (decide (b0 = b)) as [->|Hne].
      - rewrite lookup_insert_eq. eauto.
      - rewrite lookup_insert_ne by done. by apply Hkeys. }
    exists recs'. split; [done|]. intros b. rewrite Hrecs'.
    destruct (decide (b0 = b)) as [->|Hne].
    + rewrite lookup_insert_eq, Hold. simpl.
      rewrite filter_cons_True by (simpl; rewrite Hrec; by apply eq_str_PStr).
      simpl. by rewrite <- (assoc_L (++)).
    + rewrite lookup_insert_ne by done.
      rewrite filter_cons_False; [done|].
      simpl. rewrite Hrec. by intros ?%eq_str_PStr.
Qed.

Lemma add_kinds_valid (res : ai_researcher.results)
    (recs : ai_researcher.recommendations) :
  (∀ b, b ∈ BUCKETS → is_Some (recs !! b)) →
  Forall (λ e : string * record,
            is_Some (e.2 !! "name") ∧
            ∃ b, b ∈ BUCKETS ∧ recommendation_of e.2 = PStr b) (traversal res) →
  ∃ recs',
    ai_researcher.add_kinds res recs = Some recs' ∧
    ∀ b, recs' !! b =
         (λ old, old ++ (bucket_entry <$>
                           filter (λ e, Py.eq_str (recommendation_of e.2) b = true)
                                  (traversal res)))
         <$> recs !! b.
Proof.
  revert recs. induction res as [|[item_type items] res IH]; intros recs Hkeys Hvalid.
  - exists recs. split; [done|]. intros b. simpl.
    destruct (recs !! b); simpl; [|done]. by rewrite app_nil_r.
  - change (traversal ((item_type, items) :: res))
      with (((λ item, (item_type, item)) <$> items) ++ traversal res) in *.
    apply Forall_app in Hvalid as [Hitems Hres].
    rewrite Forall_fmap in Hitems.
    destruct (add_items_valid item_type items recs Hkeys Hitems) as (recs1 & Hrun1 & Hrecs1).
    simpl. rewrite Hrun1. simpl.
    destruct (IH recs1) as (recs' & -> & Hrecs'); [|done|].
    { intros b Hb. rewrite Hrecs1. destruct (Hkeys _ Hb) as [old ->]. simpl. eauto. }
    exists recs'. split; [done|]. intros b. rewrite Hrecs', Hrecs1.
    destruct (recs !! b); simpl; [|done].
    by rewrite filter_app, fmap_app, (assoc_L (++)).
Qed.

(** On results whose recommendation is one of the four (or absent, which
    counts as REVIEW), aggregation returns exactly the four buckets, and each
    bucket lists the results recommended for it in traversal order: every
    result is in one bucket and in no other. *)
Lemma generate_recommendations_valid (res : ai_researcher.results) :
  Forall (λ e : string * record,
            is_Some (e.2 !! "name") ∧
            ∃ b, b ∈ BUCKETS ∧ recommendation_of e.2 = PStr b) (traversal res) →
  ∃ recs : ai_researcher.recommendations,
    ai_researcher.generate_recommendations res = Some recs ∧
    dom recs = list_to_set BUCKETS ∧
    ∀ b, b ∈ BUCKETS → recs !! b = Some (bucket b res).
Proof.
  intros Hvalid. unfold ai_researcher.generate_recommendations.
  set (recs0 := ({[ "REMOVE" := []; "DISABLE" := []; "KEEP" := []; "REVIEW" := [] ]}
                 : ai_researcher.recommendations)).
  assert (∀ b, b ∈ BUCKETS → recs0 !! b = Some []) as Hinit.
  { intros b Hb. unfold BUCKETS in Hb.
    repeat (apply elem_of_cons in Hb as [->|Hb]; [by vm_compute|]).
    by apply elem_of_nil in Hb. }
  destruct (add_kinds_valid res recs0) as (recs & Hrun & Hrecs); [|done|].
  { intros b Hb. rewrite (Hinit b Hb). eauto. }
  exists recs. split_and!; [done| |].
  - apply set_eq. intros b. rewrite elem_of_dom, Hrecs, elem_of_list_to_set.
    rewrite fmap_is_Some, <- elem_of_dom.
    subst recs0. rewrite !dom_insert_L, dom_singleton_L. unfold BUCKETS.
    rewrite !elem_of_union, !elem_of_singleton, !elem_of_cons, elem_of_nil.
    tauto.
  - intros b Hb. by rewrite Hrecs, (Hinit b Hb).
Qed.

(** C5.  The code at the failing input.  The knowledge-base entry of
    ["AcmeSync"] has no [recommendation]; the resolver copies
    [known_info.get("recommendation")], which is [None], into the result, and
    [recommendations[None]] raises [KeyError]: the result lands in no bucket
    and aggregation returns nothing at all. *)
Theorem aggregation_raises_on_unlisted_recommendation :
  (ai_researcher.research_item (H := demo.runtime) demo.researcher
     "2026-11-04T09:00:00" demo.acme "startup"
   ≫= λ res : record,
     Some (res !! "source",
           res !! "recommendation",
           ai_researcher.generate_recommendations
             [ ("processes", []); ("services", []);
               ("startup_items", [res]); ("tasks", []) ]))
  = Some (Some (PStr "known_processes_database"), Some PNone, None).
Proof. vm_compute. reflexivity. Qed.

(** The same call on a result recommended REVIEW fills the REVIEW bucket. *)
Example aggregation_of_review_result :
  (ai_researcher.research_item (H := demo.runtime) demo.researcher
     "2026-11-04T09:00:00" demo.xclient "service"
   ≫= λ res : record,
     ai_researcher.generate_recommendations
       [ ("processes", []); ("services", [res]); ("startup_items", []); ("tasks", []) ]
   ≫= λ recs : ai_researcher.recommendations,
     Some (recs !! "REMOVE", recs !! "DISABLE", recs !! "KEEP",
           length <$> recs !! "REVIEW"))
  = Some (Some [], Some [], Some [], Some 1%nat).
Proof. vm_compute. reflexivity. Qed.

(** The same failure from the inventory on: filtering the startup store of
    the examples, then researching its suspects, then aggregating. *)
Example aggregation_raises_end_to_end :
  (filter_startup_items (H := demo.runtime) demo.self [3; 1]%positive demo.acme_store
   ≫= λ filtered, deref filtered.2 filtered.1
   ≫= λ startup_items,
     ai_researcher.research_all_suspects (H := demo.runtime) demo.researcher
       (λ _, "2026-11-04T09:00:00") [] [] startup_items []
   ≫= λ res,
     Some ((λ e : string * list record,
              (e.1, (λ r : record, (r !! "name", r !! "recommendation")) <$> e.2)) <$> res,
           ai_researcher.generate_recommendations res))
  = Some ([ ("processes", []); ("services", []);
            ("startup_items",
             [ (Some (PStr "AcmeSync"), Some PNone);
               (Some (PStr "Updater"), Some (PStr "REVIEW")) ]);
            ("tasks", []) ],
          None).
Proof. vm_compute. reflexivity. Qed.

(** ** The audit journal *)

Section journal.
Context `{PyBuiltins}.

Lemma rollback_commands_do_call self c :
  logger.rollback_commands (logger.do_call self c)
  = logger.rollback_commands self ++ rollback_block c.
Proof.
  destruct c as [now a t ty b af cmd ok err| |]; simpl; try by rewrite app_nil_r.
  destruct (ok && negb (String.eqb cmd "")); simpl; [|by rewrite app_nil_r].
  by rewrite <- !(assoc_L (++)).
Qed.

Lemma rollback_commands_run self calls :
  logger.rollback_commands (logger.run self calls)
  = logger.rollback_commands self ++ flat_map rollback_block calls.
Proof.
  unfold logger.run. revert self.
  induction calls as [|c calls IH]; intros self; simpl.
  - by rewrite app_nil_r.
  - by rewrite IH, rollback_commands_do_call, <- (assoc_L (++)).
Qed.

End journal.

Lemma rev_flat_map {A B} (f : A → list B) (l : list A) :
  rev (flat_map f l) = flat_map (λ x, rev (f x)) (rev l).
Proof.
  induction l as [|x l IH]; simpl; [done|].
  rewrite rev_app_distr, IH, flat_map_app. simpl. by rewrite app_nil_r.
Qed.

(** The lines the rollback script lists for a session: going through the
    calls from the last to the first, each successful recording with a
    rollback command contributes a blank line, its command and then its
    label; every other call contributes nothing. *)
Lemma rollback_lines_run `{PyBuiltins} output_dir stamp now calls :
  logger.rollback_lines (logger.run (logger.__init__ output_dir stamp now) calls)
  = flat_map (λ c, rev (rollback_block c)) (rev calls).
Proof.
  unfold logger.rollback_lines.
  by rewrite rollback_commands_run, <- rev_flat_map.
Qed.

(** ** Statements about the audit journal *)

(** C2.  The code at the failing input: the two successful recordings of the
    specification's scenario, with a dry run and a failed recording between
    them.  The commands come out in reverse order of recording and the other
    calls leave no line, but each command is followed, not preceded, by its
    own label: the line above "Set-Service Foo" (past the blank) is the label
    of Bar. *)
Theorem rollback_label_follows_command :
  logger.rollback_lines (logger.run (H := demo.runtime) demo.journal demo.foo_then_bar)
  = [ "";
      "Set-Service Bar -StartupType Automatic";
      "# Rollback: disable_service - Bar";
      "";
      "Set-Service Foo -StartupType Automatic";
      "# Rollback: disable_service - Foo" ].
Proof. vm_compute. reflexivity. Qed.



(** ** More on the critical-keep set *)

Lemma eq_str_true v s : Py.eq_str v s = true ↔ v = PStr s.
Proof.
  destruct v; simpl; try (split; [done|by intros [=]]).
  rewrite String.eqb_eq. split; [by intros ->|by intros [= ->]].
Qed.

Lemma critical_fold_elem (kb : knowledge_base) (keep_set : gset string) s :
  s ∈ foldl (λ (keep_set : gset string) (e : string * gmap string pyval),
               if Py.eq_str (Py.get_ e.2 "safety_rating") "CRITICAL"
               then keep_set ∪ {[ Py.lower e.1 ]}
               else keep_set) keep_set kb
  ↔ s ∈ keep_set ∨
    ∃ e, e ∈ kb ∧ Py.get_ e.2 "safety_rating" = PStr "CRITICAL" ∧ s = Py.lower e.1.
Proof.
  revert keep_set. induction kb as [|e kb IH]; intros keep_set; simpl.
  - split; [by left|]. intros [?|(e & He%elem_of_nil & _)]; done.
  - rewrite IH. destruct (Py.eq_str _ "CRITICAL") eqn:Hc.
    + apply eq_str_true in Hc. rewrite elem_of_union, elem_of_singleton. split.
      * intros [[?| ->]|(e' & He' & ?)]; [by left| |].
        -- right. exists e. split; [by left|done].
        -- right. exists e'. split; [by right|done].
      * intros [?|(e' & [->|He']%elem_of_cons & Hc' & ->)].
        -- by left; left.
        -- by left; right.
        -- right. by exists e'.
    + split.
      * intros [?|(e' & He' & ?)]; [by left|]. right. exists e'. split; [by right|done].
      * intros [?|(e' & [->|He']%elem_of_cons & Hc' & ->)]; [by left| |].
        -- apply eq_str_true in Hc'. congruence.
        -- right. by exists e'.
Qed.

Lemma build_critical_keep_set_elem (manifest : Manifest) (kb : knowledge_base)
    (s : string) :
  s ∈ _build_critical_keep_set manifest kb ↔
  (∃ n, n ∈ processes manifest ∧ s = Py.lower n) ∨
  (∃ n, n ∈ services manifest ∧ s = Py.lower n) ∨
  (∃ n info, (n, info) ∈ kb ∧
             Py.get_ info "safety_rating" = PStr "CRITICAL" ∧ s = Py.lower n).
Proof.
  unfold _build_critical_keep_set. rewrite critical_fold_elem.
  rewrite !elem_of_union, !elem_of_list_to_set, !list_elem_of_fmap.
  rewrite elem_of_empty. split.
  - intros [[[[]|(n & -> & Hn)]|(n & -> & Hn)]|([n info] & He & Hc & ->)]; eauto 10.
  - intros [(n & Hn & ->)|[(n & Hn & ->)|(n & info & He & Hc & ->)]]; eauto 10.
Qed.

(** X1.  The critical-keep set holds exactly the lower-cased names of the
    manifest's two lists and the lower-cased names of the knowledge-base
    entries rated CRITICAL; in particular it is empty when both sources are. *)
Theorem critical_keep_set_members (manifest : Manifest) (kb : knowledge_base) :
  (∀ s, s ∈ _build_critical_keep_set manifest kb ↔
        (∃ n, n ∈ processes manifest ∧ s = Py.lower n) ∨
        (∃ n, n ∈ services manifest ∧ s = Py.lower n) ∨
        (∃ n info, (n, info) ∈ kb ∧
                   Py.get_ info "safety_rating" = PStr "CRITICAL" ∧ s = Py.lower n)) ∧
  (processes manifest = [] → services manifest = [] →
   Forall (λ e, Py.get_ e.2 "safety_rating" ≠ PStr "CRITICAL") kb →
   _build_critical_keep_set manifest kb = ∅).
Proof.
  split; [apply build_critical_keep_set_elem|].
  intros Hp Hs Hkb. apply set_eq. intros s.
  rewrite build_critical_keep_set_elem, Hp, Hs, elem_of_empty.
  split; [|done].
  intros [(n & Hn%elem_of_nil & _)|[(n & Hn%elem_of_nil & _)|(n & info & He & Hc & _)]];
    [done..|].
  rewrite Forall_forall in Hkb. by apply (Hkb _ He).
Qed.

(** X2.  After [__init__], a record of any kind whose name equals, ignoring
    case, a name of the manifest's critical-keep lists or the name of a
    knowledge-base entry rated CRITICAL gets no reason. *)
Theorem critical_entries_get_no_reason `{PyBuiltins} (settings : Settings)
    (kb : knowledge_base) (manifest : Manifest) (k : kind) (r : record)
    (name known_name : string) :
  Py.get r "name" (PStr "") = PStr name →
  Py.lower name = Py.lower known_name →
  known_name ∈ processes manifest ∨ known_name ∈ services manifest ∨
    (∃ info, (known_name, info) ∈ kb ∧
             Py.get_ info "safety_rating" = PStr "CRITICAL") →
  reasons_of (__init__ settings kb manifest) k r = Some [].
Proof.
  intros Hname Hlow Hknown.
  apply (reasons_of_critical _ k r name Hname).
  change (critical_keep (__init__ settings kb manifest))
    with (_build_critical_keep_set manifest kb).
  apply build_critical_keep_set_elem. rewrite Hlow.
  destruct Hknown as [?|[?|(info & ? & ?)]]; eauto 10.
Qed.

Lemma critical_keep_set_members_witness :
  "explorer.exe" ∈ _build_critical_keep_set demo.manifest demo.kb ∧
  _build_critical_keep_set {| processes := []; services := [] |}
    [("Razer", demo.razer_entry)] = ∅.
Proof.
  destruct (critical_keep_set_members demo.manifest demo.kb) as [Hmem _].
  destruct (critical_keep_set_members {| processes := []; services := [] |}
              [("Razer", demo.razer_entry)]) as [_ Hempty].
  split.
  - apply Hmem. right. right. exists "explorer.exe", demo.explorer_entry.
    split_and!; [by left|reflexivity|reflexivity].
  - apply Hempty; [reflexivity|reflexivity|].
    apply Forall_cons_2; [vm_compute; intros [=]|apply Forall_nil_2].
Defined.

Lemma critical_entries_get_no_reason_witness :
  reasons_of (H := demo.runtime)
    (__init__ (H := demo.runtime) demo.settings demo.kb demo.manifest)
    Service samples.windefend = Some [].
Proof.
  apply (critical_entries_get_no_reason (H := demo.runtime) demo.settings demo.kb
           demo.manifest Service samples.windefend "WINDEFEND" "WinDefend").
  - reflexivity.
  - reflexivity.
  - right. left. by left.
Defined.

(** ** More on the reason functions *)

Lemma prefix_nil s : String.prefix "" s = true.
Proof. by destruct s. Qed.

Lemma has_reason_app prefix rs1 rs2 :
  has_reason prefix (rs1 ++ rs2) = has_reason prefix rs1 || has_reason prefix rs2.
Proof. apply existsb_app. Qed.

(** A pattern reason starts with no other reason's text. *)
Lemma has_reason_first_match prefix ps text c rest :
  prefix = String c rest → c ≠ "M"%char →
  has_reason prefix (first_match_reason ps text) = false.
Proof.
  intros -> Hc. unfold first_match_reason.
  destruct (list_find _ ps) as [[? p]|]; [|done].
  unfold has_reason, pattern_reason. simpl.
  destruct (Ascii.ascii_dec c "M"); [done|]. done.
Qed.

Lemma gt_true v t q :
  Py.number v = Some q → (Py.gt v t = Some true ↔ (t < q)%Q).
Proof.
  intros Hq. unfold Py.gt. rewrite Hq. simpl.
  destruct (Qle_bool q t) eqn:Hle; simpl.
  - apply Qle_bool_iff in Hle. split; [done|]. intros Hlt. by apply Qlt_not_le in Hlt.
  - split; [intros _|done]. apply Qnot_le_lt. intros Hle'%Qle_bool_iff. congruence.
Qed.

Lemma gt_is_Some v t : is_Some (Py.gt v t) ↔ is_Some (Py.number v).
Proof. unfold Py.gt. destruct (Py.number v); simpl; split; eauto; by intros [? ?]. Qed.

Section thresholds.
Context `{PyBuiltins}.

(** X3.  For a process outside the critical-keep set, the reasons hold a
    high-memory reason exactly when [memory_percent] is strictly above the
    threshold, and a high-CPU reason exactly when [cpu_percent] is strictly
    above its threshold; a value equal to the threshold is not flagged. *)
Theorem usage_flagged_strictly_above_threshold (self : SuspectFilter)
    (proc : record) (name : string) (rs : list string) (mem cpu : Q) :
  Py.get proc "name" (PStr "") = PStr name →
  Py.lower name ∉ critical_keep self →
  Py.number (Py.get proc "memory_percent" (PInt 0)) = Some mem →
  Py.number (Py.get proc "cpu_percent" (PInt 0)) = Some cpu →
  _get_suspect_reasons_process self proc = Some rs →
  (has_reason "High memory usage: " rs = true ↔ (high_memory_threshold self < mem)%Q) ∧
  (has_reason "High CPU usage: " rs = true ↔ (high_cpu_threshold self < cpu)%Q).
Proof.
  intros Hname Hin Hmem Hcpu.
  pose proof (gt_true _ (high_memory_threshold self) _ Hmem) as Hm.
  pose proof (gt_true _ (high_cpu_threshold self) _ Hcpu) as Hc.
  unfold _get_suspect_reasons_process.
  rewrite !Hname. simpl. rewrite !bool_decide_eq_false_2 by done.
  rewrite scan_patterns_first_match. simpl.
  destruct (Py.gt (Py.get proc "memory_percent" _) _) as [[]|] eqn:Hgm; [| |done];
    (destruct (Py.gt (Py.get proc "cpu_percent" _) _) as [[]|] eqn:Hgc; [| |done]);
    simpl; intros Hrs.
  all: assert (∀ l, has_reason "High memory usage: "
                      (first_match_reason (patterns self) l) = false) as Hpm
         by (intros; by eapply has_reason_first_match).
  all: assert (∀ l, has_reason "High CPU usage: "
                      (first_match_reason (patterns self) l) = false) as Hpc
         by (intros; by eapply has_reason_first_match).
  all: repeat (case_match; simplify_option_eq).
  all: rewrite ?has_reason_app, ?Hpm, ?Hpc; unfold has_reason; simpl;
       rewrite ?prefix_nil; simpl.
  all: rewrite <- Hm, <- Hc; split; split; intros; congruence.
Qed.

End thresholds.

Lemma usage_flagged_strictly_above_threshold_witness :
  (has_reason "High memory usage: "
     ["High memory usage: <object>%"; "High CPU usage: 10%"] = true
   ↔ (high_memory_threshold demo.self < 12.5)%Q) ∧
  (has_reason "High CPU usage: "
     ["High memory usage: <object>%"; "High CPU usage: 10%"] = true
   ↔ (high_cpu_threshold demo.self < 10)%Q).
Proof.
  apply (usage_flagged_strictly_above_threshold (H := demo.runtime) demo.self
           samples.hog "hog.exe").
  - reflexivity.
  - vm_compute. intros [=].
  - reflexivity.
  - reflexivity.
  - reflexivity.
Defined.

Section provenance.
Context `{PyBuiltins}.

(** X4.  A service or scheduled task attributed to Microsoft gets no
    provenance reason: its reasons are at most the reason of the first
    matching rule, and it is left unflagged when no rule matches. *)
Theorem microsoft_attributed_only_pattern (self : SuspectFilter) (k : kind)
    (r : record) (rs : list string) :
  k = Service ∨ k = ScheduledTask →
  Py.truthy (Py.get_ r "is_microsoft") = true →
  reasons_of self k r = Some rs →
  (rs = [] ∨ rs = first_match_reason (patterns self) (full_text k r)) ∧
  (Forall (λ p, search p (full_text k r) = false) (patterns self) → rs = []).
Proof.
  intros Hk Hms Hrs.
  destruct (reasons_of_Some_name _ _ _ _ Hrs) as [name Hname].
  destruct (decide (Py.lower name ∈ critical_keep self)) as [Hin|Hin].
  { rewrite (reasons_of_critical self k r name Hname Hin) in Hrs.
    injection Hrs as <-. by split; [left|]. }
  assert (rs = first_match_reason (patterns self) (full_text k r)) as ->.
  { revert Hrs. destruct Hk as [-> | ->]; simpl;
      unfold _get_suspect_reasons_service, _get_suspect_reasons_task;
      rewrite !Hname, Hms; simpl; rewrite !bool_decide_eq_false_2 by done;
      rewrite scan_patterns_first_match; by intros [= <-]. }
  split; [by right|]. apply first_match_reason_None.
Qed.

(** X5.  With [flag_non_microsoft] off, the reasons of a process do not
    depend on its [signature] field: whatever the field holds, also a value
    the signature check would raise on, the result is the same. *)
Theorem signature_ignored_when_flag_off (self : SuspectFilter) (proc : record)
    (v : pyval) :
  flag_non_microsoft self = false →
  _get_suspect_reasons_process self (<["signature" := v]> proc)
  = _get_suspect_reasons_process self proc.
Proof.
  intros Hflag.
  assert (∀ key dflt, key ≠ "signature" →
            Py.get (<["signature" := v]> proc) key dflt = Py.get proc key dflt) as Hg.
  { intros key dflt Hkey. apply get_agree. by rewrite lookup_insert_ne. }
  unfold _get_suspect_reasons_process. rewrite Hflag.
  by rewrite !Hg by done.
Qed.

(** X6.  The reason functions of services, startup items and scheduled tasks
    raise exactly when the [name] field is present and not a string; the one
    of processes raises in that case too. *)
Theorem reasons_defined_iff_name_is_string (self : SuspectFilter) (k : kind)
    (r : record) :
  (is_Some (reasons_of self k r) → is_str (Py.get r "name" (PStr "")) = true) ∧
  (k ≠ Process →
   is_str (Py.get r "name" (PStr "")) = true → is_Some (reasons_of self k r)).
Proof.
  split.
  - intros [rs Hrs]. destruct (reasons_of_Some_name _ _ _ _ Hrs) as [name ->]. done.
  - intros Hk Hname. apply reasons_of_total. unfold well_formed.
    rewrite Hname. by destruct k.
Qed.

End provenance.

Lemma microsoft_attributed_only_pattern_witness :
  ["Matches bloatware pattern: (?i)xbox(?!.*identity)"] = []
  ∨ ["Matches bloatware pattern: (?i)xbox(?!.*identity)"]
    = first_match_reason (patterns demo.self) (full_text (H := demo.runtime) Service samples.xbl).
Proof.
  apply (microsoft_attributed_only_pattern (H := demo.runtime) demo.self Service
           samples.xbl).
  - by left.
  - reflexivity.
  - reflexivity.
Defined.

Lemma signature_ignored_when_flag_off_witness :
  _get_suspect_reasons_process (H := demo.runtime) samples.quiet
    (<["signature" := PList []]> samples.hog)
  = _get_suspect_reasons_process (H := demo.runtime) samples.quiet samples.hog.
Proof.
  apply (signature_ignored_when_flag_off (H := demo.runtime) samples.quiet samples.hog).
  reflexivity.
Defined.

Lemma reasons_defined_iff_name_is_string_witness :
  is_Some (reasons_of (H := demo.runtime) demo.self StartupItem demo.updater).
Proof.
  apply (reasons_defined_iff_name_is_string (H := demo.runtime) demo.self StartupItem
           demo.updater).
  - intros [=].
  - reflexivity.
Defined.

(** ** More on the filter operations *)

Lemma for_each_fixed (body : record → option record) items (h : heap) :
  (∀ l, l ∈ items → ∃ r, h !! l = Some r ∧ body r = Some r) →
  for_each body items h = Some h.
Proof.
  induction items as [|l0 items IH]; intros Hall; simpl; [done|].
  destruct (Hall l0) as (r0 & Hr0 & Hb0); [by left|].
  rewrite Hr0. simpl. rewrite Hb0. simpl.
  rewrite (insert_id h l0 r0 Hr0). apply IH. intros l Hl. apply Hall. by right.
Qed.

Section filter_store.
Context `{PyBuiltins}.

(** X7.  A filter operation is idempotent on the store: applied again to the
    records it has marked, it returns and changes nothing. *)
Theorem filter_twice_same_store (self : SuspectFilter) (k : kind)
    (items items' : list loc) (h h' : heap) :
  filter_op self k items h = Some (items', h') →
  filter_op self k items' h' = Some (items', h').
Proof.
  intros Hop. pose proof Hop as [-> Hlook]%filter_op_lookup.
  rewrite filter_op_unfold, for_each_fixed; [done|].
  intros l Hl. destruct (Hlook l) as [_ (r & r' & _ & Hm & Hr')]; [done|].
  exists r'. split; [done|]. by eapply mark_idempotent.
Qed.

(** X8.  The store a filter operation leaves depends only on which objects it
    was given, not on their order or on how often each occurs: no record's
    marking depends on another record. *)
Theorem filter_order_independent (self : SuspectFilter) (k : kind)
    (items1 items2 : list loc) (h h1 : heap) :
  (∀ l, l ∈ items2 ↔ l ∈ items1) →
  filter_op self k items1 h = Some (items1, h1) →
  filter_op self k items2 h = Some (items2, h1).
Proof.
  intros Hsame Hop1. pose proof Hop1 as [_ Hlook1]%filter_op_lookup.
  destruct (for_each_total (mark self (reasons_of self k))
              (λ r, is_Some (mark self (reasons_of self k) r)) items2 h)
    as [h2 Hrun2].
  { intros r [r' Hr']. exists r'. split; [done|]. eexists. by eapply mark_idempotent. }
  { intros l Hl%Hsame. destruct (Hlook1 l) as [_ (r & r' & Hr & Hm & _)]; [done|]. eauto. }
  rewrite filter_op_unfold, Hrun2. simpl. do 2 f_equal.
  apply map_eq. intros l.
  pose proof (for_each_lookup _ _ _ _ (mark_idempotent self k) Hrun2 l) as [Hout2 Hin2].
  destruct (Hlook1 l) as [Hout1 Hin1].
  destruct (decide (l ∈ items1)) as [Hl|Hl].
  - destruct (Hin1 Hl) as (r & r' & Hr & Hm & ->).
    destruct Hin2 as (r0 & r0' & Hr0 & Hm0 & ->); [by apply Hsame|]. congruence.
  - rewrite Hout1 by done. apply Hout2. by rewrite Hsame.
Qed.

(** X9.  A lookup only returns an entry of the knowledge base under a name
    that matches in the lookup's mode: the entry the filter attaches as
    [known_info] belongs to a known name equal to the record's name ignoring
    case, and the entry the resolver's lookup returns belongs to a known name
    that contains the record's name or is contained in it, ignoring case. *)
Theorem lookup_returns_matching_entry (name : string) (info : gmap string pyval) :
  (∀ self : SuspectFilter,
     _get_known_info self (PStr name) = Some (PDict info) →
     ∃ known_name,
       (known_name, info) ∈ known_processes self ∧
       Py.lower known_name = Py.lower name) ∧
  (∀ self : ai_researcher.AIResearcher,
     ai_researcher._lookup_known self (PStr name) = Some (PDict info) →
     ∃ known_name,
       (known_name, info) ∈ ai_researcher.known_processes self ∧
       kb_partial name known_name = true).
Proof.
  assert (∀ test kb, kb_first test kb = Some info →
            ∃ known_name, (known_name, info) ∈ kb ∧ test known_name = true) as Hfirst.
  { intros test kb. unfold kb_first.
    destruct (list_find _ kb) as [[i [known_name info']]|] eqn:Hfind; [|done].
    intros [= ->]. apply list_find_Some in Hfind as (Hi & Ht & _).
    exists known_name. split; [|done]. by eapply list_elem_of_lookup_2. }
  split; intros self.
  - rewrite get_known_info_found.
    destruct (kb_first (kb_exact name) _) as [i1|] eqn:H1;
      destruct (kb_first (kb_folded name) _) as [i2|] eqn:H2;
      simpl; intros [=]; subst.
    + destruct (Hfirst _ _ H1) as (kn & ? & Hk%kb_exact_folded).
      exists kn. split; [done|]. by apply String.eqb_eq in Hk.
    + destruct (Hfirst _ _ H1) as (kn & ? & Hk%kb_exact_folded).
      exists kn. split; [done|]. by apply String.eqb_eq in Hk.
    + destruct (Hfirst _ _ H2) as (kn & ? & Hk).
      exists kn. split; [done|]. by apply String.eqb_eq in Hk.
  - rewrite lookup_known_found.
    destruct (kb_first (kb_exact name) _) as [i1|] eqn:H1;
      destruct (kb_first (kb_folded name) _) as [i2|] eqn:H2;
      destruct (kb_first (kb_partial name) _) as [i3|] eqn:H3;
      simpl; intros [=]; subst.
    all: first
      [ destruct (Hfirst _ _ H1) as (kn & ? & Hk%kb_exact_folded%kb_folded_partial)
      | destruct (Hfirst _ _ H2) as (kn & ? & Hk%kb_folded_partial)
      | destruct (Hfirst _ _ H3) as (kn & ? & Hk) ];
      by exists kn.
Qed.

End filter_store.

Lemma filter_twice_same_store_witness :
  ∃ h' : heap,
    filter_op (H := demo.runtime) demo.self Process [1; 2; 1]%positive demo.store
      = Some ([1; 2; 1]%positive, h') ∧
    filter_op (H := demo.runtime) demo.self Process [1; 2; 1]%positive h'
      = Some ([1; 2; 1]%positive, h').
Proof.
  destruct (filter_op_total (H := demo.runtime) demo.self Process [1; 2; 1]%positive
              demo.store) as [[items' h'] Hop].
  { intros l Hl. repeat (apply elem_of_cons in Hl as [->|Hl]);
      [exists demo.explorer|exists demo.razer_service|exists demo.explorer|];
      [split; reflexivity..|by apply elem_of_nil in Hl]. }
  pose proof Hop as [-> _]%filter_op_lookup.
  exists h'. split; [done|].
  exact (filter_twice_same_store (H := demo.runtime) demo.self Process _ _ _ _ Hop).
Defined.

Lemma filter_order_independent_witness :
  ∃ h' : heap,
    filter_op (H := demo.runtime) demo.self Process [1; 2]%positive demo.store
      = Some ([1; 2]%positive, h') ∧
    filter_op (H := demo.runtime) demo.self Process [2; 1; 2]%positive demo.store
      = Some ([2; 1; 2]%positive, h').
Proof.
  destruct (filter_op_total (H := demo.runtime) demo.self Process [1; 2]%positive
              demo.store) as [[items' h'] Hop].
  { intros l Hl. repeat (apply elem_of_cons in Hl as [->|Hl]);
      [exists demo.explorer|exists demo.razer_service|];
      [split; reflexivity..|by apply elem_of_nil in Hl]. }
  pose proof Hop as [-> _]%filter_op_lookup.
  exists h'. split; [done|].
  apply (filter_order_independent (H := demo.runtime) demo.self Process
           [1; 2]%positive [2; 1; 2]%positive demo.store h'); [|done].
  intros l. rewrite !elem_of_cons, !elem_of_nil. tauto.
Defined.

Lemma lookup_returns_matching_entry_witness :
  ∃ known_name,
    (known_name, demo.razer_entry) ∈ ai_researcher.known_processes demo.researcher ∧
    kb_partial "RazerChromaService" known_name = true.
Proof.
  apply (lookup_returns_matching_entry "RazerChromaService" demo.razer_entry).
  reflexivity.
Defined.

(** ** The filter's summary *)

Lemma summary_items_is_Some (suspects : list record) :
  is_Some (summary_items suspects) ↔
  Forall (λ p : record, is_Some (p !! "name") ∧ is_Some (p !! "suspect_reasons"))
         suspects.
Proof.
  unfold summary_items. rewrite mapM_is_Some.
  apply Forall_proper; [|done]. intros p. simpl.
  destruct (p !! "name"), (p !! "suspect_reasons"); simpl;
    split; (try by intros [? ?]); (try by intros [[? ?] [? ?]]); eauto.
Qed.

Lemma summary_items_Some (suspects : list record) its :
  summary_items suspects = Some its →
  its = (λ p : record, (Py.get_ p "name", Py.get_ p "suspect_reasons")) <$> suspects.
Proof.
  unfold summary_items. intros Hm%mapM_Some.
  induction Hm as [|p it suspects its Hp _ IH]; [done|].
  simpl. f_equal; [|exact IH].
  unfold Py.get_, Py.get.
  destruct (p !! "name"), (p !! "suspect_reasons"); simpl in *; congruence.
Qed.

Lemma get_suspects_only_Forall (P : record → Prop) (l : list record) :
  Forall P (get_suspects_only l)
  ↔ Forall (λ p : record, Py.truthy (Py.get_ p "is_suspect") = true → P p) l.
Proof.
  unfold get_suspects_only. rewrite !Forall_forall. split.
  - intros Hf p Hp Ht. apply Hf. by apply list_elem_of_filter.
  - intros Hf p [Ht Hp]%list_elem_of_filter. by apply Hf.
Qed.

Lemma get_summary_is_Some (processes services startup_items tasks : list record) :
  is_Some (get_summary processes services startup_items tasks) ↔
  Forall (λ p : record,
            Py.truthy (Py.get_ p "is_suspect") = true →
            is_Some (p !! "name") ∧ is_Some (p !! "suspect_reasons"))
         (processes ++ services ++ startup_items ++ tasks).
Proof.
  unfold get_summary.
  rewrite !Forall_app, <- !get_suspects_only_Forall, <- !summary_items_is_Some.
  destruct (summary_items (get_suspects_only processes)),
    (summary_items (get_suspects_only services)),
    (summary_items (get_suspects_only startup_items)),
    (summary_items (get_suspects_only tasks)); simpl;
    split; (try by intros [? ?]); (try by intros ([? ?] & [? ?] & [? ?] & [? ?]));
    eauto.
Qed.

(** X10.  [get_summary] raises [KeyError] exactly when a record with a true
    [is_suspect] lacks the [name] or the [suspect_reasons] key.  When it
    returns, each block counts its list and the records of it with a true
    [is_suspect], lists the name and reasons of those records in input order,
    and [total_suspects] is the sum of the four suspect counts, at most the
    number of records. *)
Theorem filter_summary_counts (processes services startup_items tasks : list record) :
  (is_Some (get_summary processes services startup_items tasks) ↔
   Forall (λ p : record,
             Py.truthy (Py.get_ p "is_suspect") = true →
             is_Some (p !! "name") ∧ is_Some (p !! "suspect_reasons"))
          (processes ++ services ++ startup_items ++ tasks)) ∧
  (∀ s, get_summary processes services startup_items tasks = Some s →
     let block := λ (b : KindSummary) (l : list record),
       total b = length l ∧
       suspect b = length (get_suspects_only l) ∧
       items b = (λ p : record, (Py.get_ p "name", Py.get_ p "suspect_reasons"))
                   <$> get_suspects_only l in
     block (summary_processes s) processes ∧
     block (summary_services s) services ∧
     block (summary_startup_items s) startup_items ∧
     block (summary_tasks s) tasks ∧
     total_suspects s
       = (suspect (summary_processes s) + suspect (summary_services s)
          + suspect (summary_startup_items s) + suspect (summary_tasks s))%nat ∧
     (total_suspects s
        ≤ length processes + length services + length startup_items + length tasks)%nat).
Proof.
  split; [apply get_summary_is_Some|]. unfold get_summary.
  intros s.
  destruct (summary_items (get_suspects_only processes)) as [i1|] eqn:H1; [|done].
  destruct (summary_items (get_suspects_only services)) as [i2|] eqn:H2; [|done].
  destruct (summary_items (get_suspects_only startup_items)) as [i3|] eqn:H3; [|done].
  destruct (summary_items (get_suspects_only tasks)) as [i4|] eqn:H4; [|done].
  simpl. intros [= <-]. simpl.
  apply summary_items_Some in H1, H2, H3, H4.
  split_and!; try done.
  pose proof (length_filter (λ item : record, Py.truthy (Py.get_ item "is_suspect") = true)
                processes).
  pose proof (length_filter (λ item : record, Py.truthy (Py.get_ item "is_suspect") = true)
                services).
  pose proof (length_filter (λ item : record, Py.truthy (Py.get_ item "is_suspect") = true)
                startup_items).
  pose proof (length_filter (λ item : record, Py.truthy (Py.get_ item "is_suspect") = true)
                tasks).
  unfold get_suspects_only. lia.
Qed.

Section summary_edge.
Context `{PyBuiltins}.

(** X11.  A startup item without a [name] key is accepted by the filter (the
    name defaults to the empty string) and, unless the empty string is in the
    critical-keep set or [enabled] is false, is marked suspect; [get_summary]
    then raises [KeyError] on it, because it subscripts [name]. *)
Theorem nameless_suspect_breaks_summary (self : SuspectFilter) (item : record)
    (processes services tasks before after : list record) :
  item !! "name" = None →
  "" ∉ critical_keep self →
  Py.truthy (Py.get item "enabled" (PBool true)) = true →
  ∃ item' : record,
    mark self (_get_suspect_reasons_startup self) item = Some item' ∧
    item' !! "is_suspect" = Some (PBool true) ∧
    get_summary processes services (before ++ item' :: after) tasks = None.
Proof.
  intros Hname Hin Henabled.
  assert (∀ dflt, Py.get item "name" dflt = dflt) as Hget
    by (intros; unfold Py.get; by rewrite Hname).
  set (rs := scan_patterns (patterns self)
               ("" +:+ " " +:+ Py.str (Py.get item "command" (PStr ""))) []).
  assert (_get_suspect_reasons_startup self item = Some (rs ++ ["Enabled startup item"]))
    as Hrs.
  { unfold _get_suspect_reasons_startup. rewrite !Hget, Henabled. simpl.
    by rewrite bool_decide_eq_false_2 by done. }
  destruct (get_known_info_is_Some self "") as [info Hinfo].
  eexists. split_and!.
  - apply mark_Some. eexists _, info. split_and!; [exact Hrs|by rewrite Hget|done].
  - rewrite length_app, Nat.add_comm. simpl. read_fields.
  - apply eq_None_not_Some. rewrite get_summary_is_Some.
    rewrite !Forall_app, Forall_cons. intros (_ & _ & (_ & Hitem & _) & _).
    destruct Hitem as [[? Hn] _].
    + unfold Py.get_, Py.get. rewrite length_app, Nat.add_comm. simpl. by read_fields.
    + revert Hn. read_fields.
Qed.

End summary_edge.

Lemma filter_summary_counts_witness :
  ∃ s, get_summary [demo.updater] [demo.xclient] [demo.acme] [] = Some s ∧
       total_suspects s = 2%nat.
Proof.
  destruct (filter_summary_counts [demo.updater] [demo.xclient] [demo.acme] [])
    as [Hdef Hcount].
  destruct (proj2 Hdef) as [s Hs].
  - apply Forall_cons_2; [by vm_compute|].
    apply Forall_cons_2; [intros _; split; apply is_Some_alt; vm_compute; exact I|].
    apply Forall_cons_2; [intros _; split; apply is_Some_alt; vm_compute; exact I|].
    apply Forall_nil_2.
  - exists s. split; [done|].
    destruct (Hcount s Hs) as (_ & (_ & H2 & _) & (_ & H3 & _) & (_ & H4 & _) & Htot & _).
    destruct (Hcount s Hs) as ((_ & H1 & _) & _).
    rewrite Htot, H1, H2, H3, H4. reflexivity.
Defined.

Lemma nameless_suspect_breaks_summary_witness :
  ∃ item' : record,
    mark demo.self (_get_suspect_reasons_startup (H := demo.runtime) demo.self)
      samples.nameless = Some item' ∧
    item' !! "is_suspect" = Some (PBool true) ∧
    get_summary [] [] ([demo.acme] ++ item' :: []) [] = None.
Proof.
  apply (nameless_suspect_breaks_summary (H := demo.runtime) demo.self samples.nameless
           [] [] [] [demo.acme] []).
  - reflexivity.
  - vm_compute. intros [=].
  - reflexivity.
Defined.

(** ** More on the research resolver *)

Lemma truthy_PDict (d : gmap string pyval) : Py.truthy (PDict d) = true ↔ d ≠ ∅.
Proof.
  simpl. destruct (map_to_list d) as [|kv l] eqn:Hl.
  - apply map_to_list_empty_iff in Hl. by split.
  - split; [|done]. intros _ ->. by rewrite map_to_list_empty in Hl.
Qed.

Section resolver_branches.
Context `{PyBuiltins}.

(** X12.  When the resolver has a non-empty entry for a record (attached as
    [known_info] or found by its lookup), the result is marked
    [known_processes_database], needs no further research, and its category,
    publisher, purpose, recommendation, safety rating and notes are the
    entry's, [None] for a field the entry lacks; the name, the kind and the
    suspect reasons are the record's.  No other field of the record is
    consulted, so this branch cannot raise. *)
Theorem known_entry_copied_verbatim (self : ai_researcher.AIResearcher)
    (now : string) (item : record) (item_type : string) (info : gmap string pyval) :
  ai_researcher.resolve_known self item (Py.get item "name" (PStr "Unknown"))
    = Some (PDict info) →
  info ≠ ∅ →
  ∃ res : record,
    ai_researcher.research_item self now item item_type = Some res ∧
    res !! "source" = Some (PStr "known_processes_database") ∧
    res !! "requires_further_research" = Some (PBool false) ∧
    res !! "category" = Some (Py.get_ info "category") ∧
    res !! "publisher" = Some (Py.get_ info "publisher") ∧
    res !! "purpose" = Some (Py.get_ info "purpose") ∧
    res !! "recommendation" = Some (Py.get_ info "recommendation") ∧
    res !! "safety_rating" = Some (Py.get_ info "safety_rating") ∧
    res !! "notes" = Some (Py.get_ info "notes") ∧
    res !! "name" = Some (Py.get item "name" (PStr "Unknown")) ∧
    res !! "type" = Some (PStr item_type) ∧
    res !! "suspect_reasons" = Some (Py.get item "suspect_reasons" (PList [])).
Proof.
  intros Hres Hne%truthy_PDict.
  unfold ai_researcher.research_item. rewrite Hres.
  cbn [mbind option_bind]. rewrite Hne.
  cbn [mbind option_bind ai_researcher.as_dict].
  eexists. split; [reflexivity|].
  unfold Py.update. cbn [foldl fst snd].
  split_and!; read_fields.
Qed.

(** X13.  An entry without any field counts as no entry: when the resolver's
    lookup yields an empty dict, the record is researched as unknown
    ([needs_research], REVIEW, UNKNOWN, flagged for further research), with a
    guessed category. *)
Theorem empty_entry_counts_as_unknown (self : ai_researcher.AIResearcher)
    (now : string) (item : record) (item_type name : string) (rs : list pyval) :
  item !! "name" = Some (PStr name) →
  item !! "suspect_reasons" = Some (PList rs) →
  ai_researcher.resolve_known self item (PStr name) = Some (PDict ∅) →
  ∃ res : record,
    ai_researcher.research_item self now item item_type = Some res ∧
    res !! "source" = Some (PStr "needs_research") ∧
    res !! "recommendation" = Some (PStr "REVIEW") ∧
    res !! "safety_rating" = Some (PStr "UNKNOWN") ∧
    res !! "requires_further_research" = Some (PBool true) ∧
    res !! "category"
      = Some (PStr (first_bucket (Py.lower name) (category_path item))).
Proof.
  intros Hname Hrs Hres.
  assert (∀ dflt, Py.get item "name" dflt = PStr name) as Hget
    by (intros; unfold Py.get; by rewrite Hname).
  destruct (generate_research_notes_total item item_type rs Hrs) as [notes Hnotes].
  unfold ai_researcher.research_item. rewrite Hget, Hres.
  cbn [mbind option_bind].
  change (Py.truthy (PDict ∅)) with false. cbn iota.
  rewrite (guess_category_first_bucket item name (Hget _)), Hnotes.
  cbn [mbind option_bind].
  eexists. split; [reflexivity|].
  unfold Py.update. cbn [foldl fst snd].
  split_and!; read_fields.
Qed.

End resolver_branches.

Lemma known_entry_copied_verbatim_witness :
  ∃ res : record,
    ai_researcher.research_item (H := demo.runtime) demo.researcher
      "2026-11-04T09:00:00" demo.acme "startup" = Some res ∧
    res !! "source" = Some (PStr "known_processes_database") ∧
    res !! "publisher" = Some (PStr "Acme") ∧
    res !! "recommendation" = Some PNone.
Proof.
  destruct (known_entry_copied_verbatim (H := demo.runtime) demo.researcher
              "2026-11-04T09:00:00" demo.acme "startup" demo.acme_entry)
    as (res & Hres & Hsrc & _ & _ & Hpub & _ & Hrec & _).
  - reflexivity.
  - apply truthy_PDict. reflexivity.
  - exists res. by split_and!.
Defined.

Lemma empty_entry_counts_as_unknown_witness :
  ∃ res : record,
    ai_researcher.research_item (H := demo.runtime) samples.ghost_researcher
      "2026-11-04T09:00:00" samples.ghost "startup" = Some res ∧
    res !! "source" = Some (PStr "needs_research") ∧
    res !! "recommendation" = Some (PStr "REVIEW").
Proof.
  destruct (empty_entry_counts_as_unknown (H := demo.runtime) samples.ghost_researcher
              "2026-11-04T09:00:00" samples.ghost "startup" "Ghost"
              [PStr "Enabled startup item"])
    as (res & Hres & Hsrc & Hrec & _).
  - reflexivity.
  - reflexivity.
  - reflexivity.
  - exists res. by split_and!.
Defined.

Section research_all.
Context `{PyBuiltins}.

Lemma research_kind_Some self clock item_type items tick out tick' out' :
  ai_researcher.research_kind self clock item_type items tick out = Some (tick', out') →
  ∃ news, out' = out ++ news ∧ tick' = (tick + length news)%nat ∧
          researched self clock item_type tick items news.
Proof.
  revert tick out. induction items as [|item items IH]; intros tick out; simpl.
  - intros [= <- <-]. exists []. rewrite app_nil_r, Nat.add_0_r.
    split_and!; [done..|]. split; [done|]. by intros i item ?.
  - unfold researched, get_suspects_only in *.
    destruct (Py.truthy (Py.get_ item "is_suspect")) eqn:Hs.
    + destruct (ai_researcher.research_item self (clock tick) item item_type)
        as [res|] eqn:Hres; [|done]. simpl.
      intros (news & -> & -> & Hlen & Hnews)%IH.
      exists (res :: news). rewrite <- (assoc_L (++)). simpl.
      split_and!; [done|lia|..]; rewrite filter_cons_True by done;
        [simpl; by rewrite Hlen|].
      intros [|i] it Hit; simpl in *.
      * injection Hit as <-. exists res. by rewrite Nat.add_0_r.
      * destruct (Hnews i it Hit) as (r & ? & Hr). exists r. split; [done|].
        by replace (tick + S i)%nat with (S tick + i)%nat by lia.
    + intros (news & -> & -> & Hlen & Hnews)%IH. exists news.
      rewrite filter_cons_False by congruence. by split_and!.
Qed.

(** X14.  [research_all_suspects] returns the four lists under the keys
    [processes], [services], [startup_items], [tasks], in that order; each
    holds one result per record with a true [is_suspect], in input order,
    researched under the item types [process], [service], [startup], [task]
    at consecutive readings of the clock; records that are not suspect
    contribute no result and no reading. *)
Theorem research_all_suspects_structure (self : ai_researcher.AIResearcher)
    (clock : nat → string) (processes services startup_items tasks : list record)
    (res : ai_researcher.results) :
  ai_researcher.research_all_suspects self clock processes services startup_items tasks
    = Some res →
  ∃ r1 r2 r3 r4,
    res = [ ("processes", r1); ("services", r2); ("startup_items", r3); ("tasks", r4) ] ∧
    researched self clock "process" 0 processes r1 ∧
    researched self clock "service" (length r1) services r2 ∧
    researched self clock "startup" (length r1 + length r2) startup_items r3 ∧
    researched self clock "task" (length r1 + length r2 + length r3) tasks r4.
Proof.
  unfold ai_researcher.research_all_suspects.
  destruct (ai_researcher.research_kind self clock "process" processes 0 [])
    as [[t1 r1]|] eqn:H1; [|done]. simpl.
  destruct (ai_researcher.research_kind self clock "service" services t1 [])
    as [[t2 r2]|] eqn:H2; [|done]. simpl.
  destruct (ai_researcher.research_kind self clock "startup" startup_items t2 [])
    as [[t3 r3]|] eqn:H3; [|done]. simpl.
  destruct (ai_researcher.research_kind self clock "task" tasks t3 [])
    as [[t4 r4]|] eqn:H4; [|done]. simpl.
  intros [= <-].
  apply research_kind_Some in H1 as (n1 & -> & -> & Hr1).
  apply research_kind_Some in H2 as (n2 & -> & -> & Hr2).
  apply research_kind_Some in H3 as (n3 & -> & -> & Hr3).
  apply research_kind_Some in H4 as (n4 & -> & -> & Hr4).
  exists n1, n2, n3, n4. simpl in *. by split_and!.
Qed.

End research_all.

Lemma research_all_suspects_structure_witness :
  ∃ r1 r2 r3 r4,
    ai_researcher.research_all_suspects (H := demo.runtime) demo.researcher samples.clock
      [demo.updater] [demo.xclient] [demo.acme; samples.ghost] []
    = Some [ ("processes", r1); ("services", r2); ("startup_items", r3); ("tasks", r4) ] ∧
    length r1 = 0%nat ∧ length r2 = 1%nat ∧ length r3 = 2%nat ∧ length r4 = 0%nat.
Proof.
  assert (is_Some (ai_researcher.research_all_suspects (H := demo.runtime)
                     demo.researcher samples.clock
                     [demo.updater] [demo.xclient] [demo.acme; samples.ghost] []))
    as [res Hres] by (apply is_Some_alt; vm_compute; exact I).
  destruct (research_all_suspects_structure (H := demo.runtime) demo.researcher
              samples.clock [demo.updater] [demo.xclient] [demo.acme; samples.ghost] []
              res Hres)
    as (r1 & r2 & r3 & r4 & -> & [H1 _] & [H2 _] & [H3 _] & [H4 _]).
  exists r1, r2, r3, r4. by split_and!.
Defined.

(** ** More on aggregation *)

Lemma add_recommendation_Some_inv item_type (recs recs' : ai_researcher.recommendations)
    (item : record) :
  ai_researcher.add_recommendation item_type recs item = Some recs' →
  dom recs' = dom recs ∧ is_Some (item !! "name") ∧
  ∃ b, b ∈ dom recs ∧ recommendation_of item = PStr b.
Proof.
  unfold ai_researcher.add_recommendation, recommendation_of.
  destruct (Py.get item "recommendation" _) as [| | | |b| |]; try done.
  destruct (recs !! b) as [old|] eqn:Hold; [|done]. simpl.
  destruct (item !! "name") as [name|]; [|done]. simpl.
  intros [= <-]. split_and!; [|by eauto|].
  - rewrite dom_insert_L. apply elem_of_dom_2 in Hold.
    apply set_eq. intros x. rewrite elem_of_union, elem_of_singleton.
    split; [intros [->|?]; done|by right].
  - exists b. split; [by eapply elem_of_dom_2|done].
Qed.

Lemma add_items_Some_inv item_type items (recs recs' : ai_researcher.recommendations) :
  ai_researcher.add_items item_type items recs = Some recs' →
  dom recs' = dom recs ∧
  Forall (λ item : record,
            is_Some (item !! "name") ∧
            ∃ b, b ∈ dom recs ∧ recommendation_of item = PStr b) items.
Proof.
  revert recs. induction items as [|item items IH]; intros recs; simpl.
  - by intros [= <-].
  - destruct (ai_researcher.add_recommendation item_type recs item) as [recs1|] eqn:H1;
      [|done]. simpl.
    apply add_recommendation_Some_inv in H1 as (Hdom & Hname & Hb).
    intros [Hdom' Hall]%IH. rewrite Hdom in Hdom', Hall.
    split; [done|]. by constructor.
Qed.

Lemma add_kinds_Some_inv (res : ai_researcher.results)
    (recs recs' : ai_researcher.recommendations) :
  ai_researcher.add_kinds res recs = Some recs' →
  dom recs' = dom recs ∧
  Forall (λ e : string * record,
            is_Some (e.2 !! "name") ∧
            ∃ b, b ∈ dom recs ∧ recommendation_of e.2 = PStr b) (traversal res).
Proof.
  revert recs. induction res as [|[item_type items] res IH]; intros recs; simpl.
  - by intros [= <-].
  - destruct (ai_researcher.add_items item_type items recs) as [recs1|] eqn:H1;
      [|done]. simpl.
    apply add_items_Some_inv in H1 as (Hdom & Hitems).
    intros [Hdom' Hall]%IH. rewrite Hdom in Hdom', Hall.
    split; [done|].
    change (traversal ((item_type, items) :: res))
      with (((λ item, (item_type, item)) <$> items) ++ traversal res).
    apply Forall_app. split; [|done]. by rewrite Forall_fmap.
Qed.

Lemma initial_buckets_dom :
  dom ({[ "REMOVE" := []; "DISABLE" := []; "KEEP" := []; "REVIEW" := [] ]}
       : ai_researcher.recommendations)
  = list_to_set BUCKETS.
Proof.
  rewrite !dom_insert_L, dom_singleton_L. unfold BUCKETS. simpl.
  by rewrite (right_id_L ∅ (∪)).
Qed.

(** Every listed result is counted for exactly one of the four. *)
Lemma listed_partition (l : list (string * record)) :
  Forall (λ e : string * record,
            ∃ b, b ∈ BUCKETS ∧ recommendation_of e.2 = PStr b) l →
  (length (filter (λ e, Py.eq_str (recommendation_of e.2) "REMOVE" = true) l)
   + length (filter (λ e, Py.eq_str (recommendation_of e.2) "DISABLE" = true) l)
   + length (filter (λ e, Py.eq_str (recommendation_of e.2) "KEEP" = true) l)
   + length (filter (λ e, Py.eq_str (recommendation_of e.2) "REVIEW" = true) l)
   = length l)%nat.
Proof.
  induction 1 as [|e l (b & Hb & Hrec) _ IH]; [done|].
  unfold BUCKETS in Hb.
  repeat (apply elem_of_cons in Hb as [->|Hb]);
    [..|by apply elem_of_nil in Hb];
    repeat (first [ rewrite filter_cons_True by (by rewrite Hrec)
                  | rewrite filter_cons_False by (by rewrite Hrec) ]);
    simpl; lia.
Qed.

(** X15.  Aggregation raises exactly when some result has no [name] key or a
    [recommendation] that is present and not one of the strings REMOVE,
    DISABLE, KEEP, REVIEW (an absent one counts as REVIEW). *)
Theorem aggregation_defined_iff_listed (res : ai_researcher.results) :
  is_Some (ai_researcher.generate_recommendations res) ↔
  Forall (λ e : string * record,
            is_Some (e.2 !! "name") ∧
            ∃ b, b ∈ BUCKETS ∧ recommendation_of e.2 = PStr b) (traversal res).
Proof.
  split.
  - intros [recs Hrun]. unfold ai_researcher.generate_recommendations in Hrun.
    apply add_kinds_Some_inv in Hrun as [_ Hall].
    eapply Forall_impl; [exact Hall|]. intros e (Hname & b & Hb & Hrec).
    split; [done|]. exists b. split; [|done].
    rewrite initial_buckets_dom in Hb. by apply elem_of_list_to_set in Hb.
  - intros Hvalid. destruct (generate_recommendations_valid res Hvalid) as (recs & -> & _).
    eauto.
Qed.

(** X16.  On results that are all listed, aggregation returns a mapping with
    exactly the four keys; the bucket of each key holds, in traversal order
    (kind by kind, then list order), the entries of the results recommended
    for it, each with the name, category, purpose and safety rating of its
    result and the key of its kind as type; and the four buckets together
    have as many entries as there are results. *)
Theorem aggregation_partitions_results (res : ai_researcher.results) :
  Forall (λ e : string * record,
            is_Some (e.2 !! "name") ∧
            ∃ b, b ∈ BUCKETS ∧ recommendation_of e.2 = PStr b) (traversal res) →
  ∃ recs : ai_researcher.recommendations,
    ai_researcher.generate_recommendations res = Some recs ∧
    dom recs = list_to_set BUCKETS ∧
    (∀ b, b ∈ BUCKETS → recs !! b = Some (bucket b res)) ∧
    (length (bucket "REMOVE" res) + length (bucket "DISABLE" res)
     + length (bucket "KEEP" res) + length (bucket "REVIEW" res)
     = length (traversal res))%nat.
Proof.
  intros Hvalid.
  destruct (generate_recommendations_valid res Hvalid) as (recs & Hrun & Hdom & Hb).
  exists recs. split_and!; [done..|].
  unfold bucket. rewrite !length_fmap. apply listed_partition.
  eapply Forall_impl; [exact Hvalid|]. by intros e [_ ?].
Qed.

Lemma aggregation_defined_iff_listed_witness :
  is_Some (ai_researcher.generate_recommendations samples.research).
Proof.
  apply (aggregation_defined_iff_listed samples.research).
  repeat (apply Forall_cons_2;
          [split; [apply is_Some_alt; exact I|];
           first [ by exists "KEEP"; split; [set_solver|reflexivity]
                 | by exists "REVIEW"; split; [set_solver|reflexivity] ]|]).
  apply Forall_nil_2.
Defined.

Lemma aggregation_partitions_results_witness :
  ∃ recs : ai_researcher.recommendations,
    ai_researcher.generate_recommendations samples.research = Some recs ∧
    recs !! "KEEP" = Some (bucket "KEEP" samples.research) ∧
    recs !! "REVIEW" = Some (bucket "REVIEW" samples.research).
Proof.
  destruct (aggregation_partitions_results samples.research)
    as (recs & Hrun & _ & Hb & _).
  - repeat (apply Forall_cons_2;
            [split; [apply is_Some_alt; exact I|];
             first [ by exists "KEEP"; split; [set_solver|reflexivity]
                   | by exists "REVIEW"; split; [set_solver|reflexivity] ]|]).
    apply Forall_nil_2.
  - exists recs. split_and!; [done|apply Hb; set_solver..].
Defined.

(** ** More on the research results *)

Lemma get_insert_ne (r : record) key key' v dflt :
  key ≠ key' → Py.get (<[key := v]> r) key' dflt = Py.get r key' dflt.
Proof. intros Hne. apply get_agree. by rewrite lookup_insert_ne. Qed.

Lemma get_present (r : record) key v dflt :
  r !! key = Some v → Py.get r key dflt = v.
Proof. unfold Py.get. by intros ->. Qed.

Section research_results.
Context `{PyBuiltins}.

(** X17.  A record that has an [exe_path] key, whatever it holds (also an
    empty string or [None]), hides its [path] and [command] from the category
    guess and its [path] from the publisher guess: the nested [get] defaults
    are only used when the key is absent. *)
Theorem present_exe_path_shadows_path (item : record) (exe_path v : pyval) :
  item !! "exe_path" = Some exe_path →
  ai_researcher._guess_category (<["path" := v]> item)
    = ai_researcher._guess_category item ∧
  ai_researcher._guess_category (<["command" := v]> item)
    = ai_researcher._guess_category item ∧
  ai_researcher._extract_publisher (<["path" := v]> item)
    = ai_researcher._extract_publisher item.
Proof.
  intros Hexe.
  assert (∀ key dflt, key ≠ "exe_path" →
            Py.get (<[key := v]> item) "exe_path" dflt = exe_path) as Hshadow.
  { intros key dflt Hkey. rewrite get_insert_ne by done. by apply get_present. }
  unfold ai_researcher._guess_category, ai_researcher._extract_publisher, Py.get_.
  rewrite !Hshadow by done. rewrite !(get_present item "exe_path" exe_path) by done.
  by rewrite !get_insert_ne by done.
Qed.

(** X18.  Whichever branch it takes, [research_item] returns a dict with the
    same thirteen keys; [name], [type] and [researched_at] are the record's
    name, the item type and the clock reading; [item_details] is a dict that
    repeats the item type; and the result is either marked
    [known_processes_database] and not for further research, or marked
    [needs_research], REVIEW, UNKNOWN and for further research. *)
Theorem research_result_schema (self : ai_researcher.AIResearcher) (now : string)
    (item : record) (item_type : string) (res : record) :
  ai_researcher.research_item self now item item_type = Some res →
  dom res = RESULT_FIELDS ∧
  res !! "name" = Some (Py.get item "name" (PStr "Unknown")) ∧
  res !! "type" = Some (PStr item_type) ∧
  res !! "researched_at" = Some (PStr now) ∧
  (∃ details : record,
     res !! "item_details" = Some (PDict details) ∧
     details !! "type" = Some (PStr item_type)) ∧
  ((res !! "source" = Some (PStr "known_processes_database") ∧
    res !! "requires_further_research" = Some (PBool false)) ∨
   (res !! "source" = Some (PStr "needs_research") ∧
    res !! "recommendation" = Some (PStr "REVIEW") ∧
    res !! "safety_rating" = Some (PStr "UNKNOWN") ∧
    res !! "requires_further_research" = Some (PBool true))).
Proof.
  unfold ai_researcher.research_item.
  destruct (ai_researcher.resolve_known self item _) as [known_info|]; [|done].
  cbn [mbind option_bind].
  assert (∃ details : record,
            details = ai_researcher._extract_item_details item item_type ∧
            details !! "type" = Some (PStr item_type)) as (details & <- & Hdetails).
  { eexists. split; [reflexivity|]. unfold ai_researcher._extract_item_details.
    repeat case_match; unfold Py.update; cbn [foldl fst snd]; read_fields. }
  assert (∀ s : gset string, s = RESULT_FIELDS ↔ ∀ x, x ∈ s ↔ x ∈ RESULT_FIELDS)
    as Hset by (intros; apply set_eq).
  destruct (Py.truthy known_info).
  - destruct (ai_researcher.as_dict known_info) as [info|]; [|done].
    cbn [mbind option_bind]. intros [= <-].
    unfold Py.update. cbn [foldl fst snd].
    split_and!; [|read_fields..|eexists; split; [read_fields|done]|left; split; read_fields].
    apply Hset. intros x. unfold RESULT_FIELDS.
    rewrite !dom_insert_L, dom_empty_L, !elem_of_union, !elem_of_singleton, elem_of_empty.
    tauto.
  - destruct (ai_researcher._guess_category item) as [category|]; [|done].
    cbn [mbind option_bind].
    destruct (ai_researcher._generate_research_notes item item_type) as [notes|]; [|done].
    cbn [mbind option_bind]. intros [= <-].
    unfold Py.update. cbn [foldl fst snd].
    split_and!; [|read_fields..|eexists; split; [read_fields|done]
                 |right; split_and!; read_fields].
    apply Hset. intros x. unfold RESULT_FIELDS.
    rewrite !dom_insert_L, dom_empty_L, !elem_of_union, !elem_of_singleton, elem_of_empty.
    tauto.
Qed.

End research_results.

Lemma present_exe_path_shadows_path_witness :
  ai_researcher._guess_category (H := demo.runtime)
    (<["command" := PStr "C:\steam\helper.exe"]> samples.pathless)
  = ai_researcher._guess_category (H := demo.runtime) samples.pathless.
Proof.
  apply (present_exe_path_shadows_path (H := demo.runtime) samples.pathless (PStr "")
           (PStr "C:\steam\helper.exe")).
  reflexivity.
Defined.

Lemma research_result_schema_witness :
  ∃ res : record,
    ai_researcher.research_item (H := demo.runtime) demo.researcher
      "2026-11-04T09:00:00" demo.xclient "service" = Some res ∧
    dom res = RESULT_FIELDS.
Proof.
  assert (is_Some (ai_researcher.research_item (H := demo.runtime) demo.researcher
                     "2026-11-04T09:00:00" demo.xclient "service"))
    as [res Hres] by (apply is_Some_alt; vm_compute; exact I).
  exists res. split; [exact Hres|].
  by apply (research_result_schema (H := demo.runtime) demo.researcher
              "2026-11-04T09:00:00" demo.xclient "service" res).
Defined.

(** ** More on the audit journal *)

Lemma rollback_block_length c :
  length (rollback_block c) = if reversible c then 3%nat else 0%nat.
Proof.
  destruct c as [now a t ty b af cmd ok err| |]; simpl; [|done..].
  by destruct (ok && negb (String.eqb cmd "")).
Qed.

Lemma length_flat_map_blocks (calls : list logger.call) :
  length (flat_map rollback_block calls)
  = (3 * length (filter (λ c, reversible c = true) calls))%nat.
Proof.
  induction calls as [|c calls IH]; [done|].
  simpl. rewrite length_app, IH, rollback_block_length.
  destruct (reversible c) eqn:Hc.
  - rewrite filter_cons_True by done. simpl. lia.
  - rewrite filter_cons_False by congruence. lia.
Qed.

Section journal_more.
Context `{PyBuiltins}.

Lemma changes_do_call self c :
  logger.changes (logger.do_call self c)
  = logger.changes self ++ option_list (change_of c).
Proof. destruct c; simpl; by rewrite ?app_nil_r. Qed.

Lemma changes_run self calls :
  logger.changes (logger.run self calls) = logger.changes self ++ omap change_of calls.
Proof.
  unfold logger.run. revert self.
  induction calls as [|c calls IH]; intros self; simpl.
  - by rewrite app_nil_r.
  - rewrite IH, changes_do_call, <- app_assoc. by destruct (change_of c).
Qed.

Lemma log_text_do_call self c :
  ∃ text, logger.log_text (logger.do_call self c) = logger.log_text self +:+ text.
Proof. destruct c; simpl; eauto. Qed.

Lemma append_assoc (s1 s2 s3 : string) : (s1 +:+ s2) +:+ s3 = s1 +:+ (s2 +:+ s3).
Proof.
  induction s1 as [|c s1 IH]; [done|].
  change (String c ((s1 +:+ s2) +:+ s3) = String c (s1 +:+ (s2 +:+ s3))).
  by f_equal.
Qed.

Lemma append_nil_r (s : string) : s +:+ "" = s.
Proof.
  induction s as [|c s IH]; [done|].
  change (String c (s +:+ "") = String c s). by f_equal.
Qed.

Lemma log_text_run self calls :
  ∃ text, logger.log_text (logger.run self calls) = logger.log_text self +:+ text.
Proof.
  unfold logger.run. revert self.
  induction calls as [|c calls IH]; intros self; simpl.
  - exists "". by rewrite append_nil_r.
  - destruct (IH (logger.do_call self c)) as [t2 ->].
    destruct (log_text_do_call self c) as [t1 ->].
    exists (t1 +:+ t2). apply append_assoc.
Qed.

Lemma files_do_call self c :
  logger.session_id (logger.do_call self c) = logger.session_id self ∧
  logger.output_dir (logger.do_call self c) = logger.output_dir self ∧
  logger.log_file (logger.do_call self c) = logger.log_file self ∧
  logger.rollback_file (logger.do_call self c) = logger.rollback_file self ∧
  logger.rollback_text (logger.do_call self c) = logger.rollback_text self ∧
  logger.yaml_log (logger.do_call self c) = logger.yaml_log self.
Proof. by destruct c. Qed.

Lemma files_run self calls :
  logger.session_id (logger.run self calls) = logger.session_id self ∧
  logger.output_dir (logger.run self calls) = logger.output_dir self ∧
  logger.log_file (logger.run self calls) = logger.log_file self ∧
  logger.rollback_file (logger.run self calls) = logger.rollback_file self ∧
  logger.rollback_text (logger.run self calls) = logger.rollback_text self ∧
  logger.yaml_log (logger.run self calls) = logger.yaml_log self.
Proof.
  unfold logger.run. revert self.
  induction calls as [|c calls IH]; intros self; simpl; [done|].
  destruct (IH (logger.do_call self c)) as (-> & -> & -> & -> & -> & ->).
  apply files_do_call.
Qed.

(** X19.  The lines the rollback script lists for a whole session are, going
    through the calls from the last to the first, the reversed block (blank,
    command, label) of every successful recording with a non-empty rollback
    command; a failed recording, a successful one with an empty command, a
    dry run and a message contribute no line, so there are three lines per
    reversible recording. *)
Theorem rollback_lines_of_session (output_dir : option string) (stamp now : string)
    (calls : list logger.call) :
  let session := logger.run (logger.__init__ output_dir stamp now) calls in
  logger.rollback_lines session = flat_map (λ c, rev (rollback_block c)) (rev calls) ∧
  (∀ c, rollback_block c = [] ↔ reversible c = false) ∧
  length (logger.rollback_lines session)
  = (3 * length (filter (λ c, reversible c = true) calls))%nat.
Proof.
  simpl. split_and!.
  - apply rollback_lines_run.
  - intros c. pose proof (rollback_block_length c) as Hlen.
    destruct (reversible c), (rollback_block c); simpl in Hlen; split; congruence.
  - unfold logger.rollback_lines.
    rewrite length_rev, rollback_commands_run. simpl. apply length_flat_map_blocks.
Qed.

(** X20.  The journal is append-only.  Whatever calls are made, the changes
    recorded before are still there, followed by one entry per [log_change]
    call (failed ones too) in call order and none for dry runs and messages;
    the execution log keeps its earlier text as a prefix; and the session id,
    the file paths, the rollback script and the structured log are not
    touched by logging. *)
Theorem journal_append_only (self : logger.AuditLogger) (calls : list logger.call) :
  let after := logger.run self calls in
  logger.changes after = logger.changes self ++ omap change_of calls ∧
  logger.rollback_commands after
    = logger.rollback_commands self ++ flat_map rollback_block calls ∧
  (∃ text, logger.log_text after = logger.log_text self +:+ text) ∧
  logger.session_id after = logger.session_id self ∧
  logger.log_file after = logger.log_file self ∧
  logger.rollback_file after = logger.rollback_file self ∧
  logger.rollback_text after = logger.rollback_text self ∧
  logger.yaml_log after = logger.yaml_log self.
Proof.
  simpl. destruct (files_run self calls) as (? & ? & ? & ? & ? & ?).
  split_and!; try done.
  - apply changes_run.
  - apply rollback_commands_run.
  - apply log_text_run.
Qed.

End journal_more.

Lemma count_by_type_lookup (successful : list logger.Change)
    (by_type : gmap string nat) (t : string) :
  logger.count_by_type successful by_type !! t
  = match length (filter (λ c, logger.target_type c = t) successful) with
    | O => by_type !! t
    | S n => Some (default 0 (by_type !! t) + S n)%nat
    end.
Proof.
  revert by_type. induction successful as [|c rest IH]; intros by_type.
  { by rewrite filter_nil. }
  simpl. rewrite IH. destruct (decide (logger.target_type c = t)) as [Ht|Hne].
  - rewrite filter_cons_True by done. rewrite Ht, lookup_insert_eq. simpl.
    destruct (length (filter _ rest)); f_equal; lia.
  - rewrite filter_cons_False by done. by rewrite lookup_insert_ne.
Qed.

Lemma filter_success_type (t : string) (changes : list logger.Change) :
  filter (λ c, logger.target_type c = t) (filter (λ c, logger.success c = true) changes)
  = successes_of_type t changes.
Proof.
  unfold successes_of_type.
  induction changes as [|c changes IH]; [done|].
  destruct (decide (logger.success c = true)) as [Hs|Hs].
  - rewrite (filter_cons_True (λ c, logger.success c = true)) by done.
    destruct (decide (logger.target_type c = t)) as [Ht|Ht].
    + rewrite !filter_cons_True by done. by rewrite IH.
    + rewrite !filter_cons_False by tauto. done.
  - rewrite (filter_cons_False (λ c, logger.success c = true)) by done.
    rewrite filter_cons_False by tauto. done.
Qed.

Lemma length_filter_success (changes : list logger.Change) :
  (length (filter (λ c, logger.success c = true) changes)
   + length (filter (λ c, logger.success c = false) changes)
   = length changes)%nat.
Proof.
  induction changes as [|c changes IH]; [done|].
  destruct (logger.success c) eqn:Hs.
  - rewrite filter_cons_True, filter_cons_False by congruence. simpl. lia.
  - rewrite filter_cons_False, filter_cons_True by congruence. simpl. lia.
Qed.

(** X21.  In the journal's summary every change is counted once, as
    successful or as failed; [by_type] has a key exactly for the target types
    of successful changes and maps each to the number of successful changes
    of that type; failed changes are in no type count. *)
Theorem journal_summary_counts (self : logger.AuditLogger) :
  let s := logger.get_summary self in
  logger.total_changes s = length (logger.changes self) ∧
  logger.total_changes s = (logger.successful s + logger.failed s)%nat ∧
  (∀ t, logger.by_type s !! t
        = match length (successes_of_type t (logger.changes self)) with
          | O => None
          | S n => Some (S n)
          end) ∧
  (∀ t n, logger.by_type s !! t = Some n → (0 < n ≤ logger.successful s)%nat).
Proof.
  simpl.
  assert (∀ t, logger.count_by_type
                 (filter (λ c, logger.success c = true) (logger.changes self)) ∅ !! t
               = match length (successes_of_type t (logger.changes self)) with
                 | O => None
                 | S n => Some (S n)
                 end) as Hby.
  { intros t. rewrite count_by_type_lookup, filter_success_type, lookup_empty.
    by destruct (length _). }
  split_and!; [done| |done|].
  - by rewrite length_filter_success.
  - intros t n. rewrite Hby.
    pose proof (length_filter (λ c, logger.target_type c = t)
                  (filter (λ c, logger.success c = true) (logger.changes self))) as Hle.
    rewrite filter_success_type in Hle.
    destruct (length (successes_of_type t _)); [done|]. intros [= <-]. lia.
Qed.

Section session_summary.
Context `{PyBuiltins}.

(** X22.  After a session, the summary counts one change per [log_change]
    call, successful or failed as the call said, whatever dry runs and
    messages were made in between, and carries the session id the journal
    was created with; the rollback script has at most three lines per
    successful change. *)
Theorem session_summary_counts_calls (output_dir : option string)
    (stamp now : string) (calls : list logger.call) :
  let session := logger.run (logger.__init__ output_dir stamp now) calls in
  let s := logger.get_summary session in
  logger.total_changes s = length (omap change_of calls) ∧
  logger.successful s
    = length (filter (λ c, logger.success c = true) (omap change_of calls)) ∧
  logger.failed s
    = length (filter (λ c, logger.success c = false) (omap change_of calls)) ∧
  logger.summary_session_id s = stamp ∧
  (length (logger.rollback_lines session) ≤ 3 * logger.successful s)%nat.
Proof.
  cbv zeta.
  assert (logger.changes (logger.run (logger.__init__ output_dir stamp now) calls)
          = omap change_of calls) as Hch by (by rewrite changes_run).
  destruct (files_run (logger.__init__ output_dir stamp now) calls) as (Hid & _).
  unfold logger.get_summary. cbn [logger.total_changes logger.successful logger.failed
    logger.summary_session_id]. rewrite Hch, Hid.
  split_and!; try done.
  unfold logger.rollback_lines. rewrite length_rev, rollback_commands_run.
  change (logger.rollback_commands (logger.__init__ output_dir stamp now)) with (@nil string).
  rewrite app_nil_l, length_flat_map_blocks.
  assert (length (filter (λ c, reversible c = true) calls)
          ≤ length (filter (λ c, logger.success c = true) (omap change_of calls)))%nat;
    [|lia].
  clear. induction calls as [|c calls IH]; [done|].
  assert (omap change_of (c :: calls)
          = option_list (change_of c) ++ omap change_of calls) as ->
    by (simpl; by destruct (change_of c)).
  rewrite filter_app, length_app.
  destruct (reversible c) eqn:Hrev.
  - rewrite filter_cons_True by done.
    destruct c as [t a tg ty b af cmd ok err| |]; try done.
    simpl in Hrev. apply andb_prop in Hrev as [-> _].
    simpl. lia.
  - rewrite filter_cons_False by congruence. lia.
Qed.

End session_summary.

Lemma journal_summary_counts_witness :
  logger.by_type
    (logger.get_summary (logger.run (H := demo.runtime) demo.journal demo.foo_then_bar))
    !! "service" = Some 2%nat.
Proof.
  pose proof (journal_summary_counts
                (logger.run (H := demo.runtime) demo.journal demo.foo_then_bar)) as Hs.
  cbv zeta in Hs. destruct Hs as (_ & _ & Hby & _).
  rewrite Hby. reflexivity.
Defined.

(** ** The analysis run *)

Lemma kb_first_elem test (kb : knowledge_base) info :
  kb_first test kb = Some info →
  ∃ known_name, (known_name, info) ∈ kb ∧ test known_name = true.
Proof.
  unfold kb_first.
  destruct (list_find _ kb) as [[i [known_name info']]|] eqn:Hfind; [|done].
  intros [= ->]. apply list_find_Some in Hfind as (Hi & Ht & _).
  exists known_name. split; [|done]. by eapply list_elem_of_lookup_2.
Qed.

Lemma found_cases (kb : knowledge_base) (o : option (gmap string pyval)) :
  (∀ info, o = Some info → ∃ known_name, (known_name, info) ∈ kb) →
  found o = PNone ∨ ∃ known_name info, (known_name, info) ∈ kb ∧ found o = PDict info.
Proof.
  destruct o as [info|]; [|by left]. intros Hin. right.
  destruct (Hin info eq_refl) as [known_name ?]. by exists known_name, info.
Qed.

Lemma option_union_Some {A} (o1 o2 : option A) x :
  o1 ∪ o2 = Some x → o1 = Some x ∨ o2 = Some x.
Proof. destruct o1, o2; intros [=]; subst; eauto. Qed.

Lemma deref_Some (P : record → Prop) (h : heap) (items : list loc) :
  (∀ l, l ∈ items → ∃ r, h !! l = Some r ∧ P r) →
  ∃ rs, deref h items = Some rs ∧ Forall P rs ∧ length rs = length items.
Proof.
  unfold deref. induction items as [|l items IH]; intros Hall.
  - exists []. by split_and!.
  - destruct (Hall l) as (r & Hr & HP); [by left|].
    destruct IH as (rs & Hrs & HPs & Hlen); [intros l' Hl'; apply Hall; by right|].
    exists (r :: rs). simpl. rewrite Hr. simpl. rewrite Hrs. simpl.
    split_and!; [done|by constructor|by rewrite Hlen].
Qed.

Section analysis.
Context `{PyBuiltins}.

Lemma mark_named self f (r r' : record) :
  mark self f r = Some r' → named r → named r'.
Proof.
  intros Hm [name Hname]. exists name.
  rewrite (mark_lookup_ne _ _ _ _ _ Hm); [done|].
  by apply not_elem_of_added_fields.
Qed.

Lemma mark_classified self f (r r' : record) :
  mark self f r = Some r' → named r → classified (known_processes self) r'.
Proof.
  intros Hm Hnamed. split; [by eapply mark_named|].
  destruct Hnamed as [name Hname].
  apply mark_Some in Hm as (rs & info & _ & Hinfo & ->).
  split; [exists (PStr <$> rs); read_fields|].
  assert (Py.get r "name" (PStr "") = PStr name) as Hget
    by (unfold Py.get; by rewrite Hname).
  rewrite Hget, get_known_info_found in Hinfo. injection Hinfo as <-.
  rewrite lookup_insert_eq.
  destruct (found_cases (known_processes self)
              (kb_first (kb_exact name) (known_processes self)
               ∪ kb_first (kb_folded name) (known_processes self)))
    as [->|(known_name & info & Hin & ->)]; [|by left|right; eauto].
  intros info [Hk|Hk]%option_union_Some;
    apply kb_first_elem in Hk as (known_name & ? & _); eauto.
Qed.

(** One filter operation of the run: it returns, classifies the records of
    its list, and leaves every object of the store named, well formed and
    classified if it was. *)
Lemma filter_op_step self k items (h : heap) :
  inventory k items h →
  ∃ h', filter_op self k items h = Some (items, h') ∧
        (∀ l, l ∈ items →
              ∃ r', h' !! l = Some r' ∧ classified (known_processes self) r') ∧
        (∀ k' items', inventory k' items' h → inventory k' items' h') ∧
        (∀ l r, h !! l = Some r → classified (known_processes self) r →
                ∃ r', h' !! l = Some r' ∧ classified (known_processes self) r').
Proof.
  intros Hinv.
  destruct (filter_op_total self k items h) as [[items0 h'] Hop].
  { intros l Hl. destruct (Hinv l Hl) as (r & ? & _ & ?). eauto. }
  pose proof Hop as [-> Hlook]%filter_op_lookup.
  exists h'. split_and!; [done|..].
  - intros l Hl. destruct (Hlook l) as [_ (r & r' & Hr & Hm & Hr')]; [done|].
    destruct (Hinv l Hl) as (r0 & Hr0 & Hnamed & _).
    assert (r0 = r) as -> by congruence.
    exists r'. split; [done|]. by eapply mark_classified.
  - intros k' items' Hinv' l Hl. destruct (Hinv' l Hl) as (r & Hr & Hnamed & Hwf).
    destruct (decide (l ∈ items)) as [Hin|Hout].
    + destruct (Hlook l) as [_ (r0 & r' & Hr0 & Hm & Hr')]; [done|].
      assert (r0 = r) as -> by congruence.
      exists r'. split_and!; [done|by eapply mark_named|].
      by rewrite (mark_well_formed _ _ _ _ _ Hm).
    + destruct (Hlook l) as [Hsame _]. exists r. by rewrite Hsame.
  - intros l r Hr Hcl. destruct (decide (l ∈ items)) as [Hin|Hout].
    + destruct (Hlook l) as [_ (r0 & r' & Hr0 & Hm & Hr')]; [done|].
      assert (r0 = r) as -> by congruence.
      exists r'. split; [done|]. eapply mark_classified; [done|]. by destruct Hcl.
    + destruct (Hlook l) as [Hsame _]. exists r. by rewrite Hsame.
Qed.

Lemma lookup_known_cases (self : ai_researcher.AIResearcher) name :
  ∃ v, ai_researcher._lookup_known self (PStr name) = Some v ∧
       (Py.truthy v = false ∨
        ∃ known_name info,
          (known_name, info) ∈ ai_researcher.known_processes self ∧
          v = PDict info ∧ info ≠ ∅).
Proof.
  rewrite lookup_known_found. eexists. split; [done|].
  set (kb := ai_researcher.known_processes self).
  destruct (found_cases kb (kb_first (kb_exact name) kb ∪ kb_first (kb_folded name) kb
                            ∪ kb_first (kb_partial name) kb))
    as [->|(known_name & info & Hin & ->)]; [|by left|].
  - intros info [[Hk|Hk]%option_union_Some|Hk]%option_union_Some;
      apply kb_first_elem in Hk as (known_name & ? & _); eauto.
  - destruct (Py.truthy (PDict info)) eqn:Ht; [|by left].
    right. exists known_name, info. by apply truthy_PDict in Ht.
Qed.

Lemma resolve_known_cases (kb : knowledge_base) (self : ai_researcher.AIResearcher)
    (item : record) name :
  classified kb item →
  ∃ v, ai_researcher.resolve_known self item (PStr name) = Some v ∧
       (Py.truthy v = false ∨
        ∃ known_name info,
          ((known_name, info) ∈ kb ∨
           (known_name, info) ∈ ai_researcher.known_processes self) ∧
          v = PDict info ∧ info ≠ ∅).
Proof.
  intros (_ & _ & Hki). unfold ai_researcher.resolve_known.
  destruct (Py.truthy (Py.get_ item "known_info")) eqn:Ht.
  - destruct Hki as [Hki|(known_name & info & Hin & Hki)];
      unfold Py.get_, Py.get in *; rewrite Hki in *; [done|].
    eexists. split; [done|]. right. exists known_name, info.
    split_and!; [by left|done|by apply truthy_PDict].
  - destruct (lookup_known_cases self name)
      as (v & -> & [?|(known_name & info & ? & ? & ?)]); eauto 10.
Qed.

(** Research of a classified record returns a result aggregation accepts. *)
Lemma research_item_classified (kb : knowledge_base)
    (self : ai_researcher.AIResearcher) now (item : record) item_type :
  actionable kb → actionable (ai_researcher.known_processes self) →
  classified kb item →
  ∃ res, ai_researcher.research_item self now item item_type = Some res ∧ listed res.
Proof.
  intros Hkb Hkb' Hcl. pose proof Hcl as ([name Hname] & [rs Hrs] & _).
  assert (∀ dflt, Py.get item "name" dflt = PStr name) as Hget
    by (intros; unfold Py.get; by rewrite Hname).
  destruct (resolve_known_cases kb self item name Hcl) as (v & Hres & Hv).
  unfold ai_researcher.research_item. rewrite Hget, Hres.
  cbn [mbind option_bind].
  destruct Hv as [Hv|(known_name & info & Hin & -> & Hne)].
  - rewrite Hv. cbn iota.
    destruct (generate_research_notes_total item item_type rs Hrs) as [notes Hnotes].
    rewrite (guess_category_first_bucket item name (Hget _)), Hnotes.
    cbn [mbind option_bind].
    eexists. split; [reflexivity|].
    unfold listed, recommendation_of, Py.get, Py.update. cbn [foldl fst snd].
    split; [read_fields; eauto|].
    exists "REVIEW". split; [set_solver|]. read_fields.
  - assert (∃ b, b ∈ BUCKETS ∧ Py.get_ info "recommendation" = PStr b)
      as (b & Hb & Hrec).
    { unfold actionable in *. rewrite Forall_forall in Hkb, Hkb'.
      destruct Hin as [Hin|Hin]; [apply (Hkb _ Hin)|apply (Hkb' _ Hin)]; done. }
    apply truthy_PDict in Hne. rewrite Hne.
    cbn [mbind option_bind ai_researcher.as_dict].
    eexists. split; [reflexivity|].
    unfold listed, recommendation_of, Py.get, Py.update. cbn [foldl fst snd].
    split; [read_fields; eauto|].
    exists b. split; [done|]. rewrite <- Hrec. read_fields.
Qed.

Lemma research_kind_classified (kb : knowledge_base)
    (self : ai_researcher.AIResearcher) clock item_type items tick out :
  actionable kb → actionable (ai_researcher.known_processes self) →
  Forall (classified kb) items →
  ∃ news,
    ai_researcher.research_kind self clock item_type items tick out
      = Some ((tick + length news)%nat, out ++ news) ∧
    length news = length (get_suspects_only items) ∧
    Forall listed news.
Proof.
  intros Hkb Hkb' Hall. revert tick out.
  induction Hall as [|item items Hcl _ IH]; intros tick out; simpl.
  - exists []. by rewrite Nat.add_0_r, app_nil_r.
  - unfold get_suspects_only in *.
    destruct (Py.truthy (Py.get_ item "is_suspect")) eqn:Hs.
    + destruct (research_item_classified kb self (clock tick) item item_type
                  Hkb Hkb' Hcl) as (res & -> & Hres). simpl.
      destruct (IH (S tick) (out ++ [res])) as (news & -> & Hlen & Hnews).
      exists (res :: news). rewrite <- (assoc_L (++)). simpl.
      rewrite filter_cons_True by done. simpl.
      split_and!; [do 2 f_equal; lia|by rewrite Hlen|by constructor].
    + destruct (IH tick out) as (news & -> & Hlen & Hnews).
      exists news. by rewrite filter_cons_False by congruence.
Qed.

Lemma research_all_suspects_classified (kb : knowledge_base)
    (self : ai_researcher.AIResearcher) clock
    (processes services startup_items tasks : list record) :
  actionable kb → actionable (ai_researcher.known_processes self) →
  Forall (classified kb) processes → Forall (classified kb) services →
  Forall (classified kb) startup_items → Forall (classified kb) tasks →
  ∃ res,
    ai_researcher.research_all_suspects self clock processes services startup_items tasks
      = Some res ∧
    Forall (λ e : string * record, listed e.2) (traversal res) ∧
    length (traversal res)
    = (length (get_suspects_only processes) + length (get_suspects_only services)
       + length (get_suspects_only startup_items)
       + length (get_suspects_only tasks))%nat.
Proof.
  intros Hkb Hkb' H1 H2 H3 H4. unfold ai_researcher.research_all_suspects.
  destruct (research_kind_classified kb self clock "process" processes 0 []
              Hkb Hkb' H1) as (r1 & -> & Hl1 & Hr1). simpl.
  destruct (research_kind_classified kb self clock "service" services (length r1) []
              Hkb Hkb' H2) as (r2 & -> & Hl2 & Hr2). simpl.
  destruct (research_kind_classified kb self clock "startup" startup_items
              (length r1 + length r2) [] Hkb Hkb' H3) as (r3 & -> & Hl3 & Hr3). simpl.
  destruct (research_kind_classified kb self clock "task" tasks
              (length r1 + length r2 + length r3) [] Hkb Hkb' H4)
    as (r4 & -> & Hl4 & Hr4). simpl.
  eexists. split; [reflexivity|].
  unfold traversal. simpl. rewrite app_nil_r.
  rewrite !Forall_app, !Forall_fmap, !length_app, !length_fmap.
  split; [by split_and!|lia].
Qed.

End analysis.

Lemma get_summary_Some_counts (processes services startup_items tasks : list record) s :
  get_summary processes services startup_items tasks = Some s →
  total (summary_processes s) = length processes ∧
  total (summary_services s) = length services ∧
  total (summary_startup_items s) = length startup_items ∧
  total (summary_tasks s) = length tasks ∧
  total_suspects s
  = (length (get_suspects_only processes) + length (get_suspects_only services)
     + length (get_suspects_only startup_items)
     + length (get_suspects_only tasks))%nat.
Proof.
  unfold get_summary.
  destruct (summary_items (get_suspects_only processes)); [|done].
  destruct (summary_items (get_suspects_only services)); [|done].
  destruct (summary_items (get_suspects_only startup_items)); [|done].
  destruct (summary_items (get_suspects_only tasks)); [|done].
  simpl. by intros [= <-].
Qed.

Lemma classified_summarised (kb : knowledge_base) (records : list record) :
  Forall (classified kb) records →
  Forall (λ p : record,
            Py.truthy (Py.get_ p "is_suspect") = true →
            is_Some (p !! "name") ∧ is_Some (p !! "suspect_reasons")) records.
Proof.
  intros Hall. eapply Forall_impl; [exact Hall|].
  intros p ([name Hname] & [rs Hrs] & _) _. rewrite Hname, Hrs. eauto.
Qed.

Section analysis_run.
Context `{PyBuiltins}.

(** X23.  The analysis run of [analyze_suspects.py] on inventories of named,
    well-formed records, with knowledge bases whose non-empty entries all
    recommend one of the four actions: the four filter operations, the
    summary, the research and the aggregation all return; the summary counts
    every list in full; and the number of suspects the summary reports is the
    number of research results and the number of entries in the four buckets
    together.  References shared between the lists are allowed. *)
Theorem analysis_run_counts_agree (sfilter : SuspectFilter)
    (researcher : ai_researcher.AIResearcher) (clock : nat → string)
    (processes services startup_items tasks : list loc) (h : heap) :
  inventory Process processes h →
  inventory Service services h →
  inventory StartupItem startup_items h →
  inventory ScheduledTask tasks h →
  actionable (known_processes sfilter) →
  actionable (ai_researcher.known_processes researcher) →
  ∃ h' summary res recs,
    analyze_suspects.analyze sfilter researcher clock
      processes services startup_items tasks h = Some (h', summary, res, recs) ∧
    total (summary_processes summary) = length processes ∧
    total (summary_services summary) = length services ∧
    total (summary_startup_items summary) = length startup_items ∧
    total (summary_tasks summary) = length tasks ∧
    total_suspects summary = length (traversal res) ∧
    (∀ b, b ∈ BUCKETS → recs !! b = Some (bucket b res)) ∧
    (length (bucket "REMOVE" res) + length (bucket "DISABLE" res)
     + length (bucket "KEEP" res) + length (bucket "REVIEW" res)
     = total_suspects summary)%nat.
Proof.
  intros Hp Hs Hst Ht Hkb Hkb'.
  destruct (filter_op_step sfilter Process processes h Hp)
    as (h1 & Hop1 & Hc1 & Hinv1 & Hk1).
  destruct (filter_op_step sfilter Service services h1 (Hinv1 _ _ Hs))
    as (h2 & Hop2 & Hc2 & Hinv2 & Hk2).
  destruct (filter_op_step sfilter StartupItem startup_items h2
              (Hinv2 _ _ (Hinv1 _ _ Hst))) as (h3 & Hop3 & Hc3 & Hinv3 & Hk3).
  destruct (filter_op_step sfilter ScheduledTask tasks h3
              (Hinv3 _ _ (Hinv2 _ _ (Hinv1 _ _ Ht)))) as (h4 & Hop4 & Hc4 & _ & Hk4).
  simpl in Hop1, Hop2, Hop3, Hop4.
  destruct (deref_Some (classified (known_processes sfilter)) h4 processes)
    as (fp & Hfp & Hcp & Hlp).
  { intros l Hl. destruct (Hc1 l Hl) as (r1 & Hr1 & Hcl1).
    destruct (Hk2 _ _ Hr1 Hcl1) as (r2 & Hr2 & Hcl2).
    destruct (Hk3 _ _ Hr2 Hcl2) as (r3 & Hr3 & Hcl3).
    by apply (Hk4 _ _ Hr3 Hcl3). }
  destruct (deref_Some (classified (known_processes sfilter)) h4 services)
    as (fs & Hfs & Hcs & Hls).
  { intros l Hl. destruct (Hc2 l Hl) as (r2 & Hr2 & Hcl2).
    destruct (Hk3 _ _ Hr2 Hcl2) as (r3 & Hr3 & Hcl3).
    by apply (Hk4 _ _ Hr3 Hcl3). }
  destruct (deref_Some (classified (known_processes sfilter)) h4 startup_items)
    as (fi & Hfi & Hci & Hli).
  { intros l Hl. destruct (Hc3 l Hl) as (r3 & Hr3 & Hcl3).
    by apply (Hk4 _ _ Hr3 Hcl3). }
  destruct (deref_Some (classified (known_processes sfilter)) h4 tasks)
    as (ft & Hft & Hct & Hlt); [done|].
  destruct (proj2 (get_summary_is_Some fp fs fi ft)) as [summary Hsum].
  { rewrite !Forall_app. split_and!; by eapply classified_summarised. }
  destruct (research_all_suspects_classified (known_processes sfilter) researcher clock
              fp fs fi ft Hkb Hkb' Hcp Hcs Hci Hct) as (res & Hres & Hlisted & Hlen).
  destruct (generate_recommendations_valid res Hlisted) as (recs & Hrecs & _ & Hb).
  destruct (get_summary_Some_counts _ _ _ _ _ Hsum) as (? & ? & ? & ? & Htot).
  exists h4, summary, res, recs.
  unfold analyze_suspects.analyze.
  rewrite Hop1. cbn [mbind option_bind fst snd]. rewrite Hop2.
  cbn [mbind option_bind fst snd]. rewrite Hop3.
  cbn [mbind option_bind fst snd]. rewrite Hop4.
  cbn [mbind option_bind fst snd]. rewrite Hfp, Hfs, Hfi, Hft.
  cbn [mbind option_bind]. rewrite Hsum. cbn [mbind option_bind].
  rewrite Hres. cbn [mbind option_bind]. rewrite Hrecs. cbn [mbind option_bind].
  split_and!; [done|congruence..|by rewrite Htot, Hlen|done|].
  rewrite Htot, <- Hlen. unfold bucket. rewrite !length_fmap.
  apply listed_partition. eapply Forall_impl; [exact Hlisted|]. by intros e [_ ?].
Qed.

End analysis_run.

(** The run on the sample inventories: the object listed twice is counted
    in both lists, with the marking of the last filter that reached it. *)
Example analysis_of_sample_inventories :
  (λ out : heap * FilterSummary * ai_researcher.results * ai_researcher.recommendations,
     (total_suspects out.1.1.2, length (traversal out.1.2),
      length <$> out.2 !! "REMOVE", length <$> out.2 !! "REVIEW"))
  <$> analyze_suspects.analyze (H := demo.runtime) samples.rated_filter
        samples.rated_researcher samples.clock
        [1; 2]%positive [4; 2]%positive [3]%positive [] samples.inventories
  = Some (4%nat, 4%nat, Some 2%nat, Some 2%nat).
Proof. vm_compute. reflexivity. Qed.

Lemma analysis_run_counts_agree_witness :
  ∃ h' summary res recs,
    analyze_suspects.analyze (H := demo.runtime) samples.rated_filter
      samples.rated_researcher samples.clock
      [1; 2]%positive [4; 2]%positive [3]%positive [] samples.inventories
    = Some (h', summary, res, recs) ∧
    total (summary_processes summary) = 2%nat ∧
    total_suspects summary = length (traversal res).
Proof.
  destruct (analysis_run_counts_agree (H := demo.runtime) samples.rated_filter
              samples.rated_researcher samples.clock
              [1; 2]%positive [4; 2]%positive [3]%positive [] samples.inventories)
    as (h' & summary & res & recs & Hrun & Hp & _ & _ & _ & Htot & _).
  - intros l Hl. repeat (apply elem_of_cons in Hl as [->|Hl]);
      [exists demo.explorer; split_and!; [reflexivity|by eexists|reflexivity]
      |exists demo.razer_service; split_and!; [reflexivity|by eexists|reflexivity]
      |by apply elem_of_nil in Hl].
  - intros l Hl. repeat (apply elem_of_cons in Hl as [->|Hl]);
      [exists samples.xbl; split_and!; [reflexivity|by eexists|reflexivity]
      |exists demo.razer_service; split_and!; [reflexivity|by eexists|reflexivity]
      |by apply elem_of_nil in Hl].
  - intros l Hl. repeat (apply elem_of_cons in Hl as [->|Hl]);
      [exists demo.updater; split_and!; [reflexivity|by eexists|reflexivity]
      |by apply elem_of_nil in Hl].
  - intros l Hl. by apply elem_of_nil in Hl.
  - apply Forall_cons_2; [intros _; exists "KEEP"; split; [set_solver|reflexivity]|].
    apply Forall_cons_2; [intros _; exists "REMOVE"; split; [set_solver|reflexivity]|].
    apply Forall_nil_2.
  - apply Forall_cons_2; [intros _; exists "KEEP"; split; [set_solver|reflexivity]|].
    apply Forall_cons_2; [intros _; exists "REMOVE"; split; [set_solver|reflexivity]|].
    apply Forall_nil_2.
  - exists h', summary, res, recs. split_and!; [exact Hrun|exact Hp|exact Htot].
Defined.
